(** * OpenPBS data-store facade: cursor protocol, connection handling,
      statement execution and schema migration

    A shallow embedding of [db_postgres] (the libpq-backed data store of
    the PBS server) and of [svr_migrate_data.c], with the properties of
    the persistence facade stated and proved over it; and of the
    handling of Signal Job requests in [req_signaljob.c], as the trace
    of what it does to the rest of the server.

    Conventions.
    - A C [int] is a [Z]; an increment that would leave the range of
      [int] is undefined behaviour and is kept apart from every
      ordinary result ([Undefined]).
    - A C string is the [list ascii] of the bytes before its
      terminating NUL.
    - Calling a NULL entry of the dispatch table, or writing outside a
      buffer, is [Undefined] as well.
    - Loops are run on a counter computed from the cursor; running out
      of it is the separate result [OutOfFuel], shown to be
      unreachable. *)

From Stdlib Require Import ZArith Ascii String Lia Bool.
From stdpp Require Import base option list.

Open Scope Z_scope.

(** ** Results of running C code *)

Inductive result (A : Type) : Type :=
| Ok (a : A)
| Undefined
| OutOfFuel.

Arguments Ok {A} a.
Arguments Undefined {A}.
Arguments OutOfFuel {A}.

Definition INT_MAX : Z := 2147483647.
Definition INT_MIN : Z := -2147483648.

(** [x++] on an [int]: signed overflow is undefined. *)
Definition int_incr (x : Z) : option Z :=
  if x <? INT_MAX then Some (x + 1) else None.

(** ** Entity kinds, in the order of the rows of [db_fn_arr] *)

Inductive pbs_db_obj_type : Type :=
| PBS_DB_SVR
| PBS_DB_SCHED
| PBS_DB_QUE
| PBS_DB_NODE
| PBS_DB_MOMINFO_TIME
| PBS_DB_JOB
| PBS_DB_JOBSCR
| PBS_DB_RESV.

(** What the facade does to the allocator, to the result set and to the
    entity modules, in the order it does it. *)
Inductive event : Type :=
| EvMalloc (ok : bool)
| EvFind (k : pbs_db_obj_type)
| EvFetch (k : pbs_db_obj_type) (at_row : Z)
| EvCallback (accepted : bool)
| EvPQclear
| EvFree.

Definition is_fetch (e : event) : bool :=
  match e with EvFetch _ _ => true | _ => false end.

Definition is_accept (e : event) : bool :=
  match e with EvCallback true => true | _ => false end.

(** Number of per-row fetches recorded in a trace. *)
Fixpoint fetches (t : list event) : Z :=
  match t with
  | [] => 0
  | e :: t' => (if is_fetch e then 1 else 0) + fetches t'
  end.

(** Number of rows the callback reported as refreshed. *)
Fixpoint accepted_rows (t : list event) : Z :=
  match t with
  | [] => 0
  | e :: t' => (if is_accept e then 1 else 0) + accepted_rows t'
  end.

(** The trace of a pass over the rows from [r] on, one row for each
    flag: the row is fetched and then handed to the callback, which
    accepts it or not. *)
Fixpoint pass_trace (k : pbs_db_obj_type) (r : Z) (flags : list bool) : list event :=
  match flags with
  | [] => []
  | a :: flags' => EvFetch k r :: EvCallback a :: pass_trace k (r + 1) flags'
  end.

(** Number of rows accepted in a pass. *)
Fixpoint accepts (flags : list bool) : Z :=
  match flags with
  | [] => 0
  | a :: flags' => (if a then 1 else 0) + accepts flags'
  end.

(** ** What the facade sees of libpq *)

Inductive ConnStatusType : Type :=
| CONNECTION_OK
| CONNECTION_BAD
| CONNECTION_STARTED
| CONNECTION_MADE
| CONNECTION_AWAITING_RESPONSE
| CONNECTION_AUTH_OK
| CONNECTION_SETENV
| CONNECTION_SSL_STARTUP
| CONNECTION_NEEDED.

(** A session: [PQstatus] and [PQerrorMessage] ([None] for a NULL
    message). *)
Record PGconn : Type := {
  PQstatus : ConnStatusType;
  PQerrorMessage : option (list ascii)
}.

Inductive ExecStatusType : Type :=
| PGRES_EMPTY_QUERY
| PGRES_COMMAND_OK
| PGRES_TUPLES_OK
| PGRES_COPY_OUT
| PGRES_COPY_IN
| PGRES_BAD_RESPONSE
| PGRES_NONFATAL_ERROR
| PGRES_FATAL_ERROR.

(** A result: [PQresultStatus], [PQcmdTuples] (the affected-row count as
    text, empty when the command reports none, [None] for NULL),
    [PQntuples] and the SQLSTATE field of [PQresultErrorField]. *)
Record PGresult : Type := {
  PQresultStatus : ExecStatusType;
  PQcmdTuples : option (list ascii);
  PQntuples : Z;
  PQresultErrorField : option (list ascii)
}.

Section CursorModel.

(** The payload union of [pbs_db_obj_info_t], the query options and the
    server structures the row callback updates are opaque here. *)
Context {Payload Opts Srv : Type}.

Record pbs_db_obj_info_t : Type := {
  pbs_db_obj_type_of : pbs_db_obj_type;
  pbs_db_un : Payload
}.

Definition set_payload (obj : pbs_db_obj_info_t) (p : Payload) : pbs_db_obj_info_t :=
  {| pbs_db_obj_type_of := pbs_db_obj_type_of obj; pbs_db_un := p |}.

(** [query_cb(obj, &refreshed)]: the callback may rewrite the payload and
    the server structures and always stores [refreshed]. *)
Definition query_cb_t : Type :=
  pbs_db_obj_info_t -> Srv -> Payload * Z * Srv.

Record db_query_state_t : Type := {
  res : option PGresult;
  row : Z;
  count : Z;
  query_cb : query_cb_t
}.

Definition set_row (st : db_query_state_t) (r : Z) : db_query_state_t :=
  {| res := res st; row := r; count := count st; query_cb := query_cb st |}.

(** [pbs_db_find_obj(conn, st, obj, opts)] fills the cursor state. *)
Definition find_fn : Type :=
  PGconn -> db_query_state_t -> pbs_db_obj_info_t -> option Opts -> Z * db_query_state_t.

(** [pbs_db_next_obj(conn, st, obj)] loads the row [st->row] of [st->res]
    into the payload; it reads the cursor state and leaves it as it is. *)
Definition next_fn : Type :=
  PGconn -> db_query_state_t -> pbs_db_obj_info_t -> Z * Payload.

(** The find and next columns of a row of the dispatch table; [None] is
    a NULL function pointer. *)
Record pg_db_fn_t : Type := {
  pbs_db_find_obj : option find_fn;
  pbs_db_next_obj : option next_fn
}.

(** The entity modules that implement the columns. *)
Class EntityModules : Type := {
  pbs_db_find_sched : find_fn;
  pbs_db_next_sched : next_fn;
  pbs_db_find_que : find_fn;
  pbs_db_next_que : next_fn;
  pbs_db_find_node : find_fn;
  pbs_db_next_node : next_fn;
  pbs_db_find_job : find_fn;
  pbs_db_next_job : next_fn;
  pbs_db_find_resv : find_fn;
  pbs_db_next_resv : next_fn
}.

Context `{EM : EntityModules}.

Definition db_fn_arr (k : pbs_db_obj_type) : pg_db_fn_t :=
  match k with
  | PBS_DB_SVR => {| pbs_db_find_obj := None; pbs_db_next_obj := None |}
  | PBS_DB_SCHED =>
      {| pbs_db_find_obj := Some pbs_db_find_sched; pbs_db_next_obj := Some pbs_db_next_sched |}
  | PBS_DB_QUE =>
      {| pbs_db_find_obj := Some pbs_db_find_que; pbs_db_next_obj := Some pbs_db_next_que |}
  | PBS_DB_NODE =>
      {| pbs_db_find_obj := Some pbs_db_find_node; pbs_db_next_obj := Some pbs_db_next_node |}
  | PBS_DB_MOMINFO_TIME => {| pbs_db_find_obj := None; pbs_db_next_obj := None |}
  | PBS_DB_JOB =>
      {| pbs_db_find_obj := Some pbs_db_find_job; pbs_db_next_obj := Some pbs_db_next_job |}
  | PBS_DB_JOBSCR => {| pbs_db_find_obj := None; pbs_db_next_obj := None |}
  | PBS_DB_RESV =>
      {| pbs_db_find_obj := Some pbs_db_find_resv; pbs_db_next_obj := Some pbs_db_next_resv |}
  end.

(** The process around a search: whether [malloc] fails, the server
    structures, and the trace so far. *)
Record world : Type := {
  oom : bool;
  srv : Srv;
  trace : list event
}.

Definition log (e : event) (w : world) : world :=
  {| oom := oom w; srv := srv w; trace := trace w ++ [e] |}.

Definition db_initialize_state (conn : PGconn) (cb : query_cb_t) (w : world)
  : option db_query_state_t * world :=
  if oom w then (None, log (EvMalloc false) w)
  else (Some {| res := None; row := -1; count := -1; query_cb := cb |},
        log (EvMalloc true) w).

Definition db_destroy_state (st : option db_query_state_t) (w : world) : world :=
  match st with
  | Some state =>
      let w1 := match res state with Some _ => log EvPQclear w | None => w end in
      log EvFree w1
  | None => w
  end.

Definition db_cursor_next (conn : PGconn) (st : db_query_state_t)
    (obj : pbs_db_obj_info_t) (w : world)
  : result (Z * db_query_state_t * pbs_db_obj_info_t * world) :=
  if row st <? count st then
    match pbs_db_next_obj (db_fn_arr (pbs_db_obj_type_of obj)) with
    | None => Undefined
    | Some next =>
        let '(ret, p) := next conn st obj in
        let w' := log (EvFetch (pbs_db_obj_type_of obj) (row st)) w in
        match int_incr (row st) with
        | None => Undefined
        | Some r => Ok (ret, set_row st r, set_payload obj p, w')
        end
    end
  else Ok (1, st, obj, w).

(** The [while] loop of [pbs_db_search]. *)
Fixpoint search_loop (fuel : nat) (conn : PGconn) (cb : query_cb_t)
    (st : db_query_state_t) (obj : pbs_db_obj_info_t) (totcount : Z) (w : world)
  : result (Z * db_query_state_t * pbs_db_obj_info_t * world) :=
  match fuel with
  | O => OutOfFuel
  | S fuel' =>
      match db_cursor_next conn st obj w with
      | Ok (rc, st', obj', w') =>
          if rc =? 0 then
            let '(p, refreshed, s') := cb obj' (srv w') in
            let w'' := log (EvCallback (negb (refreshed =? 0)))
                           {| oom := oom w'; srv := s'; trace := trace w' |} in
            let obj'' := set_payload obj' p in
            if refreshed =? 0 then search_loop fuel' conn cb st' obj'' totcount w''
            else
              match int_incr totcount with
              | None => Undefined
              | Some t => search_loop fuel' conn cb st' obj'' t w''
              end
          else Ok (totcount, st', obj', w')
      | Undefined => Undefined
      | OutOfFuel => OutOfFuel
      end
  end.

(** What [db_destroy_state] on a live cursor state adds to the trace. *)
Definition destroy_trace (st : db_query_state_t) : list event :=
  match res st with Some _ => [EvPQclear] | None => [] end ++ [EvFree].

(** Calls of [db_cursor_next] a cursor can still answer with 0, plus the
    one that ends the loop. *)
Definition rows_left (st : db_query_state_t) : nat :=
  S (Z.to_nat (count st - row st)).

Definition pbs_db_search (conn : PGconn) (obj : pbs_db_obj_info_t)
    (opts : option Opts) (cb : query_cb_t) (w : world)
  : result (Z * pbs_db_obj_info_t * world) :=
  match db_initialize_state conn cb w with
  | (None, w1) => Ok (-1, obj, w1)
  | (Some st, w1) =>
      match pbs_db_find_obj (db_fn_arr (pbs_db_obj_type_of obj)) with
      | None => Undefined
      | Some find =>
          let '(ret, st1) := find conn st obj opts in
          let w2 := log (EvFind (pbs_db_obj_type_of obj)) w1 in
          if ret =? -1 then Ok (-1, obj, db_destroy_state (Some st1) w2)
          else
            match search_loop (rows_left st1) conn cb st1 obj 0 w2 with
            | Ok (totcount, st2, obj', w3) =>
                Ok (totcount, obj', db_destroy_state (Some st2) w3)
            | Undefined => Undefined
            | OutOfFuel => OutOfFuel
            end
      end
  end.



End CursorModel.

Arguments pbs_db_obj_info_t : clear implicits.
Arguments db_query_state_t : clear implicits.
Arguments world : clear implicits.
Arguments EntityModules : clear implicits.

(** ** A small instance to run the cursor on

    The payload is the index of the row last loaded, the server
    structures are the number of rows the callback has seen, and the
    outcome of a fetch depends on the row alone. *)

Definition demo_conn : PGconn :=
  {| PQstatus := CONNECTION_OK; PQerrorMessage := Some [] |}.

Definition demo_result : PGresult :=
  {| PQresultStatus := PGRES_TUPLES_OK; PQcmdTuples := Some [];
     PQntuples := 5; PQresultErrorField := None |}.

Definition demo_next (fail_at : Z) : @next_fn Z Z :=
  fun _ st _ => (if row st =? fail_at then -1 else 0, row st).

Definition demo_find (ret first n : Z) : @find_fn Z unit Z :=
  fun _ st _ _ =>
    (ret, {| res := Some demo_result; row := first; count := n; query_cb := query_cb st |}).

(** A find that meets no row leaves the state as it was initialised. *)
Definition demo_find_empty : @find_fn Z unit Z :=
  fun _ st _ _ => (1, st).

Definition demo_modules (find : @find_fn Z unit Z) (fail_at : Z)
  : EntityModules Z unit Z :=
  {| pbs_db_find_sched := find; pbs_db_next_sched := demo_next fail_at;
     pbs_db_find_que := find; pbs_db_next_que := demo_next fail_at;
     pbs_db_find_node := find; pbs_db_next_node := demo_next fail_at;
     pbs_db_find_job := find; pbs_db_next_job := demo_next fail_at;
     pbs_db_find_resv := find; pbs_db_next_resv := demo_next fail_at |}.

Definition demo_cb : @query_cb_t Z Z :=
  fun obj s => (pbs_db_un obj, 1, s + 1).

(** A fetch that reads the result set of the cursor: it fails without
    one, and on a row the result set does not have. *)
Definition demo_next_res : @next_fn Z Z :=
  fun _ st _ =>
    match res st with
    | Some r =>
        (if (0 <=? row st) && (row st <? PQntuples r) then 0 else -1, row st)
    | None => (-1, row st)
    end.

Definition demo_modules_res (find : @find_fn Z unit Z) : EntityModules Z unit Z :=
  {| pbs_db_find_sched := find; pbs_db_next_sched := demo_next_res;
     pbs_db_find_que := find; pbs_db_next_que := demo_next_res;
     pbs_db_find_node := find; pbs_db_next_node := demo_next_res;
     pbs_db_find_job := find; pbs_db_next_job := demo_next_res;
     pbs_db_find_resv := find; pbs_db_next_resv := demo_next_res |}.

Definition demo_job : pbs_db_obj_info_t Z :=
  {| pbs_db_obj_type_of := PBS_DB_JOB; pbs_db_un := 0 |}.

Definition demo_world : world Z := {| oom := false; srv := 0; trace := [] |}.

Definition demo_state (r n : Z) : db_query_state_t Z Z :=
  {| res := Some demo_result; row := r; count := n; query_cb := demo_cb |}.

(** ** C strings *)

(** A pointer tested for non-NULL. *)
Definition isSome {A : Type} (o : option A) : bool :=
  match o with Some _ => true | None => false end.

Definition cstr (s : string) : list ascii := list_ascii_of_string s.

Fixpoint is_prefix (n h : list ascii) : bool :=
  match n, h with
  | [], _ => true
  | _ :: _, [] => false
  | c :: n', d :: h' => Ascii.eqb c d && is_prefix n' h'
  end.

(** [strstr(haystack, needle)]: the rest of the haystack from the first
    occurrence of the needle on, [None] for NULL. *)
Fixpoint strstr (h n : list ascii) : option (list ascii) :=
  if is_prefix n h then Some h
  else match h with
       | [] => None
       | _ :: h' => strstr h' n
       end.

Definition is_newline (c : ascii) : bool :=
  Ascii.eqb c "013"%char || Ascii.eqb c "010"%char.

Fixpoint skip_newlines (r : list ascii) : list ascii :=
  match r with
  | [] => []
  | c :: r' => if is_newline c then skip_newlines r' else r
  end.

(** The loop of [db_set_error] that walks back from the last byte and
    overwrites every trailing carriage return or line feed with NUL. *)
Definition suppress_newlines (s : list ascii) : list ascii :=
  rev (skip_newlines (rev s)).

(** An occurrence of [n] inside [h]. *)
Definition occurs (n h : list ascii) : Prop := exists a b, h = a ++ n ++ b.

(** No tail of [p] that is not empty begins [n] or is begun by [n]. *)
Fixpoint clear_of (p n : list ascii) : bool :=
  match p with
  | [] => true
  | _ :: p' => negb (is_prefix p n) && negb (is_prefix n p) && clear_of p' n
  end.

(** ** The classification of a failed connection *)

Inductive db_failcode : Type :=
| PBS_DB_SUCCESS
| PBS_DB_CONNREFUSED
| PBS_DB_AUTH_FAILED
| PBS_DB_CONNFAILED
| PBS_DB_NOMEM
| PBS_DB_STILL_STARTING
| PBS_DB_ERR
| PBS_DB_OOM_ERR.

Definition is_bad (s : ConnStatusType) : bool :=
  match s with CONNECTION_BAD => true | _ => false end.

(** [db_set_error(conn, &errmsg_cache, fnc, msg, diag_msg)]: the new
    value of the cache.  The old one is freed first; with a NULL
    [PQerrorMessage] the cache stays NULL.  The allocation inside
    [pbs_asprintf] is taken to succeed. *)
Definition db_set_error (conn : PGconn) (fnc msg : list ascii)
    (diag_msg : option (list ascii)) : option (list ascii) :=
  match PQerrorMessage conn with
  | None => None
  | Some str =>
      Some (fnc ++ cstr " " ++ msg ++ cstr " failed: " ++ suppress_newlines str
                ++ cstr " " ++ default [] diag_msg)
  end.

(** [is_conn_error(conn, &failcode)], on the session (NULL is [None]),
    the failcode and the error cache before the call; gives the returned
    int, the failcode and the cache after it.  [strstr] on a NULL cache
    is undefined. *)
Definition is_conn_error (conn : option PGconn) (failcode : db_failcode)
    (errmsg_cache : option (list ascii))
  : result (Z * db_failcode * option (list ascii)) :=
  match conn with
  | None => Ok (1, PBS_DB_CONNFAILED, errmsg_cache)
  | Some c =>
      if is_bad (PQstatus c) then
        match db_set_error c (cstr "Connection:") [] (Some []) with
        | None => Undefined
        | Some e =>
            let code :=
              if isSome (strstr e (cstr "Connection refused"))
                 || isSome (strstr e (cstr "No such file or directory"))
              then PBS_DB_CONNREFUSED
              else if isSome (strstr e (cstr "authentication"))
              then PBS_DB_AUTH_FAILED
              else if isSome (strstr e (cstr "database system is starting up"))
              then PBS_DB_STILL_STARTING
              else PBS_DB_CONNFAILED in
            Ok (1, code, Some e)
        end
      else Ok (0, failcode, errmsg_cache)
  end.

(** Whether a diagnostic text contains a phrase. *)
Definition mentions (phrase : string) (diag : list ascii) : bool :=
  isSome (strstr diag (cstr phrase)).

(** ** Numbers as text: [strtol] in base 10 and the [%d] of [sprintf] *)

Definition LONG_MAX : Z := 9223372036854775807.
Definition LONG_MIN : Z := -9223372036854775808.

Definition isspace (c : ascii) : bool :=
  let n := Z.of_nat (nat_of_ascii c) in (n =? 32) || ((9 <=? n) && (n <=? 13)).

Definition digit_val (c : ascii) : option Z :=
  let n := Z.of_nat (nat_of_ascii c) in
  if (48 <=? n) && (n <=? 57) then Some (n - 48) else None.

Fixpoint skip_space (s : list ascii) : list ascii :=
  match s with
  | [] => []
  | c :: s' => if isspace c then skip_space s' else s
  end.

(** The digits at the head of [s], read from the left onto [acc]. *)
Fixpoint digits_value (s : list ascii) (acc : Z) : Z :=
  match s with
  | [] => acc
  | c :: s' =>
      match digit_val c with
      | Some d => digits_value s' (acc * 10 + d)
      | None => acc
      end
  end.

Definition clamp_long (x : Z) : Z := Z.max LONG_MIN (Z.min LONG_MAX x).

(** [strtol(s, NULL, 10)]: white space, an optional sign, digits; what
    follows is ignored, no digit gives 0, and a value out of the range
    of [long] is replaced by the nearest bound. *)
Definition strtol (s : list ascii) : Z :=
  match skip_space s with
  | "-"%char :: s' => clamp_long (- digits_value s' 0)
  | "+"%char :: s' => clamp_long (digits_value s' 0)
  | s' => clamp_long (digits_value s' 0)
  end.

Definition is_digit (d : Z) : Prop := 0 <= d <= 9.

Definition digit_char (d : Z) : ascii := ascii_of_nat (Z.to_nat (48 + d)).

Fixpoint dec_digits (fuel : nat) (n : Z) : list Z :=
  match fuel with
  | O => []
  | S fuel' => if n <? 10 then [n] else dec_digits fuel' (n / 10) ++ [n mod 10]
  end.

(** The decimal text of a number that is not negative. *)
Definition decimal (n : Z) : list ascii :=
  map digit_char (dec_digits (S (Z.to_nat (Z.log2 n))) n).

(** [%d]. *)
Definition print_int (z : Z) : list ascii :=
  if z <? 0 then "-"%char :: decimal (- z) else decimal z.

(** ** Statement execution *)

Definition is_command_ok (s : ExecStatusType) : bool :=
  match s with PGRES_COMMAND_OK => true | _ => false end.

Definition is_tuples_ok (s : ExecStatusType) : bool :=
  match s with PGRES_TUPLES_OK => true | _ => false end.

Section StatementModel.

(** The parameter buffer [conn_data] is opaque; the backend is what
    [PQexecPrepared] and [PQexec] answer.  A NULL answer has the status
    [PGRES_FATAL_ERROR]. *)
Context {ConnData : Type}.
Variable PQexecPrepared : PGconn -> list ascii -> Z -> ConnData -> Z -> PGresult.
Variable PQexec : PGconn -> list ascii -> PGresult.

(** [db_cmd(conn, stmt, num_vars)] on the buffer and the error cache of
    the process; gives the returned int and the cache after the call. *)
Definition db_cmd (conn : PGconn) (conn_data : ConnData) (stmt : list ascii)
    (num_vars : Z) (errmsg_cache : option (list ascii))
  : Z * option (list ascii) :=
  let res := PQexecPrepared conn stmt num_vars conn_data 0 in
  if negb (is_command_ok (PQresultStatus res)) then
    (-1, db_set_error conn (cstr "Execution of Prepared statement") stmt
           (PQresultErrorField res))
  else
    match PQcmdTuples res with
    | None => (1, errmsg_cache)
    | Some rows_affected =>
        if strtol rows_affected <=? 0 then (1, errmsg_cache) else (0, errmsg_cache)
    end.

Definition db_execute_str (conn : PGconn) (sql : list ascii)
    (errmsg_cache : option (list ascii))
  : Z * option (list ascii) :=
  let res := PQexec conn sql in
  let status := PQresultStatus res in
  if negb (is_command_ok status) && negb (is_tuples_ok status) then
    (-1, db_set_error conn (cstr "Execution of string statement" ++ ["010"%char]) sql
           (PQresultErrorField res))
  else
    let no_count :=
      match PQcmdTuples res with
      | None => true
      | Some rows_affected => strtol rows_affected <=? 0
      end in
    if no_count && (PQntuples res <=? 0) then (1, errmsg_cache)
    else (0, errmsg_cache).

End StatementModel.

(** The backend reports no affected row: a NULL or empty count, or the
    count 0. *)
Definition no_rows_reported (r : PGresult) : Prop :=
  PQcmdTuples r = None \/ PQcmdTuples r = Some [] \/ PQcmdTuples r = Some (decimal 0).

(** The backend reports [n] affected rows. *)
Definition rows_reported (n : Z) (r : PGresult) : Prop :=
  PQcmdTuples r = Some (decimal n).

(** The backend took an ad hoc statement. *)
Definition accepted (r : PGresult) : Prop :=
  PQresultStatus r = PGRES_COMMAND_OK \/ PQresultStatus r = PGRES_TUPLES_OK.

(** A backend that answers with one fixed result. *)
Definition demo_exec_prepared (r : PGresult)
  : PGconn -> list ascii -> Z -> unit -> Z -> PGresult :=
  fun _ _ _ _ _ => r.

Definition demo_exec (r : PGresult) : PGconn -> list ascii -> PGresult :=
  fun _ _ => r.

Definition demo_command_result (rows : option (list ascii)) : PGresult :=
  {| PQresultStatus := PGRES_COMMAND_OK; PQcmdTuples := rows;
     PQntuples := 0; PQresultErrorField := None |}.

(** ** Escaping the password *)

Definition NUL : ascii := "000"%char.

(** [buf[i] = c]; outside the buffer the write is undefined. *)
Definition store (buf : list ascii) (i : Z) (c : ascii) : option (list ascii) :=
  if (0 <=? i) && (i <? Z.of_nat (length buf)) then Some (<[Z.to_nat i := c]> buf)
  else None.

(** The text a buffer holds: the bytes before the first NUL. *)
Fixpoint c_string (buf : list ascii) : list ascii :=
  match buf with
  | [] => []
  | c :: buf' => if Ascii.eqb c NUL then [] else c :: c_string buf'
  end.

Definition needs_escape (c : ascii) : bool :=
  Ascii.eqb c "'"%char || Ascii.eqb c "\"%char.

(** The loop of [escape_passwd] with [p - dest] as the index [p]; the
    end of [src], or a NUL in it, is the terminator of the source. *)
Fixpoint escape_loop (src dest : list ascii) (p len : Z) : option (list ascii) :=
  match src with
  | [] => store dest p NUL
  | c :: src' =>
      if Ascii.eqb c NUL then store dest p NUL
      else if p <? len then
        if needs_escape c then
          d1 ← store dest p "\"%char;
          d2 ← store d1 (p + 1) c;
          escape_loop src' d2 (p + 1 + 1) len
        else
          d1 ← store dest p c;
          escape_loop src' d1 (p + 1) len
      else store dest p NUL
  end.

(** [escape_passwd(dest, src, len)]: the buffer after the call, [None]
    when a byte was written outside of it. *)
Definition escape_passwd (dest src : list ascii) (len : Z) : option (list ascii) :=
  escape_loop src dest 0 len.

(** What the specification asks of the escaped text: a backslash in
    front of every single quote and every backslash, the rest as it is. *)
Fixpoint escaped_text (s : list ascii) : list ascii :=
  match s with
  | [] => []
  | c :: s' =>
      if needs_escape c then "\"%char :: c :: escaped_text s' else c :: escaped_text s'
  end.

(** Removing the escape backslashes: the byte after a backslash is taken
    as it is. *)
Fixpoint unescape (s : list ascii) : list ascii :=
  match s with
  | [] => []
  | c :: s' =>
      if Ascii.eqb c "\"%char then
        match s' with
        | [] => []
        | d :: s'' => d :: unescape s''
        end
      else c :: unescape s'
  end.

(** A text without NUL, as a C string is. *)
Definition no_nul (s : list ascii) : Prop := Forall (fun c => c <> NUL) s.

(** ** The connect string *)

Inductive fmt_arg : Type :=
| ArgS (s : list ascii)
| ArgD (z : Z).

(** The text [sprintf] makes of a format with [%s] and [%d] directives;
    [None] for a directive without its argument. *)
Fixpoint format (fmt : list ascii) (args : list fmt_arg) : option (list ascii) :=
  match fmt with
  | [] => Some []
  | c :: fmt' =>
      if Ascii.eqb c "%"%char then
        match fmt' with
        | [] => None
        | d :: fmt'' =>
            if Ascii.eqb d "s"%char then
              match args with
              | ArgS s :: args' => app s <$> format fmt'' args'
              | _ => None
              end
            else if Ascii.eqb d "d"%char then
              match args with
              | ArgD z :: args' => app (print_int z) <$> format fmt'' args'
              | _ => None
              end
            else None
        end
      else cons c <$> format fmt' args
  end.

(** [sprintf] into a buffer of [size] bytes: the text and its NUL have
    to fit. *)
Definition sprintf (size : Z) (fmt : list ascii) (args : list fmt_arg)
  : result (list ascii) :=
  match format fmt args with
  | None => Undefined
  | Some out => if Z.of_nat (length out) + 1 <=? size then Ok out else Undefined
  end.

Definition template1 : list ascii :=
  cstr "hostaddr = '%s' port = %d dbname = '%s' user = '%s' password = '%s' connect_timeout = %d".

Definition template2 : list ascii :=
  cstr "port = %d dbname = '%s' user = '%s' password = '%s' connect_timeout = %d".

Definition IPV4_STR_LEN : Z := 15.
Definition MAXPATHLEN : Z := 1024.

Definition strlen (s : list ascii) : Z := Z.of_nat (length s).
Definition sizeof_str (s : list ascii) : Z := strlen s + 1.

(** [in.s_addr = htonl(hostaddr)]: the four bytes of the address as they
    lie in memory, most significant first. *)
Definition htonl (hostaddr : Z) : Z * Z * Z * Z :=
  (Z.land (Z.shiftr hostaddr 24) 255, Z.land (Z.shiftr hostaddr 16) 255,
   Z.land (Z.shiftr hostaddr 8) 255, Z.land hostaddr 255).

(** [inet_ntoa]: the four bytes in decimal with dots between them. *)
Definition inet_ntoa (a : Z * Z * Z * Z) : option (list ascii) :=
  let '(b1, b2, b3, b4) := a in
  Some (decimal b1 ++ cstr "." ++ decimal b2 ++ cstr "." ++ decimal b3
          ++ cstr "." ++ decimal b4).

(** [strncpy(dst, q, n); dst[n] = 0]. *)
Definition strncpy (q : list ascii) (n : Z) : list ascii := take (Z.to_nat n) q.

(** The file [server_priv/db_password] as [get_dataservice_password]
    meets it. *)
Inductive passwd_file : Type :=
| PwdAbsent
| PwdStatFails
| PwdFile (st_size : Z) (nread : Z) (content : list ascii).

(** What the builder takes from its surroundings. *)
Record conn_env : Type := {
  pbs_get_dataservice_usr : option (list ascii);
  db_password_file : passwd_file;
  pbs_decrypt_pwd : list ascii -> Z -> option (list ascii);
  get_hostaddr : list ascii -> Z;
  pbs_data_service_port : Z;
  PBS_DATA_SERVICE_STORE_NAME : list ascii;
  malloc_fails : nat -> bool;
  heap_garbage : list ascii
}.

(** The [i]-th [malloc] of the call: NULL, or [n] bytes of whatever the
    heap held. *)
Definition malloc (env : conn_env) (i : nat) (n : Z) : option (list ascii) :=
  if malloc_fails env i then None
  else Some (take (Z.to_nat n) (heap_garbage env ++ replicate (Z.to_nat n) NUL)).

Definition get_dataservice_password (env : conn_env) (user : list ascii)
  : option (list ascii) :=
  match db_password_file env with
  | PwdAbsent => Some user
  | PwdStatFails => None
  | PwdFile st_size nread content =>
      if st_size >=? MAXPATHLEN + 1 then None
      else if negb (nread =? st_size) then None
      else pbs_decrypt_pwd env content st_size
  end.

(** [get_db_connect_string(host, timeout, &err_code, errmsg, len)]: the
    returned string (NULL is [None]) and the error code after the call;
    the text of [errmsg] is left out. *)
Definition get_db_connect_string (env : conn_env) (host : option (list ascii))
    (timeout : Z) (err_code : db_failcode)
  : result (option (list ascii) * db_failcode) :=
  match pbs_get_dataservice_usr env with
  | None => Ok (None, PBS_DB_AUTH_FAILED)
  | Some usr =>
      match get_dataservice_password env usr with
      | None => Ok (None, PBS_DB_AUTH_FAILED)
      | Some p =>
          let pquoted_len := strlen p * 2 + 1 in
          match malloc env 0 pquoted_len with
          | None => Ok (None, PBS_DB_NOMEM)
          | Some buf =>
              match escape_passwd buf p pquoted_len with
              | None => Undefined
              | Some pquoted =>
                  let size :=
                    Z.max (sizeof_str template1) (sizeof_str template2)
                    + match host with Some _ => IPV4_STR_LEN | None => 0 end + 5
                    + strlen (PBS_DATA_SERVICE_STORE_NAME env)
                    + strlen usr + strlen p + 10 in
                  match malloc env 1 size with
                  | None => Ok (None, PBS_DB_NOMEM)
                  | Some _ =>
                      match host with
                      | None =>
                          match sprintf size template2
                                  [ArgD (pbs_data_service_port env);
                                   ArgS (PBS_DATA_SERVICE_STORE_NAME env);
                                   ArgS usr; ArgS (c_string pquoted);
                                   ArgD timeout] with
                          | Ok s => Ok (Some s, err_code)
                          | Undefined => Undefined
                          | OutOfFuel => OutOfFuel
                          end
                      | Some h =>
                          let hostaddr := get_hostaddr env h in
                          if hostaddr =? 0 then Ok (None, PBS_DB_CONNFAILED)
                          else
                            match inet_ntoa (htonl hostaddr) with
                            | None => Ok (None, PBS_DB_CONNFAILED)
                            | Some q =>
                                let hostaddr_str := strncpy q IPV4_STR_LEN in
                                match sprintf size template1
                                        [ArgS hostaddr_str;
                                         ArgD (pbs_data_service_port env);
                                         ArgS (PBS_DATA_SERVICE_STORE_NAME env);
                                         ArgS usr; ArgS (c_string pquoted);
                                         ArgD timeout] with
                                | Ok s => Ok (Some s, err_code)
                                | Undefined => Undefined
                                | OutOfFuel => OutOfFuel
                                end
                            end
                      end
                  end
              end
          end
      end
  end.

(** *** How the backend driver reads a descriptor

    The grammar of a connection string: [keyword = value] items parted
    by white space, with optional blanks around the equals sign.  A
    value either runs to the next blank or stands between single quotes,
    and in both forms a backslash makes the byte after it literal. *)

Inductive pstate : Type :=
| PStart
| PKey (k : list ascii)
| PKeyEnd (k : list ascii)
| PEq (k : list ascii)
| PBare (k v : list ascii)
| PBareEsc (k v : list ascii)
| PQuoted (k v : list ascii)
| PQuotedEsc (k v : list ascii).

Definition field : Type := (list ascii * list ascii)%type.

(** One byte of a keyword. *)
Definition key_step (k : list ascii) (c : ascii) : pstate :=
  if Ascii.eqb c "="%char then PEq k
  else if isspace c then PKeyEnd k
  else PKey (k ++ [c]).

(** The first byte of a value. *)
Definition value_step (k : list ascii) (c : ascii) : pstate :=
  if Ascii.eqb c "'"%char then PQuoted k []
  else if Ascii.eqb c "\"%char then PBareEsc k []
  else PBare k [c].

Fixpoint parse_from (st : pstate) (s : list ascii) (acc : list field)
  : option (list field) :=
  match s with
  | [] =>
      match st with
      | PStart => Some acc
      | PEq k => Some (acc ++ [(k, [])])
      | PBare k v | PBareEsc k v => Some (acc ++ [(k, v)])
      | PKey _ | PKeyEnd _ | PQuoted _ _ | PQuotedEsc _ _ => None
      end
  | c :: s' =>
      match st with
      | PStart =>
          if isspace c then parse_from PStart s' acc
          else parse_from (key_step [] c) s' acc
      | PKey k => parse_from (key_step k c) s' acc
      | PKeyEnd k =>
          if isspace c then parse_from (PKeyEnd k) s' acc
          else if Ascii.eqb c "="%char then parse_from (PEq k) s' acc
          else None
      | PEq k =>
          if isspace c then parse_from (PEq k) s' acc
          else parse_from (value_step k c) s' acc
      | PBare k v =>
          if isspace c then parse_from PStart s' (acc ++ [(k, v)])
          else if Ascii.eqb c "\"%char then parse_from (PBareEsc k v) s' acc
          else parse_from (PBare k (v ++ [c])) s' acc
      | PBareEsc k v => parse_from (PBare k (v ++ [c])) s' acc
      | PQuoted k v =>
          if Ascii.eqb c "\"%char then parse_from (PQuotedEsc k v) s' acc
          else if Ascii.eqb c "'"%char then parse_from PStart s' (acc ++ [(k, v)])
          else parse_from (PQuoted k (v ++ [c])) s' acc
      | PQuotedEsc k v => parse_from (PQuoted k (v ++ [c])) s' acc
      end
  end.

Definition parse_conninfo (s : list ascii) : option (list field) :=
  parse_from PStart s [].

(** The descriptor has a field with this keyword. *)
Definition has_field (key : string) (descriptor : list ascii) : Prop :=
  exists fields, parse_conninfo descriptor = Some fields /\ cstr key ∈ fields.*1.

(** The leading digits of a text and what follows them. *)
Fixpoint span_digits (s : list ascii) : list ascii * list ascii :=
  match s with
  | [] => ([], [])
  | c :: s' =>
      match digit_val c with
      | Some _ => let '(ds, rest) := span_digits s' in (c :: ds, rest)
      | None => ([], s)
      end
  end.

(** A number of one to three digits, at most 255. *)
Definition read_octet (s : list ascii) : option (Z * list ascii) :=
  let '(ds, rest) := span_digits s in
  let n := digits_value ds 0 in
  if (1 <=? strlen ds) && (strlen ds <=? 3) && (n <=? 255) then Some (n, rest)
  else None.

Definition after_dot (s : list ascii) : option (list ascii) :=
  match s with
  | c :: s' => if Ascii.eqb c "."%char then Some s' else None
  | [] => None
  end.

(** A numeric IPv4 literal: four octets in decimal with dots between
    them and nothing else. *)
Definition read_ipv4 (s : list ascii) : option (Z * Z * Z * Z) :=
  '(b1, s1) ← read_octet s; s1' ← after_dot s1;
  '(b2, s2) ← read_octet s1'; s2' ← after_dot s2;
  '(b3, s3) ← read_octet s2'; s3' ← after_dot s3;
  '(b4, s4) ← read_octet s3';
  match s4 with [] => Some (b1, b2, b3, b4) | _ => None end.

(** No single quote and no backslash: a text that may stand between
    quotes as it is. *)
Definition plain (s : list ascii) : Prop :=
  Forall (fun c => needs_escape c = false) s.

(** No white space, quote or backslash: a text that may stand as a value
    without quotes. *)
Definition bare_text (s : list ascii) : Prop :=
  Forall (fun c => isspace c = false /\ needs_escape c = false) s.

(** The descriptor for a local target, and the one for a given address. *)
Definition conninfo_local (port : Z) (dbname usr pquoted : list ascii) (timeout : Z)
  : list ascii :=
  cstr "port = " ++ print_int port ++ cstr " dbname = '" ++ dbname
    ++ cstr "' user = '" ++ usr ++ cstr "' password = '" ++ pquoted
    ++ cstr "' connect_timeout = " ++ print_int timeout.

Definition conninfo_host (hostaddr_str : list ascii) (port : Z)
    (dbname usr pquoted : list ascii) (timeout : Z) : list ascii :=
  cstr "hostaddr = '" ++ hostaddr_str ++ cstr "' "
    ++ conninfo_local port dbname usr pquoted timeout.

(** The fields the two descriptors are meant to carry. *)
Definition local_fields (port : Z) (dbname usr passwd : list ascii) (timeout : Z)
  : list field :=
  [(cstr "port", print_int port); (cstr "dbname", dbname); (cstr "user", usr);
   (cstr "password", passwd); (cstr "connect_timeout", print_int timeout)].

(** Surroundings to build descriptors in. *)
Definition demo_env (usr : list ascii) : conn_env :=
  {| pbs_get_dataservice_usr := Some usr;
     db_password_file := PwdFile 16 16 (cstr "0123456789abcdef");
     pbs_decrypt_pwd := fun _ _ => Some (cstr "s3'cr\t");
     get_hostaddr := fun _ => 3232235777;
     pbs_data_service_port := 15007;
     PBS_DATA_SERVICE_STORE_NAME := cstr "pbs_datastore";
     malloc_fails := fun _ => false;
     heap_garbage := cstr "junk" |}.

(** ** Schema migration *)

Section MigrationModel.

(** The contents of the data store are opaque.  A node keeps its
    [nd_modified] flags next to everything else it holds. *)
Context {DataStore NodeData : Type}.

Record pbsnode : Type := {
  nd_data : NodeData;
  nd_modified : Z
}.

(** The server process as the migration sees it: the node array and its
    count, the data store behind [svr_db_conn] with its cached error,
    and what went to the log and to stderr. *)
Record server_state : Type := {
  pbsndlist : list pbsnode;
  svr_totnodes : Z;
  datastore : DataStore;
  conn_db_err : option (list ascii);
  log_lines : list (list ascii);
  stderr_lines : list (list ascii)
}.

(** [pbs_db_get_schema_version] gives its return value, the two numbers
    and the error it leaves cached in the connection
    ([svr_db_conn->conn_db_err] after the call, NULL being [None]);
    [pbsd_init] and [save_nodes_db] give their return value and the
    server afterwards. *)
Variable pbs_db_get_schema_version : server_state -> Z * Z * Z * option (list ascii).
Variable pbsd_init : Z -> server_state -> Z * server_state.
Variable save_nodes_db : server_state -> Z * server_state.
Variable RECOV_WARM : Z.
Variable NODE_UPDATE_OTHERS : Z.

Definition log_err (msg : list ascii) (s : server_state) : server_state :=
  {| pbsndlist := pbsndlist s; svr_totnodes := svr_totnodes s;
     datastore := datastore s; conn_db_err := conn_db_err s;
     log_lines := log_lines s ++ [msg]; stderr_lines := stderr_lines s |}.

Definition to_stderr (msg : list ascii) (s : server_state) : server_state :=
  {| pbsndlist := pbsndlist s; svr_totnodes := svr_totnodes s;
     datastore := datastore s; conn_db_err := conn_db_err s;
     log_lines := log_lines s; stderr_lines := stderr_lines s ++ [msg] |}.

Definition set_db_err (e : option (list ascii)) (s : server_state) : server_state :=
  {| pbsndlist := pbsndlist s; svr_totnodes := svr_totnodes s;
     datastore := datastore s; conn_db_err := e;
     log_lines := log_lines s; stderr_lines := stderr_lines s |}.

Definition set_nodes (l : list pbsnode) (s : server_state) : server_state :=
  {| pbsndlist := l; svr_totnodes := svr_totnodes s;
     datastore := datastore s; conn_db_err := conn_db_err s;
     log_lines := log_lines s; stderr_lines := stderr_lines s |}.

Definition mark_for_update (nd : pbsnode) : pbsnode :=
  {| nd_data := nd_data nd; nd_modified := NODE_UPDATE_OTHERS |}.

(** [for (i = 0; i < svr_totnodes; i++) pbsndlist[i]->nd_modified = ...],
    with [todo] rounds left from index [i]; an index past the array is
    undefined. *)
Fixpoint mark_nodes (todo i : nat) (l : list pbsnode) : option (list pbsnode) :=
  match todo with
  | O => Some l
  | S todo' =>
      nd ← l !! i;
      mark_nodes todo' (S i) (<[i := mark_for_update nd]> l)
  end.

Definition cannot_upgrade (maj min : Z) : list ascii :=
  default [] (format (cstr "Cannot upgrade from PBS datastore version %d.%d")
                     [ArgD maj; ArgD min]).

Definition svr_migrate_data (s : server_state) : result (Z * server_state) :=
  let '(rc, db_maj_ver, db_min_ver, err) := pbs_db_get_schema_version s in
  let s0 := set_db_err err s in
  if negb (rc =? 0) then
    let s1 := to_stderr (cstr "Failed to get the PBS datastore version")
                (log_err (cstr "Failed to get PBS datastore version") s0) in
    match conn_db_err s0 with
    | Some e => Ok (-1, log_err e (to_stderr (cstr "[" ++ e ++ cstr "]") s1))
    | None => Ok (-1, s1)
    end
  else if (db_maj_ver =? 1) && (db_min_ver =? 0) then
    let '(rc1, s1) := pbsd_init RECOV_WARM s0 in
    if negb (rc1 =? 0) then Ok (-1, s1)
    else
      match mark_nodes (Z.to_nat (svr_totnodes s1)) 0 (pbsndlist s1) with
      | None => Undefined
      | Some l =>
          let '(rc2, s2) := save_nodes_db (set_nodes l s1) in
          if negb (rc2 =? 0) then Ok (-1, log_err (cstr "save_nodes_db failed!") s2)
          else Ok (0, s2)
      end
  else if (db_maj_ver =? 3) && (db_min_ver =? 0) then Ok (0, s0)
  else
    let msg := cannot_upgrade db_maj_ver db_min_ver in
    Ok (-1, to_stderr msg (log_err msg s0)).

End MigrationModel.

Arguments pbsnode : clear implicits.
Arguments server_state : clear implicits.

(** A server with two nodes over a store that counts the nodes saved to
    it, to run the migration on. *)
Definition demo_server (totnodes : Z) : server_state Z unit :=
  {| pbsndlist := [ {| nd_data := tt; nd_modified := 0 |};
                    {| nd_data := tt; nd_modified := 0 |} ];
     svr_totnodes := totnodes; datastore := 0; conn_db_err := None;
     log_lines := []; stderr_lines := [] |}.

Definition demo_version (maj min : Z)
  : server_state Z unit -> Z * Z * Z * option (list ascii) :=
  fun s => (0, maj, min, conn_db_err s).

Definition demo_pbsd_init (rc : Z) : Z -> server_state Z unit -> Z * server_state Z unit :=
  fun _ s => (rc, s).

Definition demo_save_nodes (rc : Z) : server_state Z unit -> Z * server_state Z unit :=
  fun s =>
    (rc,
     {| pbsndlist := pbsndlist s; svr_totnodes := svr_totnodes s;
        datastore := datastore s + Z.of_nat (length (filter (fun nd => nd_modified nd = 1) (pbsndlist s)));
        conn_db_err := conn_db_err s;
        log_lines := log_lines s; stderr_lines := stderr_lines s |}).

(** Sessions to run the classification on. *)
Definition demo_bad_session : PGconn :=
  {| PQstatus := CONNECTION_BAD;
     PQerrorMessage :=
       Some (cstr "could not read authentication file: No such file or directory") |}.

Definition demo_starting_session : PGconn :=
  {| PQstatus := CONNECTION_BAD;
     PQerrorMessage := Some (cstr "FATAL:  the database system is starting up") |}.

Definition demo_ok_session : PGconn :=
  {| PQstatus := CONNECTION_OK; PQerrorMessage := Some [] |}.

(** ** More of the data store: counting events *)

Definition is_callback (e : event) : bool :=
  match e with EvCallback _ => true | _ => false end.

(** Number of times the row callback was run. *)
Fixpoint callbacks (t : list event) : Z :=
  match t with
  | [] => 0
  | e :: t' => (if is_callback e then 1 else 0) + callbacks t'
  end.

(** A fetch or a run of the callback: what the loop of a search may do. *)
Definition is_row_event (e : event) : bool := is_fetch e || is_callback e.

(** A callback that accepts every row. *)
Definition demo_cb_all : @query_cb_t Z Z := demo_cb.

(** A callback that accepts the rows with an even index only. *)
Definition demo_cb_even : @query_cb_t Z Z :=
  fun obj s => (pbs_db_un obj, if Z.even (pbs_db_un obj) then 1 else 0, s + 1).

Definition demo_svr_obj : pbs_db_obj_info_t Z :=
  {| pbs_db_obj_type_of := PBS_DB_SVR; pbs_db_un := 0 |}.

(** ** The other four columns of the dispatch table *)

Section StoreModel.

(** Object ids and attribute lists are opaque. *)
Context {Payload ObjId AttrList : Type}.

Definition save_fn : Type := PGconn -> pbs_db_obj_info_t Payload -> Z -> Z.
Definition delete_fn : Type := PGconn -> pbs_db_obj_info_t Payload -> Z.
Definition load_fn : Type := PGconn -> pbs_db_obj_info_t Payload -> Z * Payload.
Definition del_attr_fn : Type := PGconn -> ObjId -> AttrList -> Z.

(** The save, delete, load and delete-attributes entries of a row of
    [db_fn_arr]; [None] is a NULL function pointer. *)
Record pg_db_store_fn_t : Type := {
  fn_save_obj : option save_fn;
  fn_delete_obj : option delete_fn;
  fn_load_obj : option load_fn;
  fn_del_attr_obj : option del_attr_fn
}.

Class StoreModules : Type := {
  pbs_db_save_svr : save_fn;
  pbs_db_load_svr : load_fn;
  pbs_db_del_attr_svr : del_attr_fn;
  pbs_db_save_sched : save_fn;
  pbs_db_delete_sched : delete_fn;
  pbs_db_load_sched : load_fn;
  pbs_db_del_attr_sched : del_attr_fn;
  pbs_db_save_que : save_fn;
  pbs_db_delete_que : delete_fn;
  pbs_db_load_que : load_fn;
  pbs_db_del_attr_que : del_attr_fn;
  pbs_db_save_node : save_fn;
  pbs_db_delete_node : delete_fn;
  pbs_db_load_node : load_fn;
  pbs_db_del_attr_node : del_attr_fn;
  pbs_db_save_mominfo_tm : save_fn;
  pbs_db_load_mominfo_tm : load_fn;
  pbs_db_save_job : save_fn;
  pbs_db_delete_job : delete_fn;
  pbs_db_load_job : load_fn;
  pbs_db_del_attr_job : del_attr_fn;
  pbs_db_save_jobscr : save_fn;
  pbs_db_load_jobscr : load_fn;
  pbs_db_save_resv : save_fn;
  pbs_db_delete_resv : delete_fn;
  pbs_db_load_resv : load_fn;
  pbs_db_del_attr_resv : del_attr_fn
}.

Context `{SM : StoreModules}.

Definition db_fn_arr_store (k : pbs_db_obj_type) : pg_db_store_fn_t :=
  match k with
  | PBS_DB_SVR =>
      {| fn_save_obj := Some pbs_db_save_svr; fn_delete_obj := None;
         fn_load_obj := Some pbs_db_load_svr;
         fn_del_attr_obj := Some pbs_db_del_attr_svr |}
  | PBS_DB_SCHED =>
      {| fn_save_obj := Some pbs_db_save_sched;
         fn_delete_obj := Some pbs_db_delete_sched;
         fn_load_obj := Some pbs_db_load_sched;
         fn_del_attr_obj := Some pbs_db_del_attr_sched |}
  | PBS_DB_QUE =>
      {| fn_save_obj := Some pbs_db_save_que;
         fn_delete_obj := Some pbs_db_delete_que;
         fn_load_obj := Some pbs_db_load_que;
         fn_del_attr_obj := Some pbs_db_del_attr_que |}
  | PBS_DB_NODE =>
      {| fn_save_obj := Some pbs_db_save_node;
         fn_delete_obj := Some pbs_db_delete_node;
         fn_load_obj := Some pbs_db_load_node;
         fn_del_attr_obj := Some pbs_db_del_attr_node |}
  | PBS_DB_MOMINFO_TIME =>
      {| fn_save_obj := Some pbs_db_save_mominfo_tm; fn_delete_obj := None;
         fn_load_obj := Some pbs_db_load_mominfo_tm; fn_del_attr_obj := None |}
  | PBS_DB_JOB =>
      {| fn_save_obj := Some pbs_db_save_job;
         fn_delete_obj := Some pbs_db_delete_job;
         fn_load_obj := Some pbs_db_load_job;
         fn_del_attr_obj := Some pbs_db_del_attr_job |}
  | PBS_DB_JOBSCR =>
      {| fn_save_obj := Some pbs_db_save_jobscr; fn_delete_obj := None;
         fn_load_obj := Some pbs_db_load_jobscr; fn_del_attr_obj := None |}
  | PBS_DB_RESV =>
      {| fn_save_obj := Some pbs_db_save_resv;
         fn_delete_obj := Some pbs_db_delete_resv;
         fn_load_obj := Some pbs_db_load_resv;
         fn_del_attr_obj := Some pbs_db_del_attr_resv |}
  end.

Definition pbs_db_delete_obj (conn : PGconn) (obj : pbs_db_obj_info_t Payload)
  : result Z :=
  match fn_delete_obj (db_fn_arr_store (pbs_db_obj_type_of obj)) with
  | Some f => Ok (f conn obj)
  | None => Undefined
  end.

Definition pbs_db_load_obj (conn : PGconn) (obj : pbs_db_obj_info_t Payload)
  : result (Z * pbs_db_obj_info_t Payload) :=
  match fn_load_obj (db_fn_arr_store (pbs_db_obj_type_of obj)) with
  | Some f => let '(rc, p) := f conn obj in Ok (rc, set_payload obj p)
  | None => Undefined
  end.

Definition pbs_db_save_obj (conn : PGconn) (obj : pbs_db_obj_info_t Payload)
    (savetype : Z) : result Z :=
  match fn_save_obj (db_fn_arr_store (pbs_db_obj_type_of obj)) with
  | Some f => Ok (f conn obj savetype)
  | None => Undefined
  end.

Definition pbs_db_delete_attr_obj (conn : PGconn) (obj : pbs_db_obj_info_t Payload)
    (obj_id : ObjId) (db_attr_list : AttrList) : result Z :=
  match fn_del_attr_obj (db_fn_arr_store (pbs_db_obj_type_of obj)) with
  | Some f => Ok (f conn obj_id db_attr_list)
  | None => Undefined
  end.

End StoreModel.

Arguments StoreModules : clear implicits.

(** ** Queries and the preparation of statements *)

Section QueryModel.

Context {ConnData : Type}.
Variable PQexecPrepared : PGconn -> list ascii -> Z -> ConnData -> Z -> PGresult.
Variable PQprepare : PGconn -> list ascii -> list ascii -> Z -> PGresult.

(** [db_query(conn, stmt, num_vars, &res)]: the returned int, the result
    [*res] points to, whether that result has been cleared, and the
    error cache after the call.  The rows are asked for in binary
    format. *)
Definition db_query (conn : PGconn) (conn_data : ConnData) (stmt : list ascii)
    (num_vars : Z) (errmsg_cache : option (list ascii))
  : Z * PGresult * bool * option (list ascii) :=
  let conn_result_format := 1 in
  let res := PQexecPrepared conn stmt num_vars conn_data conn_result_format in
  if negb (is_tuples_ok (PQresultStatus res)) then
    (-1, res, true,
     db_set_error conn (cstr "Execution of Prepared statement") stmt
       (PQresultErrorField res))
  else if PQntuples res <=? 0 then (1, res, true, errmsg_cache)
  else (0, res, false, errmsg_cache).

(** [db_prepare_stmt(conn, stmt, sql, num_vars)]. *)
Definition db_prepare_stmt (conn : PGconn) (stmt sql : list ascii) (num_vars : Z)
    (errmsg_cache : option (list ascii)) : Z * option (list ascii) :=
  let res := PQprepare conn stmt sql num_vars in
  if negb (is_command_ok (PQresultStatus res)) then
    (-1, db_set_error conn (cstr "Prepare of statement") stmt (PQresultErrorField res))
  else (0, errmsg_cache).

End QueryModel.

Definition demo_tuples_result (n : Z) : PGresult :=
  {| PQresultStatus := PGRES_TUPLES_OK; PQcmdTuples := Some [];
     PQntuples := n; PQresultErrorField := None |}.

(** ** Opening and closing the connection *)

Inductive sql_module : Type :=
| SqlJob | SqlSvr | SqlQue | SqlResv | SqlNode | SqlSched.

(** What [pbs_db_connect] and [pbs_db_disconnect] do to the two buffers
    of the process, to libpq and to the data service. *)
Inductive conn_event : Type :=
| CeAllocData (ok : bool)
| CeAllocTrx (ok : bool)
| CeFreeData
| CeFreeTrx
| CeConnectdb (conn_info : list ascii)
| CeScrub
| CePrepare (m : sql_module)
| CeStopDb (host : option (list ascii)) (port : Z)
| CeFinish.

Definition ev_count (p : conn_event -> bool) (t : list conn_event) : nat :=
  length (List.filter p t).

Definition is_alloc_data (e : conn_event) : bool :=
  match e with CeAllocData true => true | _ => false end.
Definition is_alloc_trx (e : conn_event) : bool :=
  match e with CeAllocTrx true => true | _ => false end.
Definition is_free_data (e : conn_event) : bool :=
  match e with CeFreeData => true | _ => false end.
Definition is_free_trx (e : conn_event) : bool :=
  match e with CeFreeTrx => true | _ => false end.
Definition is_stop_db (e : conn_event) : bool :=
  match e with CeStopDb _ _ => true | _ => false end.

Section ConnectModel.

(** The statement sets of the entity modules: each gives its return
    value and the error cache afterwards. *)
Class PrepareModules : Type := {
  db_prepare_job_sqls : PGconn -> option (list ascii) -> Z * option (list ascii);
  db_prepare_svr_sqls : PGconn -> option (list ascii) -> Z * option (list ascii);
  db_prepare_que_sqls : PGconn -> option (list ascii) -> Z * option (list ascii);
  db_prepare_resv_sqls : PGconn -> option (list ascii) -> Z * option (list ascii);
  db_prepare_node_sqls : PGconn -> option (list ascii) -> Z * option (list ascii);
  db_prepare_sched_sqls : PGconn -> option (list ascii) -> Z * option (list ascii)
}.

Context `{PM : PrepareModules}.

(** [db_prepare_sqls(conn)], with the modules it got to. *)
Definition db_prepare_sqls (conn : PGconn) (cache : option (list ascii))
  : Z * option (list ascii) * list conn_event :=
  let '(r1, c1) := db_prepare_job_sqls conn cache in
  if negb (r1 =? 0) then (-1, c1, [CePrepare SqlJob]) else
  let '(r2, c2) := db_prepare_svr_sqls conn c1 in
  if negb (r2 =? 0) then (-1, c2, [CePrepare SqlJob; CePrepare SqlSvr]) else
  let '(r3, c3) := db_prepare_que_sqls conn c2 in
  if negb (r3 =? 0) then (-1, c3, [CePrepare SqlJob; CePrepare SqlSvr; CePrepare SqlQue]) else
  let '(r4, c4) := db_prepare_resv_sqls conn c3 in
  if negb (r4 =? 0) then
    (-1, c4, [CePrepare SqlJob; CePrepare SqlSvr; CePrepare SqlQue; CePrepare SqlResv]) else
  let '(r5, c5) := db_prepare_node_sqls conn c4 in
  if negb (r5 =? 0) then
    (-1, c5, [CePrepare SqlJob; CePrepare SqlSvr; CePrepare SqlQue; CePrepare SqlResv;
              CePrepare SqlNode]) else
  let '(r6, c6) := db_prepare_sched_sqls conn c5 in
  if negb (r6 =? 0) then
    (-1, c6, [CePrepare SqlJob; CePrepare SqlSvr; CePrepare SqlQue; CePrepare SqlResv;
              CePrepare SqlNode; CePrepare SqlSched])
  else
    (0, c6, [CePrepare SqlJob; CePrepare SqlSvr; CePrepare SqlQue; CePrepare SqlResv;
             CePrepare SqlNode; CePrepare SqlSched]).

(** What [pbs_db_connect] takes from its surroundings: those of the
    builder of the connect string, whether its two allocations fail,
    what [PQconnectdb] answers (NULL is [None]), the text a failing
    builder leaves in [db_sys_msg], and what [pbs_stop_db], which runs
    the control script of the data service, leaves in the error cache
    for a host, a port and the cache before it: it may free and
    overwrite it. *)
Record connect_env : Type := {
  string_env : conn_env;
  alloc_data_fails : bool;
  alloc_trx_fails : bool;
  PQconnectdb : list ascii -> option PGconn;
  db_sys_msg : list ascii;
  stop_db_cache : option (list ascii) -> Z -> option (list ascii) -> option (list ascii)
}.

(** The label [db_cnerr]. *)
Definition db_cnerr (failcode : db_failcode) (db_conn : option PGconn)
    (cache : option (list ascii)) (tr : list conn_event)
  : db_failcode * option PGconn * option (list ascii) * list conn_event :=
  match failcode with
  | PBS_DB_SUCCESS => (failcode, db_conn, cache, tr)
  | _ => (failcode, None, cache, tr ++ [CeFreeData; CeFreeTrx])
  end.

(** [pbs_db_connect(&db_conn, host, port, timeout)] on the handle and
    the error cache before the call: the failcode returned, the handle
    and the cache afterwards, and what was done.  The copy of
    [db_sys_msg] into the error cache is taken to succeed. *)
Definition pbs_db_connect (env : connect_env) (db_conn : option PGconn)
    (host : option (list ascii)) (port timeout : Z) (cache : option (list ascii))
  : result (db_failcode * option PGconn * option (list ascii) * list conn_event) :=
  if alloc_data_fails env then Ok (PBS_DB_NOMEM, db_conn, cache, [CeAllocData false])
  else if alloc_trx_fails env then
    Ok (PBS_DB_NOMEM, db_conn, cache, [CeAllocData true; CeAllocTrx false; CeFreeData])
  else
    let tr0 := [CeAllocData true; CeAllocTrx true] in
    match get_db_connect_string (string_env env) host timeout PBS_DB_SUCCESS with
    | Undefined => Undefined
    | OutOfFuel => OutOfFuel
    | Ok (None, failcode) => Ok (db_cnerr failcode db_conn (Some (db_sys_msg env)) tr0)
    | Ok (Some conn_info, failcode) =>
        let c := PQconnectdb env conn_info in
        let tr1 := tr0 ++ [CeConnectdb conn_info; CeScrub] in
        match is_conn_error c failcode cache with
        | Undefined => Undefined
        | OutOfFuel => OutOfFuel
        | Ok (e, failcode1, cache1) =>
            if e =? 0 then
              match c with
              | None => Undefined
              | Some session =>
                  let '(rc, cache2, prepared) := db_prepare_sqls session cache1 in
                  if negb (rc =? 0) then
                    Ok (db_cnerr PBS_DB_ERR c (stop_db_cache env host port cache2)
                          (tr1 ++ prepared ++ [CeStopDb host port]))
                  else Ok (db_cnerr failcode1 c cache2 (tr1 ++ prepared))
              end
            else Ok (db_cnerr failcode1 c cache1 tr1)
        end
    end.

(** [pbs_db_disconnect(conn)]. *)
Definition pbs_db_disconnect (conn : option PGconn) : Z * list conn_event :=
  match conn with
  | None => (-1, [])
  | Some _ => (0, [CeFinish; CeFreeData; CeFreeTrx])
  end.

End ConnectModel.

(** [strdup(s)]: NULL when memory has run out. *)
Definition strdup (oom : bool) (s : list ascii) : option (list ascii) :=
  if oom then None else Some s.

(** [pbs_db_get_errmsg(err_code, &err_msg)]: the message [*err_msg] is
    left with, its former value having been freed.  A code that is none
    of the named ones is [None]. *)
Definition pbs_db_get_errmsg (oom : bool) (err_code : option db_failcode)
    (errmsg_cache : option (list ascii)) : option (list ascii) :=
  match err_code with
  | Some PBS_DB_STILL_STARTING => strdup oom (cstr "PBS dataservice is still starting up")
  | Some PBS_DB_AUTH_FAILED => strdup oom (cstr "PBS dataservice authentication failed")
  | Some PBS_DB_NOMEM => strdup oom (cstr "PBS out of memory in connect")
  | Some PBS_DB_CONNREFUSED => strdup oom (cstr "PBS dataservice not running")
  | Some PBS_DB_CONNFAILED => strdup oom (cstr "Failed to connect to PBS dataservice")
  | Some PBS_DB_OOM_ERR =>
      strdup oom
        (cstr "Failed to protect PBS from Linux OOM killer. No access to OOM score file.")
  | Some PBS_DB_ERR =>
      match errmsg_cache with
      | Some c => strdup oom c
      | None => None
      end
  | Some PBS_DB_SUCCESS | None => strdup oom (cstr "PBS dataservice error")
  end.

(** Modules whose statement sets prepare as told, and surroundings to
    connect in. *)
Definition demo_prepare (fail : option sql_module) : PrepareModules :=
  let answer (m : sql_module) : PGconn -> option (list ascii) -> Z * option (list ascii) :=
    fun _ c =>
      match fail, m with
      | Some SqlJob, SqlJob | Some SqlSvr, SqlSvr | Some SqlQue, SqlQue
      | Some SqlResv, SqlResv | Some SqlNode, SqlNode | Some SqlSched, SqlSched =>
          (-1, Some (cstr "Prepare of statement failed"))
      | _, _ => (0, c)
      end in
  {| db_prepare_job_sqls := answer SqlJob; db_prepare_svr_sqls := answer SqlSvr;
     db_prepare_que_sqls := answer SqlQue; db_prepare_resv_sqls := answer SqlResv;
     db_prepare_node_sqls := answer SqlNode; db_prepare_sched_sqls := answer SqlSched |}.

Definition demo_connect_env (session : option PGconn) : connect_env :=
  {| string_env := demo_env (cstr "pbsdata");
     alloc_data_fails := false; alloc_trx_fails := false;
     PQconnectdb := fun _ => session;
     db_sys_msg := [];
     stop_db_cache := fun _ _ _ => Some (cstr "pg_ctl: server stopped") |}.

Definition demo_env_unresolved : conn_env :=
  {| pbs_get_dataservice_usr := Some (cstr "pbsdata");
     db_password_file := PwdAbsent;
     pbs_decrypt_pwd := fun _ _ => None;
     get_hostaddr := fun _ => 0;
     pbs_data_service_port := 15007;
     PBS_DATA_SERVICE_STORE_NAME := cstr "pbs_datastore";
     malloc_fails := fun _ => false;
     heap_garbage := [] |}.

(** ** Byte order *)

(** The four bytes of a 32-bit value in the opposite order. *)
Definition bswap32 (v : Z) : Z :=
  Z.lor (Z.shiftl (Z.land v 255) 24)
    (Z.lor (Z.shiftl (Z.land (Z.shiftr v 8) 255) 16)
       (Z.lor (Z.shiftl (Z.land (Z.shiftr v 16) 255) 8)
          (Z.land (Z.shiftr v 24) 255))).

(** [ntohl] on a host of the given byte order; its argument is cut to 32
    bits. *)
Definition ntohl (big_endian : bool) (v : Z) : Z :=
  let v32 := Z.land v 4294967295 in
  if big_endian then v32 else bswap32 v32.

(** [db_ntohll(x)] for an [unsigned long long] [x].  Both halves are
    below 2^32, so the shift by 32 does not leave 64 bits. *)
Definition db_ntohll (big_endian : bool) (x : Z) : Z :=
  if ntohl big_endian 1 =? 1 then x
  else Z.lor (Z.shiftl (ntohl big_endian (Z.land x 4294967295)) 32)
             (ntohl big_endian (Z.shiftr x 32)).

(** The byte of [x] with index [i], counted from the least significant. *)
Definition byte_of (x i : Z) : Z := Z.land (Z.shiftr x (8 * i)) 255.

(** A version query that fails and leaves its error in the connection. *)
Definition demo_version_fails
  : server_state Z unit -> Z * Z * Z * option (list ascii) :=
  fun _ => (-1, 0, 0, Some (cstr "no such table")).

(** A server whose connection holds the error of an earlier call. *)
Definition demo_server_err : server_state Z unit :=
  {| pbsndlist := pbsndlist (demo_server 2); svr_totnodes := 2; datastore := 0;
     conn_db_err := Some (cstr "stale error");
     log_lines := []; stderr_lines := [] |}.

(** ** Changing the password of the data-store user *)

#[global] Instance result_ret : MRet result := fun _ a => Ok a.
#[global] Instance result_bind : MBind result :=
  fun _ _ k m =>
    match m with
    | Ok a => k a
    | Undefined => Undefined
    | OutOfFuel => OutOfFuel
    end.

Definition dquote : ascii := "034"%char.

(** [strcmp(a, b) == 0]. *)
Fixpoint streq (a b : list ascii) : bool :=
  match a, b with
  | [], [] => true
  | x :: a', y :: b' => Ascii.eqb x y && streq a' b'
  | _, _ => false
  end.

(** [snprintf] into a buffer of [size] bytes: what does not fit is cut
    off. *)
Definition snprintf (size : Z) (fmt : list ascii) (args : list fmt_arg)
  : result (list ascii) :=
  match format fmt args with
  | None => Undefined
  | Some out => Ok (take (Z.to_nat (size - 1)) out)
  end.

Definition sql_select_user : list ascii :=
  cstr "select usename from pg_user where usename = '%s'".

Definition sql_create_user : list ascii :=
  cstr "create user " ++ [dquote] ++ cstr "%s" ++ [dquote]
    ++ cstr " SUPERUSER ENCRYPTED PASSWORD '%s'".

Definition sql_alter_user : list ascii :=
  cstr "alter user " ++ [dquote] ++ cstr "%s" ++ [dquote]
    ++ cstr " SUPERUSER ENCRYPTED PASSWORD '%s'".

Definition sql_drop_user : list ascii :=
  cstr "drop user " ++ [dquote] ++ cstr "%s" ++ [dquote].

(** The statement that removes the user [olduser]. *)
Definition drop_user (olduser : list ascii) : list ascii :=
  cstr "drop user " ++ [dquote] ++ olduser ++ [dquote].

Section PasswordModel.

(** The backend has a state here: a statement may change what the next
    one is answered.  [PQescapeStringConn] gives the text it leaves in
    the buffer and its error flag. *)
Context {Backend : Type}.
Variable PQexec : Backend -> PGconn -> list ascii -> PGresult * Backend.
Variable PQescapeStringConn : PGconn -> list ascii -> list ascii * Z.

(** [db_escape_str(conn, str)]: NULL for a NULL string, when [calloc]
    fails and when the escaping reports an error.  The buffer has
    [2 * val_len + 1] bytes, computed on [int]. *)
Definition db_escape_str (calloc_fails : bool) (conn : PGconn)
    (str : option (list ascii)) : result (option (list ascii)) :=
  match str with
  | None => Ok None
  | Some s =>
      let val_len := strlen s in
      if INT_MAX <? 2 * val_len + 1 then Undefined
      else if calloc_fails then Ok None
      else
        let '(val_escaped, error) := PQescapeStringConn conn s in
        if 2 * val_len + 1 <? sizeof_str val_escaped then Undefined
        else if negb (error =? 0) then Ok None
        else Ok (Some val_escaped)
  end.

(** [db_execute_str] on the backend in the state [b]: the returned int,
    the error cache and the backend afterwards. *)
Definition exec_str (b : Backend) (conn : PGconn) (sql : list ascii)
    (errmsg_cache : option (list ascii)) : Z * option (list ascii) * Backend :=
  let '(rc, cache) :=
    db_execute_str (fun c q => fst (PQexec b c q)) conn sql errmsg_cache in
  (rc, cache, snd (PQexec b conn sql)).

(** What a call of [pbs_db_password] leaves: the returned int, the
    backend, the error cache, the statements sent in their order and
    the lines written to stderr. *)
Record password_run : Type := {
  pw_rc : Z;
  pw_backend : Backend;
  pw_cache : option (list ascii);
  pw_sent : list (list ascii);
  pw_stderr : list (list ascii)
}.

(** [pbs_db_password(conn, userid, password, olduser)], with [userid] and
    [olduser] not NULL. *)
Definition pbs_db_password (calloc_fails : bool) (b : Backend) (conn : PGconn)
    (userid : list ascii) (password : option (list ascii)) (olduser : list ascii)
    (errmsg_cache : option (list ascii)) : result password_run :=
  let change_user :=
    match userid with
    | [] => false
    | _ :: _ => negb (streq olduser userid)
    end in
  pquoted ← db_escape_str calloc_fails conn password;
  match pquoted with
  | None =>
      Ok {| pw_rc := -1; pw_backend := b; pw_cache := errmsg_cache; pw_sent := [];
            pw_stderr := [cstr "pbs_db_password: Out of memory"] |}
  | Some pquoted =>
      '(sqlbuff, b1, cache1, sent) ←
        (if change_user then
           q0 ← snprintf 1024 sql_select_user [ArgS userid];
           let '(rc0, cache0, b0) := exec_str b conn q0 errmsg_cache in
           q1 ← snprintf 1024 (if rc0 =? 1 then sql_create_user else sql_alter_user)
                  [ArgS userid; ArgS pquoted];
           Ok (q1, b0, cache0, [q0])
         else
           q1 ← sprintf 1024 sql_alter_user [ArgS olduser; ArgS pquoted];
           Ok (q1, b, errmsg_cache, []));
      let '(rc1, cache2, b2) := exec_str b1 conn sqlbuff cache1 in
      if rc1 =? -1 then
        Ok {| pw_rc := -1; pw_backend := b2; pw_cache := cache2;
              pw_sent := sent ++ [sqlbuff]; pw_stderr := [] |}
      else if change_user then
        q2 ← sprintf 1024 sql_drop_user [ArgS olduser];
        let '(rc2, cache3, b3) := exec_str b2 conn q2 cache2 in
        Ok {| pw_rc := if rc2 =? -1 then -1 else 0; pw_backend := b3;
              pw_cache := cache3; pw_sent := sent ++ [sqlbuff; q2]; pw_stderr := [] |}
      else
        Ok {| pw_rc := 0; pw_backend := b2; pw_cache := cache2;
              pw_sent := sent ++ [sqlbuff]; pw_stderr := [] |}
  end.

End PasswordModel.

Arguments password_run : clear implicits.

(** A backend that keeps the statements sent to it: it answers a
    [select] with [found] rows, takes every other statement, and rejects
    the statements listed in [refused]. *)
Definition demo_log_backend (refused : list (list ascii)) (found : Z)
  : list (list ascii) -> PGconn -> list ascii -> PGresult * list (list ascii) :=
  fun sent _ sql =>
    (if existsb (streq sql) refused then
       {| PQresultStatus := PGRES_FATAL_ERROR; PQcmdTuples := None; PQntuples := 0;
          PQresultErrorField := None |}
     else if is_prefix (cstr "select") sql then
       {| PQresultStatus := PGRES_TUPLES_OK; PQcmdTuples := Some []; PQntuples := found;
          PQresultErrorField := None |}
     else
       {| PQresultStatus := PGRES_COMMAND_OK; PQcmdTuples := Some []; PQntuples := 0;
          PQresultErrorField := None |},
     sent ++ [sql]).

(** Escaping that doubles every quote. *)
Definition demo_escape : PGconn -> list ascii -> list ascii * Z :=
  fun _ s =>
    (flat_map (fun c => if Ascii.eqb c "'"%char then [c; c] else [c]) s, 0).

(** ** Signalling a job ([req_signaljob.c]) *)

(** The fields of a job and of a Signal Job request that the signal
    code reads. *)
Record job : Type := {
  ji_jobid : list ascii;
  ji_state : Z;
  ji_substate : Z;
  ji_svrflags : Z;
  exec_vnode : option (list ascii)
}.

Record batch_request : Type := {
  rq_signame : list ascii;
  rq_user : list ascii;
  rq_host : list ascii;
  rq_fromsvr : Z;
  brp_code : Z
}.

Inductive log_kind : Type :=
| PBSEVENT_ADMIN
| PBSEVENT_JOB
| PBSEVENT_DEBUG.

(** What the signal code does to the rest of the server, in the order it
    does it: the calls of the functions of other files, and its own
    writes to [rq_extra], [rq_conn], [ji_svrflags] (with the value read
    and the value written) and [nd_modified].  The text of a log entry
    is left out. *)
Inductive sig_event : Type :=
| SgReject (code : Z)
| SgReplySend
| SgReplyAck
| SgLogEvent (kind : log_kind)
| SgExtra
| SgRestoreConn
| SgDisconnect
| SgAssignHosts (spec : list ascii)
| SgSetRescAssigned
| SgRelResc
| SgSetJobState (state substate : Z)
| SgSchedulerFlag (cmd : Z)
| SgRelayToMom
| SgFlags (old new : Z)
| SgMaintJobs (vname : list ascii) (incr : bool)
| SgVnodeState (vname : list ascii) (maintenance : bool)
| SgNodeModified (vname : list ascii)
| SgSaveNodes.

(** A chunk of an exec_vnode string as the loop of [set_admin_suspend]
    meets it: whether [parse_node_resc] returned 0 for it, the vnode
    name it gave, whether [find_nodebyname] found that node, and
    whether the node's list of maintenance jobs is empty once [set_arst]
    has taken the job from it. *)
Record vnode_chunk : Type := {
  chunk_parsed : bool;
  chunk_vname : list ascii;
  chunk_found : bool;
  chunk_last_job : bool
}.

Definition set_flags (j : job) (flags : Z) : job :=
  {| ji_jobid := ji_jobid j; ji_state := ji_state j; ji_substate := ji_substate j;
     ji_svrflags := flags; exec_vnode := exec_vnode j |}.

(** The events that answer the request. *)
Definition is_settle (e : sig_event) : bool :=
  match e with
  | SgReject _ | SgReplySend | SgReplyAck => true
  | _ => false
  end.

Definition settles (tr : list sig_event) : nat := length (List.filter is_settle tr).

Definition is_relay (e : sig_event) : bool :=
  match e with SgRelayToMom => true | _ => false end.

(** What [set_admin_suspend] does to the nodes of a job. *)
Definition is_node_event (e : sig_event) : bool :=
  match e with
  | SgMaintJobs _ _ | SgVnodeState _ _ | SgNodeModified _ => true
  | _ => false
  end.

Section SignalModel.

(** The names of the pseudo signals, the job states and flags and the
    error codes come from headers; their values play no part. *)
Variables SIG_RESUME SIG_SUSPEND SIG_ADMIN_RESUME SIG_ADMIN_SUSPEND : list ascii.
Variables JOB_STATE_RUNNING JOB_SUBSTATE_PROVISION JOB_SUBSTATE_SCHSUSP : Z.
Variables JOB_SUBSTATE_SUSPEND JOB_SUBSTATE_RUNNING : Z.
Variables JOB_SVFLG_Suspend JOB_SVFLG_AdmSuspd : Z.
Variables PBSE_BADSTATE PBSE_WRONG_RESUME PBSE_UNKJOBID PBSE_INTERNAL : Z.
Variable SCH_SCHEDULE_NEW : Z.

(** [rel_resc] and [svr_setjobstate] are functions of other files that
    are handed the job: they give the job as they leave it.
    [parse_exec_vnode] stands for the chunks that [parse_plus_spec_r],
    [parse_node_resc] and [find_nodebyname] yield for an exec_vnode
    string. *)
Variable rel_resc : job -> job.
Variable svr_setjobstate : job -> Z -> Z -> job.
Variable parse_exec_vnode : list ascii -> list vnode_chunk.

(** [req_signaljob2(preq, pjob)]; [rc_assign] and [rc_relay] are what
    [assign_hosts] and [relay_to_mom] return if they are called. *)
Definition req_signaljob2 (preq : batch_request) (pjob : job)
    (rc_assign rc_relay : Z) : list sig_event :=
  let signame := rq_signame preq in
  if negb (ji_state pjob =? JOB_STATE_RUNNING)
     || ((ji_state pjob =? JOB_STATE_RUNNING)
         && (ji_substate pjob =? JOB_SUBSTATE_PROVISION))
  then [SgReject PBSE_BADSTATE]
  else if (streq signame SIG_ADMIN_RESUME
           && (Z.land (ji_svrflags pjob) JOB_SVFLG_AdmSuspd =? 0))
          || (streq signame SIG_RESUME
              && negb (Z.land (ji_svrflags pjob) JOB_SVFLG_AdmSuspd =? 0))
  then [SgReject PBSE_WRONG_RESUME]
  else
    let resume := streq signame SIG_RESUME || streq signame SIG_ADMIN_RESUME in
    let suspend :=
      negb resume && (streq signame SIG_SUSPEND || streq signame SIG_ADMIN_SUSPEND) in
    let to_mom :=
      [SgLogEvent PBSEVENT_JOB; SgRelayToMom]
        ++ (if negb (rc_relay =? 0) then
              (if resume then [SgRelResc] else []) ++ [SgReject rc_relay]
            else []) in
    if suspend || resume then
      let pre := [SgExtra; SgLogEvent PBSEVENT_ADMIN] in
      if resume then
        if negb (Z.land (ji_svrflags pjob) JOB_SVFLG_Suspend =? 0) then
          if (rq_fromsvr preq =? 1) || streq signame SIG_ADMIN_RESUME then
            match exec_vnode pjob with
            | Some pnodespec =>
                if rc_assign =? 0 then
                  pre ++ [SgAssignHosts pnodespec; SgSetRescAssigned] ++ to_mom
                else pre ++ [SgAssignHosts pnodespec; SgReject rc_assign]
            | None => pre ++ to_mom
            end
          else
            pre ++ [SgSetJobState JOB_STATE_RUNNING JOB_SUBSTATE_SCHSUSP;
                    SgSchedulerFlag SCH_SCHEDULE_NEW; SgReplySend]
        else pre ++ [SgReject PBSE_BADSTATE]
      else pre ++ to_mom
    else to_mom.

(** What [set_admin_suspend] does for one chunk of the exec_vnode
    string. *)
Definition maintenance_events (set_remove_nstate : Z) (c : vnode_chunk)
  : list sig_event :=
  if chunk_parsed c && chunk_found c then
    (if negb (set_remove_nstate =? 0) then
       [SgMaintJobs (chunk_vname c) true; SgVnodeState (chunk_vname c) true]
     else
       SgMaintJobs (chunk_vname c) false
         :: (if chunk_last_job c then [SgVnodeState (chunk_vname c) false] else []))
      ++ [SgNodeModified (chunk_vname c)]
  else [].

(** [set_admin_suspend(pjob, set_remove_nstate)]: the job afterwards and
    what was done.  The exec_vnode string is copied with [strdup], which
    is undefined on the NULL string of a job without one and returns
    NULL when memory has run out. *)
Definition set_admin_suspend (strdup_fails : bool) (pjob : option job)
    (set_remove_nstate : Z) : result (option job * list sig_event) :=
  match pjob with
  | None => Ok (None, [])
  | Some j =>
      match exec_vnode j with
      | None => Undefined
      | Some execvn =>
          if strdup_fails then Ok (Some j, [])
          else
            let flags :=
              if negb (set_remove_nstate =? 0)
              then Z.lor (ji_svrflags j) JOB_SVFLG_AdmSuspd
              else Z.land (ji_svrflags j) (Z.lnot JOB_SVFLG_AdmSuspd) in
            Ok (Some (set_flags j flags),
                [SgFlags (ji_svrflags j) flags]
                  ++ flat_map (maintenance_events set_remove_nstate)
                       (parse_exec_vnode execvn)
                  ++ [SgSaveNodes])
      end
  end.

(** [post_signal_req(pwt)] on the request in [wt_parm1] and the job its
    [rq_extra] points to, NULL being [None]: what was done and the job
    afterwards. *)
Definition post_signal_req (strdup_fails : bool) (wt_aux2 : Z)
    (preq : batch_request) (pjob : option job)
  : result (list sig_event * option job) :=
  let signame := rq_signame preq in
  let suspend := streq signame SIG_SUSPEND || streq signame SIG_ADMIN_SUSPEND in
  let resume :=
    negb suspend && (streq signame SIG_RESUME || streq signame SIG_ADMIN_RESUME) in
  let rc := brp_code preq in
  let pre := (if negb (wt_aux2 =? 1) then [SgDisconnect] else []) ++ [SgRestoreConn] in
  if negb (rc =? 0) then
    Ok (pre ++ [SgLogEvent PBSEVENT_DEBUG]
            ++ (if resume then [SgRelResc] else [])
            ++ [SgReject (if rc =? PBSE_UNKJOBID then PBSE_INTERNAL else rc)],
        if resume then rel_resc <$> pjob else pjob)
  else
    match pjob with
    | Some j =>
        if suspend && (ji_state j =? JOB_STATE_RUNNING) then
          if Z.land (ji_svrflags j) JOB_SVFLG_Suspend =? 0 then
            let ss := if rq_fromsvr preq =? 1 then JOB_SUBSTATE_SCHSUSP
                      else JOB_SUBSTATE_SUSPEND in
            let flags := Z.lor (ji_svrflags j) JOB_SVFLG_Suspend in
            let j1 := rel_resc (set_flags j flags) in
            match (if streq signame SIG_ADMIN_SUSPEND
                   then set_admin_suspend strdup_fails (Some j1) 1
                   else Ok (Some j1, [])) with
            | Ok (j2, adm) =>
                Ok (pre ++ [SgFlags (ji_svrflags j) flags; SgRelResc] ++ adm
                        ++ [SgSetJobState JOB_STATE_RUNNING ss; SgReplyAck],
                    (fun x => svr_setjobstate x JOB_STATE_RUNNING ss) <$> j2)
            | Undefined => Undefined
            | OutOfFuel => OutOfFuel
            end
          else Ok (pre ++ [SgReplyAck], Some j)
        else if resume && (ji_state j =? JOB_STATE_RUNNING) then
          let flags := Z.land (ji_svrflags j) (Z.lnot JOB_SVFLG_Suspend) in
          let j1 := set_flags j flags in
          match (if streq signame SIG_ADMIN_RESUME
                 then set_admin_suspend strdup_fails (Some j1) 0
                 else Ok (Some j1, [])) with
          | Ok (j2, adm) =>
              Ok (pre ++ [SgFlags (ji_svrflags j) flags] ++ adm
                      ++ [SgSetJobState JOB_STATE_RUNNING JOB_SUBSTATE_RUNNING;
                          SgReplyAck],
                  (fun x => svr_setjobstate x JOB_STATE_RUNNING JOB_SUBSTATE_RUNNING)
                    <$> j2)
          | Undefined => Undefined
          | OutOfFuel => OutOfFuel
          end
        else Ok (pre ++ [SgReplyAck], Some j)
    | None => Ok (pre ++ [SgReplyAck], None)
    end.

End SignalModel.

(** A running, suspended job and a resume request of the scheduler. *)
Definition demo_sig_job (state substate flags : Z) : job :=
  {| ji_jobid := cstr "12.svr"; ji_state := state; ji_substate := substate;
     ji_svrflags := flags; exec_vnode := Some (cstr "(node1:ncpus=1)") |}.

Definition demo_sig_req (signame : string) (fromsvr code : Z) : batch_request :=
  {| rq_signame := cstr signame; rq_user := cstr "root"; rq_host := cstr "svr";
     rq_fromsvr := fromsvr; brp_code := code |}.

(** The kinds of job id that [chk_job_request] tells apart. *)
Inductive job_kind : Type :=
| IS_ARRAY_NO
| IS_ARRAY_Single
| IS_ARRAY_ArrayJob
| IS_ARRAY_Range.

(** Where [req_signaljob] ends: with the request handled as the trace
    tells, or in its loops over the subjobs of an array job or of a
    range, which are not followed here. *)
Inductive signal_path : Type :=
| Handled (tr : list sig_event)
| SubjobsOfArray
| SubjobsOfRange.

Section SignalDispatch.

Variables SIG_RESUME SIG_SUSPEND SIG_ADMIN_RESUME SIG_ADMIN_SUSPEND : list ascii.
Variables JOB_STATE_RUNNING JOB_SUBSTATE_PROVISION JOB_SUBSTATE_SCHSUSP : Z.
Variables JOB_SVFLG_Suspend JOB_SVFLG_AdmSuspd : Z.
Variables PBSE_BADSTATE PBSE_WRONG_RESUME PBSE_PERM PBSE_UNKJOBID PBSE_IVALREQ : Z.
Variable SCH_SCHEDULE_NEW : Z.
Variables ATR_DFLAG_OPRD ATR_DFLAG_OPWR ATR_DFLAG_MGRD ATR_DFLAG_MGWR : Z.

(** [req_signaljob(preq)] up to its loops over subjobs.  [chk] is what
    [chk_job_request] gives: NULL, the request being rejected already,
    or the job and the kind of its id; [offset] and [subjob_state] are
    what [subjob_index_to_offset] and [get_subjob_state] return for a
    single subjob, and [subjob] what [find_job] finds for it. *)
Definition req_signaljob (preq : batch_request) (rq_perm : Z)
    (chk : option (job * job_kind)) (offset subjob_state : Z) (subjob : option job)
    (rc_assign rc_relay : Z) : signal_path :=
  let signal2 :=
    req_signaljob2 SIG_RESUME SIG_SUSPEND SIG_ADMIN_RESUME SIG_ADMIN_SUSPEND
      JOB_STATE_RUNNING JOB_SUBSTATE_PROVISION JOB_SUBSTATE_SCHSUSP
      JOB_SVFLG_Suspend JOB_SVFLG_AdmSuspd PBSE_BADSTATE PBSE_WRONG_RESUME
      SCH_SCHEDULE_NEW in
  match chk with
  | None => Handled []
  | Some (parent, jt) =>
      let signame := rq_signame preq in
      let resume := streq signame SIG_RESUME || streq signame SIG_ADMIN_RESUME in
      let suspend :=
        negb resume && (streq signame SIG_SUSPEND || streq signame SIG_ADMIN_SUSPEND) in
      if (suspend || resume)
         && (Z.land rq_perm
               (Z.lor (Z.lor (Z.lor ATR_DFLAG_OPRD ATR_DFLAG_OPWR) ATR_DFLAG_MGRD)
                  ATR_DFLAG_MGWR) =? 0)
      then Handled [SgReject PBSE_PERM]
      else
        match jt with
        | IS_ARRAY_NO => Handled (signal2 preq parent rc_assign rc_relay)
        | IS_ARRAY_Single =>
            if offset =? -1 then Handled [SgReject PBSE_UNKJOBID]
            else if subjob_state =? -1 then Handled [SgReject PBSE_IVALREQ]
            else if subjob_state =? JOB_STATE_RUNNING then
              match subjob with
              | Some pjob => Handled (signal2 preq pjob rc_assign rc_relay)
              | None => Handled [SgReject PBSE_BADSTATE]
              end
            else Handled [SgReject PBSE_BADSTATE]
        | IS_ARRAY_ArrayJob => SubjobsOfArray
        | IS_ARRAY_Range => SubjobsOfRange
        end
  end.

End SignalDispatch.

(** The signal code with sample values for the names and numbers of the
    headers. *)
Definition demo_req_signaljob2 :=
  req_signaljob2 (cstr "resume") (cstr "suspend") (cstr "admin-resume")
    (cstr "admin-suspend") 4 71 45 4 2097152 15018 15177 1.

(** A server on which [rel_resc] leaves the job alone, [svr_setjobstate]
    writes state and substate, and an exec_vnode string is one chunk of
    a known node that holds no other maintenance job. *)
Definition demo_setjobstate (j : job) (state substate : Z) : job :=
  {| ji_jobid := ji_jobid j; ji_state := state; ji_substate := substate;
     ji_svrflags := ji_svrflags j; exec_vnode := exec_vnode j |}.

Definition demo_parse_exec_vnode (execvn : list ascii) : list vnode_chunk :=
  [ {| chunk_parsed := true; chunk_vname := cstr "node1"; chunk_found := true;
       chunk_last_job := true |} ].

Definition demo_post_signal_req :=
  post_signal_req (cstr "resume") (cstr "suspend") (cstr "admin-resume")
    (cstr "admin-suspend") 4 45 43 42 4 2097152 15001 15011
    (fun j => j) demo_setjobstate demo_parse_exec_vnode.

Definition demo_req_signaljob :=
  req_signaljob (cstr "resume") (cstr "suspend") (cstr "admin-resume")
    (cstr "admin-suspend") 4 71 45 4 2097152 15018 15177 15007 15001 15004 1
    4 8 16 32.

(** * Properties *)

Section CursorFacts.

Context {Payload Opts Srv : Type}.
Context `{EM : EntityModules Payload Opts Srv}.

Implicit Types (conn : PGconn) (st : db_query_state_t Payload Srv).
Implicit Types (obj : pbs_db_obj_info_t Payload) (w : world Srv).
Implicit Types (cb : @query_cb_t Payload Srv).

Lemma int_incr_lt (x : Z) : x < INT_MAX -> int_incr x = Some (x + 1).
Proof.
  intros H. unfold int_incr. destruct (x <? INT_MAX) eqn:E; [reflexivity|].
  apply Z.ltb_ge in E. lia.
Qed.

Lemma int_incr_Some (x y : Z) : int_incr x = Some y -> y = x + 1 /\ x < INT_MAX.
Proof.
  unfold int_incr. destruct (x <? INT_MAX) eqn:E; [|discriminate].
  intros [= <-]. apply Z.ltb_lt in E. lia.
Qed.

Lemma fetches_app (t u : list event) : fetches (t ++ u) = fetches t + fetches u.
Proof. induction t as [|e t IH]; simpl; [reflexivity | rewrite IH; lia]. Qed.

Lemma accepted_rows_app (t u : list event) :
  accepted_rows (t ++ u) = accepted_rows t + accepted_rows u.
Proof. induction t as [|e t IH]; simpl; [reflexivity | rewrite IH; lia]. Qed.

Lemma accepted_rows_nonneg (t : list event) : 0 <= accepted_rows t.
Proof. induction t as [|e t IH]; simpl; [lia | destruct (is_accept e); lia]. Qed.

Lemma trace_destroy st w :
  trace (db_destroy_state (Some st) w) = trace w ++ destroy_trace st.
Proof.
  unfold db_destroy_state, destroy_trace. destruct (res st); simpl.
  - rewrite <- app_assoc. reflexivity.
  - reflexivity.
Qed.

Lemma fetches_destroy_trace st : fetches (destroy_trace st) = 0.
Proof. unfold destroy_trace. destruct (res st); reflexivity. Qed.

(** Past the last row [db_cursor_next] answers 1 and leaves the cursor,
    the object and the world as they are. *)
Lemma db_cursor_next_exhausted conn st obj w :
  count st <= row st -> db_cursor_next conn st obj w = Ok (1, st, obj, w).
Proof.
  intros H. unfold db_cursor_next.
  destruct (row st <? count st) eqn:E; [|reflexivity].
  apply Z.ltb_lt in E. lia.
Qed.

(** Before the last row it calls the fetch of the kind once and moves on
    one row, whatever the fetch returned. *)
Lemma db_cursor_next_fetch conn st obj w next :
  pbs_db_next_obj (db_fn_arr (pbs_db_obj_type_of obj)) = Some next ->
  row st < count st -> count st <= INT_MAX ->
  db_cursor_next conn st obj w =
    Ok (fst (next conn st obj), set_row st (row st + 1),
        set_payload obj (snd (next conn st obj)),
        log (EvFetch (pbs_db_obj_type_of obj) (row st)) w).
Proof.
  intros Hn Hlt Hmax. unfold db_cursor_next.
  destruct (row st <? count st) eqn:E; [|apply Z.ltb_ge in E; lia].
  rewrite Hn. destruct (next conn st obj) as [ret p]. simpl.
  rewrite int_incr_lt by lia. reflexivity.
Qed.

Lemma db_cursor_next_zero conn st obj w rc st' obj' w' :
  db_cursor_next conn st obj w = Ok (rc, st', obj', w') -> rc <> 1 ->
  row st < count st /\ row st' = row st + 1 /\ count st' = count st.
Proof.
  unfold db_cursor_next. destruct (row st <? count st) eqn:E.
  - apply Z.ltb_lt in E.
    destruct (pbs_db_next_obj _) as [next|]; [|discriminate].
    destruct (next conn st obj) as [ret p].
    destruct (int_incr (row st)) as [r|] eqn:Er; [|discriminate].
    apply int_incr_Some in Er. intros [= <- <- <- <-] _. simpl. lia.
  - intros [= <- <- <- <-] Hrc. congruence.
Qed.


Lemma set_row_same st : set_row st (row st) = st.
Proof. destruct st; reflexivity. Qed.

(** C2 (as amended): when the fetch of a row returns -1,
    [db_cursor_next] returns -1 and the current-row index has moved on
    by one all the same. *)
Theorem db_cursor_next_error_advances conn st obj w next :
  pbs_db_next_obj (db_fn_arr (pbs_db_obj_type_of obj)) = Some next ->
  row st < count st -> count st <= INT_MAX ->
  fst (next conn st obj) = -1 ->
  exists st' obj' w',
    db_cursor_next conn st obj w = Ok (-1, st', obj', w') /\
    row st' = row st + 1 /\ count st' = count st.
Proof.
  intros Hn Hlt Hmax Herr.
  rewrite (db_cursor_next_fetch _ _ _ _ next) by assumption.
  rewrite Herr. eexists _, _, _. split; [reflexivity|]. simpl. lia.
Qed.

(** C10: on a state fresh from [db_initialize_state] (row and count both
    -1) [db_cursor_next] answers 1 without a fetch, for every kind. *)
Theorem db_cursor_next_on_fresh_state conn cb obj w0 w st w1 :
  db_initialize_state conn cb w0 = (Some st, w1) ->
  row st = -1 /\ count st = -1 /\
  db_cursor_next conn st obj w = Ok (1, st, obj, w).
Proof.
  unfold db_initialize_state. destruct (oom w0); [discriminate|].
  intros [= <- <-]. repeat split; reflexivity.
Qed.

Lemma db_cursor_next_inv conn st obj w rc st' obj' w' :
  db_cursor_next conn st obj w = Ok (rc, st', obj', w') ->
  (count st <= row st /\ rc = 1 /\ st' = st /\ obj' = obj /\ w' = w) \/
  (row st < count st /\ row st < INT_MAX /\
   exists next,
     pbs_db_next_obj (db_fn_arr (pbs_db_obj_type_of obj)) = Some next /\
     rc = fst (next conn st obj) /\
     st' = set_row st (row st + 1) /\
     obj' = set_payload obj (snd (next conn st obj)) /\
     w' = log (EvFetch (pbs_db_obj_type_of obj) (row st)) w).
Proof.
  unfold db_cursor_next. destruct (row st <? count st) eqn:E.
  - apply Z.ltb_lt in E.
    destruct (pbs_db_next_obj _) as [next|]; [|discriminate].
    destruct (next conn st obj) as [ret p] eqn:En.
    destruct (int_incr (row st)) as [r|] eqn:Er; [|discriminate].
    apply int_incr_Some in Er. destruct Er as [-> Hr].
    intros [= <- <- <- <-]. right. split; [exact E|]. split; [exact Hr|].
    exists next. rewrite En. repeat split; reflexivity.
  - apply Z.ltb_ge in E. intros [= <- <- <- <-]. left. repeat split; lia.
Qed.

(** The loop of a search adds to the trace, and its result is the count
    it started from plus the rows the callback accepted meanwhile. *)
Lemma search_loop_counts (fuel : nat) conn cb st obj tot w v st' obj' w' :
  search_loop fuel conn cb st obj tot w = Ok (v, st', obj', w') ->
  exists evs, trace w' = trace w ++ evs /\ v = tot + accepted_rows evs.
Proof.
  revert st obj tot w.
  induction fuel as [|fuel IH]; intros st obj tot w; [discriminate|].
  cbn [search_loop].
  destruct (db_cursor_next conn st obj w) as [[[[rc st1] obj1] w1]| |] eqn:Hn;
    [|discriminate|discriminate].
  apply db_cursor_next_inv in Hn.
  assert (exists e0, trace w1 = trace w ++ e0 /\ accepted_rows e0 = 0) as (e0 & Ht & Ha).
  { destruct Hn as [(_ & _ & _ & _ & ->)|(_ & _ & next & _ & _ & _ & _ & ->)].
    - exists []. rewrite app_nil_r. split; reflexivity.
    - eexists. split; [reflexivity|]. reflexivity. }
  destruct (rc =? 0).
  - destruct (cb obj1 (srv w1)) as [[p refreshed] s1].
    destruct (refreshed =? 0) eqn:Er.
    + intros H. apply IH in H. destruct H as (evs & Htr & Hv).
      simpl in Htr. exists (e0 ++ [EvCallback false] ++ evs).
      rewrite Htr, Ht, Hv, !accepted_rows_app, Ha, <- !app_assoc.
      split; [reflexivity|]. simpl. lia.
    + destruct (int_incr tot) as [t|] eqn:Et; [|discriminate].
      apply int_incr_Some in Et. destruct Et as [-> _].
      intros H. apply IH in H. destruct H as (evs & Htr & Hv).
      simpl in Htr. exists (e0 ++ [EvCallback true] ++ evs).
      rewrite Htr, Ht, Hv, !accepted_rows_app, Ha, <- !app_assoc.
      split; [reflexivity|]. simpl. lia.
  - intros [= <- <- <- <-]. exists e0. split; [exact Ht|]. lia.
Qed.

(** The counter handed to the loop is never used up. *)
Lemma search_loop_fuel_enough (fuel : nat) conn cb st obj tot w :
  (rows_left st <= fuel)%nat ->
  search_loop fuel conn cb st obj tot w <> OutOfFuel.
Proof.
  revert st obj tot w.
  induction fuel as [|fuel IH]; intros st obj tot w Hf.
  - unfold rows_left in Hf. lia.
  - cbn [search_loop].
    destruct (db_cursor_next conn st obj w) as [[[[rc st1] obj1] w1]| |] eqn:Hn;
      [|discriminate|].
    + destruct (rc =? 0) eqn:Hrc; [|discriminate].
      apply Z.eqb_eq in Hrc.
      destruct (db_cursor_next_zero _ _ _ _ _ _ _ _ Hn ltac:(lia)) as (Hlt & Hr & Hc).
      assert (rows_left st1 <= fuel)%nat as Hf1.
      { unfold rows_left in *. rewrite Hr, Hc. lia. }
      destruct (cb obj1 (srv w1)) as [[p refreshed] s1].
      destruct (refreshed =? 0); [apply IH; exact Hf1|].
      destruct (int_incr tot); [apply IH; exact Hf1 | discriminate].
    + exfalso. revert Hn. unfold db_cursor_next.
      destruct (row st <? count st); [|discriminate].
      destruct (pbs_db_next_obj _) as [next|]; [|discriminate].
      destruct (next conn st obj). destruct (int_incr (row st)); discriminate.
Qed.

Lemma pbs_db_search_total conn obj opts cb w :
  pbs_db_search conn obj opts cb w <> OutOfFuel.
Proof.
  unfold pbs_db_search.
  destruct (db_initialize_state conn cb w) as [[st|] w1]; [|discriminate].
  destruct (pbs_db_find_obj _) as [find|]; [|discriminate].
  destruct (find conn st obj opts) as [ret st1].
  destruct (ret =? -1); [discriminate|].
  pose proof (search_loop_fuel_enough (rows_left st1) conn cb st1 obj 0
                (log (EvFind (pbs_db_obj_type_of obj)) w1) (le_n _)) as H.
  destruct (search_loop _ _ _ _ _ _ _) as [[[[v st2] obj2] w2]| |];
    [discriminate|discriminate|congruence].
Qed.


Lemma accepted_rows_pass_trace (k : pbs_db_obj_type) (flags : list bool) :
  forall r, accepted_rows (pass_trace k r flags) = accepts flags.
Proof.
  induction flags as [|a flags IH]; intros r; [reflexivity|].
  cbn [pass_trace accepted_rows accepts is_accept]. rewrite IH.
  destruct a; reflexivity.
Qed.

Lemma fetches_pass_trace (k : pbs_db_obj_type) (flags : list bool) :
  forall r, fetches (pass_trace k r flags) = Z.of_nat (length flags).
Proof.
  induction flags as [|a flags IH]; intros r; [reflexivity|].
  cbn [pass_trace fetches is_fetch]. rewrite IH. simpl length. lia.
Qed.



(** C3: a search whose find succeeds and leaves no row to fetch returns
    0; a search that returns -1 had its allocation or its find fail and
    called no fetch; in either case a cursor state that was allocated is
    cleared and freed before the return. *)
Theorem pbs_db_search_empty_or_failed conn obj opts cb w :
  (forall st0 w1 find ret st1,
      db_initialize_state conn cb w = (Some st0, w1) ->
      pbs_db_find_obj (db_fn_arr (pbs_db_obj_type_of obj)) = Some find ->
      find conn st0 obj opts = (ret, st1) ->
      ret <> -1 -> count st1 <= row st1 ->
      exists w',
        pbs_db_search conn obj opts cb w = Ok (0, obj, w') /\
        trace w' = trace w ++ [EvMalloc true; EvFind (pbs_db_obj_type_of obj)]
                           ++ destroy_trace st1) /\
  (forall obj' w',
      pbs_db_search conn obj opts cb w = Ok (-1, obj', w') ->
      fetches (trace w') = fetches (trace w) /\
      ((oom w = true /\ trace w' = trace w ++ [EvMalloc false]) \/
       (exists st0 w1 find st1,
          db_initialize_state conn cb w = (Some st0, w1) /\
          pbs_db_find_obj (db_fn_arr (pbs_db_obj_type_of obj)) = Some find /\
          find conn st0 obj opts = (-1, st1) /\
          trace w' = trace w ++ [EvMalloc true; EvFind (pbs_db_obj_type_of obj)]
                             ++ destroy_trace st1))).
Proof.
  split.
  - intros st0 w1 find ret st1 Hi Hf Hfind Hret Hempty.
    unfold pbs_db_search. rewrite Hi, Hf, Hfind.
    destruct (ret =? -1) eqn:E; [apply Z.eqb_eq in E; contradiction|].
    unfold rows_left. replace (Z.to_nat (count st1 - row st1)) with 0%nat by lia.
    cbn [search_loop]. rewrite db_cursor_next_exhausted by exact Hempty.
    cbn [Z.eqb]. eexists. split; [reflexivity|].
    rewrite trace_destroy. revert Hi. unfold db_initialize_state.
    destruct (oom w); [discriminate|]. intros [= <- <-]. simpl.
    rewrite <- !app_assoc. reflexivity.
  - intros obj' w'. unfold pbs_db_search, db_initialize_state.
    destruct (oom w) eqn:Hoom.
    + intros [= <- <-]. simpl. rewrite fetches_app. simpl.
      split; [lia|]. left. split; reflexivity.
    + destruct (pbs_db_find_obj _) as [find|] eqn:Hf; [|discriminate].
      destruct (find conn _ obj opts) as [ret st1] eqn:Hfind.
      destruct (ret =? -1) eqn:E.
      * apply Z.eqb_eq in E. subst ret. intros H.
        assert (w' = db_destroy_state (Some st1)
                       (log (EvFind (pbs_db_obj_type_of obj)) (log (EvMalloc true) w)))
          as -> by congruence.
        clear H. rewrite trace_destroy. simpl. rewrite !fetches_app, fetches_destroy_trace.
        simpl. split; [lia|]. right.
        eexists _, _, find, st1. split; [reflexivity|]. split; [reflexivity|].
        split; [exact Hfind|]. rewrite <- !app_assoc. reflexivity.
      * destruct (search_loop _ _ _ _ _ _ _) as [[[[v st2] obj2] w2]| |] eqn:Hl;
          [|discriminate|discriminate].
        intros [= -> <- <-]. exfalso.
        apply search_loop_counts in Hl. destruct Hl as (evs & _ & Hv).
        pose proof (accepted_rows_nonneg evs). lia.
Qed.


End CursorFacts.


Lemma db_cursor_next_error_moves_row :
  exists st' obj' w',
    db_cursor_next (EM := demo_modules demo_find_empty 0) demo_conn (demo_state 0 1)
                   demo_job demo_world = Ok (-1, st', obj', w') /\
    row (demo_state 0 1) = 0 /\ row st' = 1 /\ row st' <> row (demo_state 0 1).
Proof.
  eexists _, _, _. split; [vm_compute; reflexivity|].
  repeat split. simpl. discriminate.
Qed.

Lemma db_cursor_next_error_advances_witness :
  exists st' obj' w',
    db_cursor_next (EM := demo_modules demo_find_empty 0) demo_conn (demo_state 0 1)
                   demo_job demo_world = Ok (-1, st', obj', w') /\
    row st' = row (demo_state 0 1) + 1 /\ count st' = count (demo_state 0 1).
Proof.
  apply (db_cursor_next_error_advances (EM := demo_modules demo_find_empty 0)
           demo_conn (demo_state 0 1) demo_job demo_world (demo_next 0)).
  - reflexivity.
  - simpl. lia.
  - simpl. unfold INT_MAX. lia.
  - reflexivity.
Defined.

Lemma db_cursor_next_on_fresh_state_witness :
  db_initialize_state demo_conn demo_cb demo_world
    = (Some {| res := None; row := -1; count := -1; query_cb := demo_cb |},
       log (EvMalloc true) demo_world) /\
  db_cursor_next (EM := demo_modules demo_find_empty 0) demo_conn
     {| res := None; row := -1; count := -1; query_cb := demo_cb |}
     demo_job demo_world
  = Ok (1, {| res := None; row := -1; count := -1; query_cb := demo_cb |},
        demo_job, demo_world).
Proof.
  split; [reflexivity|].
  apply (db_cursor_next_on_fresh_state (EM := demo_modules demo_find_empty 0)
           demo_conn demo_cb demo_job demo_world demo_world _ _ eq_refl).
Defined.

Lemma pbs_db_search_empty_or_failed_witness :
  (exists w',
     pbs_db_search (EM := demo_modules demo_find_empty 0) demo_conn demo_job None
                   demo_cb demo_world = Ok (0, demo_job, w') /\
     trace w' = trace demo_world ++ [EvMalloc true; EvFind PBS_DB_JOB] ++ [EvFree]) /\
  (pbs_db_search (EM := demo_modules (demo_find (-1) 0 0) 0) demo_conn demo_job None
                 demo_cb demo_world
     = Ok (-1, demo_job,
           {| oom := false; srv := 0;
              trace := [EvMalloc true; EvFind PBS_DB_JOB; EvPQclear; EvFree] |}) /\
   fetches [EvMalloc true; EvFind PBS_DB_JOB; EvPQclear; EvFree]
     = fetches (trace demo_world)).
Proof.
  split.
  - apply (proj1 (pbs_db_search_empty_or_failed
                    (EM := demo_modules demo_find_empty 0)
                    demo_conn demo_job None demo_cb demo_world)
             {| res := None; row := -1; count := -1; query_cb := demo_cb |}
             (log (EvMalloc true) demo_world) demo_find_empty 1
             {| res := None; row := -1; count := -1; query_cb := demo_cb |}).
    + reflexivity.
    + reflexivity.
    + reflexivity.
    + discriminate.
    + simpl. lia.
  - split; [reflexivity|].
    apply (proj2 (pbs_db_search_empty_or_failed
                    (EM := demo_modules (demo_find (-1) 0 0) 0)
                    demo_conn demo_job None demo_cb demo_world)
             demo_job
             {| oom := false; srv := 0;
                trace := [EvMalloc true; EvFind PBS_DB_JOB; EvPQclear; EvFree] |}).
    reflexivity.
Defined.


(** The search of the witness above, run: of the five rows of the result
    set the callback accepts those with an even index, the fetch of a
    sixth row fails, and 3 is returned. *)
Example pbs_db_search_fetch_error_run_res :
  pbs_db_search (EM := demo_modules_res (demo_find 0 0 7)) demo_conn demo_job None
                demo_cb_even demo_world
  = Ok (3, {| pbs_db_obj_type_of := PBS_DB_JOB; pbs_db_un := 5 |},
        {| oom := false; srv := 5;
           trace := [EvMalloc true; EvFind PBS_DB_JOB;
                     EvFetch PBS_DB_JOB 0; EvCallback true;
                     EvFetch PBS_DB_JOB 1; EvCallback false;
                     EvFetch PBS_DB_JOB 2; EvCallback true;
                     EvFetch PBS_DB_JOB 3; EvCallback false;
                     EvFetch PBS_DB_JOB 4; EvCallback true;
                     EvFetch PBS_DB_JOB 5; EvPQclear; EvFree] |}).
Proof. vm_compute. reflexivity. Qed.

(** A search whose fetch of row 2 fails: rows 0 and 1 are accepted and 2
    is returned. *)
Example pbs_db_search_fetch_error_run :
  pbs_db_search (EM := demo_modules (demo_find 0 0 5) 2) demo_conn demo_job None
                demo_cb demo_world
  = Ok (2, {| pbs_db_obj_type_of := PBS_DB_JOB; pbs_db_un := 2 |},
        {| oom := false; srv := 2;
           trace := [EvMalloc true; EvFind PBS_DB_JOB;
                     EvFetch PBS_DB_JOB 0; EvCallback true;
                     EvFetch PBS_DB_JOB 1; EvCallback true;
                     EvFetch PBS_DB_JOB 2; EvPQclear; EvFree] |}).
Proof. vm_compute. reflexivity. Qed.

(** ** Classification of connection failures *)

Section StrstrFacts.

Lemma is_prefix_spec (n h : list ascii) :
  is_prefix n h = true <-> exists b, h = n ++ b.
Proof.
  revert h. induction n as [|c n IH]; intros h; simpl.
  - split; [intros _; exists h; reflexivity | reflexivity].
  - destruct h as [|d h].
    + split; [discriminate | intros [b Hb]; discriminate].
    + rewrite andb_true_iff, Ascii.eqb_eq, IH. split.
      * intros [-> [b ->]]. exists b. reflexivity.
      * intros [b [= -> ->]]. split; [reflexivity | exists b; reflexivity].
Qed.

Lemma strstr_occurs (h n : list ascii) : isSome (strstr h n) = true <-> occurs n h.
Proof.
  induction h as [|d h IH]; simpl.
  - destruct (is_prefix n []) eqn:E; simpl.
    + split; [|reflexivity]. intros _. apply is_prefix_spec in E.
      destruct E as [b Hb]. exists [], b. exact Hb.
    + split; [discriminate|]. intros (a & b & Hab).
      destruct a; [|discriminate]. simpl in Hab.
      assert (is_prefix n [] = true) by (apply is_prefix_spec; exists b; exact Hab).
      congruence.
  - destruct (is_prefix n (d :: h)) eqn:E; simpl.
    + split; [|reflexivity]. intros _. apply is_prefix_spec in E.
      destruct E as [b Hb]. exists [], b. exact Hb.
    + rewrite IH. split.
      * intros (a & b & ->). exists (d :: a), b. reflexivity.
      * intros (a & b & Hab). destruct a as [|x a]; simpl in Hab.
        -- assert (is_prefix n (d :: h) = true)
             by (apply is_prefix_spec; exists b; exact Hab).
           congruence.
        -- injection Hab as _ ->. exists a, b. reflexivity.
Qed.

Lemma occurs_app (n m p t : list ascii) : occurs n m -> occurs n (p ++ m ++ t).
Proof.
  intros (a & b & ->). exists (p ++ a), (b ++ t).
  rewrite <- !app_assoc. reflexivity.
Qed.

(** Two prefixes of one string: one is a prefix of the other. *)
Lemma prefixes_comparable (n q b m : list ascii) :
  n ++ b = q ++ m -> is_prefix n q = true \/ is_prefix q n = true.
Proof.
  revert q. induction n as [|c n IH]; intros q H; [left; reflexivity|].
  destruct q as [|d q]; [right; reflexivity|].
  simpl in H. injection H as -> H. simpl. rewrite Ascii.eqb_refl. simpl.
  apply IH. exact H.
Qed.

Lemma occurs_past_prefix (p n m : list ascii) :
  clear_of p n = true -> occurs n (p ++ m) -> occurs n m.
Proof.
  induction p as [|c p IH]; intros Hc Ho; [exact Ho|].
  cbn [clear_of] in Hc. apply andb_true_iff in Hc as [Hc Hc3].
  apply andb_true_iff in Hc as [Hc1 Hc2].
  apply negb_true_iff in Hc1, Hc2.
  destruct Ho as (a & b & Hab). destruct a as [|x a].
  - simpl in Hab. symmetry in Hab.
    apply (prefixes_comparable n (c :: p) b m) in Hab. destruct Hab; congruence.
  - simpl in Hab. injection Hab as _ Hab. apply IH; [exact Hc3|].
    exists a, b. exact Hab.
Qed.

Lemma occurs_rev (n h : list ascii) : occurs n h -> occurs (rev n) (rev h).
Proof.
  intros (a & b & ->). exists (rev b), (rev a).
  rewrite !rev_app_distr, <- app_assoc. reflexivity.
Qed.

(** A string that starts with [c] does not begin inside a run without [c]. *)
Lemma occurs_past_run (c : ascii) (n p m : list ascii) :
  Forall (fun d => d <> c) p -> occurs (c :: n) (p ++ m) -> occurs (c :: n) m.
Proof.
  induction 1 as [|d p Hd Hp IH]; intros Ho; [exact Ho|].
  destruct Ho as (a & b & Hab). destruct a as [|x a]; simpl in Hab.
  - injection Hab as -> _. contradiction.
  - injection Hab as _ Hab. apply IH. exists a, b. exact Hab.
Qed.

(** A string that ends with [c] does not end inside a run without [c]. *)
Lemma occurs_before_run (c : ascii) (n t m : list ascii) :
  Forall (fun d => d <> c) t -> occurs (n ++ [c]) (m ++ t) -> occurs (n ++ [c]) m.
Proof.
  intros Ht Ho. apply occurs_rev in Ho.
  rewrite !rev_app_distr in Ho. simpl in Ho.
  apply occurs_past_run in Ho; [|apply Forall_rev; exact Ht].
  apply occurs_rev in Ho. simpl in Ho.
  rewrite !rev_involutive in Ho. exact Ho.
Qed.

Lemma skip_newlines_split (r : list ascii) :
  exists nl, r = nl ++ skip_newlines r /\ Forall (fun d => is_newline d = true) nl.
Proof.
  induction r as [|c r (nl & Hr & Hnl)]; simpl.
  - exists []. split; [reflexivity | constructor].
  - destruct (is_newline c) eqn:E.
    + exists (c :: nl). split; [simpl; f_equal; exact Hr | constructor; assumption].
    + exists []. split; [reflexivity | constructor].
Qed.

Lemma suppress_newlines_split (s : list ascii) :
  exists nl, s = suppress_newlines s ++ nl /\ Forall (fun d => is_newline d = true) nl.
Proof.
  unfold suppress_newlines.
  destruct (skip_newlines_split (rev s)) as (nl & Hr & Hnl).
  exists (rev nl). split; [|apply Forall_rev; exact Hnl].
  rewrite <- rev_app_distr, <- Hr, rev_involutive. reflexivity.
Qed.

(** What [db_set_error] puts around the message of the session does not
    change whether a phrase is found, for a phrase that ends in a byte
    other than space, carriage return and line feed and that does not
    overlap the text in front. *)
Lemma cached_occurs (front n : list ascii) (c : ascii) (diag : list ascii) :
  clear_of front (n ++ [c]) = true ->
  c <> " "%char -> is_newline c = false ->
  occurs (n ++ [c]) (front ++ suppress_newlines diag ++ cstr " " ++ [])
  <-> occurs (n ++ [c]) diag.
Proof.
  intros Hfront Hsp Hnl.
  destruct (suppress_newlines_split diag) as (nl & Hd & Hall).
  assert (Forall (fun d => d <> c) nl) as Hnlc.
  { eapply Forall_impl; [exact Hall|]. simpl. intros d Hd' ->. congruence. }
  split.
  - intros Ho. apply occurs_past_prefix in Ho; [|exact Hfront].
    rewrite app_nil_r in Ho.
    apply occurs_before_run in Ho; [|repeat constructor; congruence].
    rewrite Hd. destruct Ho as (a & b & ->). exists a, (b ++ nl).
    rewrite <- !app_assoc. reflexivity.
  - intros Ho. rewrite Hd in Ho. apply occurs_before_run in Ho; [|exact Hnlc].
    apply occurs_app. exact Ho.
Qed.

End StrstrFacts.

Section ConnErrorFacts.

Lemma conn_error_text (c : PGconn) (diag : list ascii) :
  PQerrorMessage c = Some diag ->
  db_set_error c (cstr "Connection:") [] (Some []) =
    Some (cstr "Connection:  failed: " ++ suppress_newlines diag ++ cstr " " ++ []).
Proof. intros H. unfold db_set_error. rewrite H. reflexivity. Qed.

Lemma cached_mentions (phrase : string) (n : list ascii) (c : ascii) (diag : list ascii) :
  cstr phrase = n ++ [c] ->
  clear_of (cstr "Connection:  failed: ") (n ++ [c]) = true ->
  c <> " "%char -> is_newline c = false ->
  isSome (strstr (cstr "Connection:  failed: " ++ suppress_newlines diag ++ cstr " " ++ [])
                 (cstr phrase))
  = mentions phrase diag.
Proof.
  intros Hp Hc Hsp Hnl. unfold mentions. rewrite Hp.
  apply Bool.eq_iff_eq_true. rewrite !strstr_occurs.
  apply cached_occurs; assumption.
Qed.

Lemma cached_refused diag :
  isSome (strstr (cstr "Connection:  failed: " ++ suppress_newlines diag ++ cstr " " ++ [])
                 (cstr "Connection refused"))
  = mentions "Connection refused" diag.
Proof.
  apply (cached_mentions _ (cstr "Connection refuse") "d"%char);
    [reflexivity | vm_compute; reflexivity | discriminate | reflexivity].
Qed.

Lemma cached_no_such_file diag :
  isSome (strstr (cstr "Connection:  failed: " ++ suppress_newlines diag ++ cstr " " ++ [])
                 (cstr "No such file or directory"))
  = mentions "No such file or directory" diag.
Proof.
  apply (cached_mentions _ (cstr "No such file or director") "y"%char);
    [reflexivity | vm_compute; reflexivity | discriminate | reflexivity].
Qed.

Lemma cached_authentication diag :
  isSome (strstr (cstr "Connection:  failed: " ++ suppress_newlines diag ++ cstr " " ++ [])
                 (cstr "authentication"))
  = mentions "authentication" diag.
Proof.
  apply (cached_mentions _ (cstr "authenticatio") "n"%char);
    [reflexivity | vm_compute; reflexivity | discriminate | reflexivity].
Qed.

Lemma cached_starting_up diag :
  isSome (strstr (cstr "Connection:  failed: " ++ suppress_newlines diag ++ cstr " " ++ [])
                 (cstr "database system is starting up"))
  = mentions "database system is starting up" diag.
Proof.
  apply (cached_mentions _ (cstr "database system is starting u") "p"%char);
    [reflexivity | vm_compute; reflexivity | discriminate | reflexivity].
Qed.

(** C4 (as amended): a NULL session gives [PBS_DB_CONNFAILED]; on a bad
    session the message of the session is classified in this order of
    precedence: "Connection refused" or "No such file or directory" give
    [PBS_DB_CONNREFUSED]; failing that, "authentication" gives
    [PBS_DB_AUTH_FAILED]; failing that, "database system is starting up"
    gives [PBS_DB_STILL_STARTING]; anything else gives
    [PBS_DB_CONNFAILED]; a session that is not bad is no error and its
    failcode is left alone. *)
Theorem is_conn_error_classifies (fc : db_failcode) (cache : option (list ascii)) :
  is_conn_error None fc cache = Ok (1, PBS_DB_CONNFAILED, cache) /\
  (forall c diag,
      PQstatus c = CONNECTION_BAD -> PQerrorMessage c = Some diag ->
      exists e,
        is_conn_error (Some c) fc cache =
          Ok (1,
              if mentions "Connection refused" diag
                 || mentions "No such file or directory" diag
              then PBS_DB_CONNREFUSED
              else if mentions "authentication" diag then PBS_DB_AUTH_FAILED
              else if mentions "database system is starting up" diag
              then PBS_DB_STILL_STARTING
              else PBS_DB_CONNFAILED,
              Some e)) /\
  (forall c,
      PQstatus c <> CONNECTION_BAD ->
      is_conn_error (Some c) fc cache = Ok (0, fc, cache)).
Proof.
  split; [reflexivity|]. split.
  - intros c diag Hbad Hmsg. unfold is_conn_error.
    rewrite Hbad. cbn [is_bad]. rewrite (conn_error_text c diag Hmsg).
    rewrite cached_refused, cached_no_such_file, cached_authentication,
      cached_starting_up.
    eexists. reflexivity.
  - intros c Hok. unfold is_conn_error.
    destruct (PQstatus c); try reflexivity. contradiction.
Qed.

End ConnErrorFacts.

(** C4, as stated, fails: a bad session whose message contains
    "authentication" and also "No such file or directory" is classified
    [PBS_DB_CONNREFUSED], not [PBS_DB_AUTH_FAILED]. *)
Lemma is_conn_error_authentication_not_auth_failed :
  PQstatus demo_bad_session = CONNECTION_BAD /\
  (exists diag, PQerrorMessage demo_bad_session = Some diag /\
                mentions "authentication" diag = true) /\
  exists e,
    is_conn_error (Some demo_bad_session) PBS_DB_SUCCESS None
      = Ok (1, PBS_DB_CONNREFUSED, Some e) /\
    PBS_DB_CONNREFUSED <> PBS_DB_AUTH_FAILED.
Proof.
  split; [reflexivity|]. split.
  - eexists. split; [reflexivity|]. vm_compute. reflexivity.
  - eexists. split; [vm_compute; reflexivity | discriminate].
Qed.

Lemma is_conn_error_classifies_witness :
  (exists e,
     is_conn_error (Some demo_starting_session) PBS_DB_SUCCESS None
       = Ok (1, PBS_DB_STILL_STARTING, Some e)) /\
  is_conn_error (Some demo_ok_session) PBS_DB_SUCCESS None
    = Ok (0, PBS_DB_SUCCESS, None).
Proof.
  pose proof (is_conn_error_classifies PBS_DB_SUCCESS None) as (_ & Hbad & Hok).
  split.
  - destruct (Hbad demo_starting_session
                (cstr "FATAL:  the database system is starting up")
                eq_refl eq_refl) as [e He].
    exists e. exact He.
  - apply Hok. discriminate.
Defined.

Example strtol_examples :
  strtol (cstr "0") = 0 /\ strtol [] = 0 /\ strtol (cstr "25") = 25 /\
  strtol (cstr "  -7 rows") = -7 /\ strtol (cstr "+12x") = 12 /\
  strtol (cstr "99999999999999999999") = LONG_MAX /\
  decimal 0 = cstr "0" /\ decimal 15007 = cstr "15007" /\
  print_int (-42) = cstr "-42".
Proof. vm_compute. repeat split; reflexivity. Qed.

(** ** Numbers as text *)

Section NumberFacts.

Lemma digit_cases (d : Z) :
  0 <= d <= 9 ->
  d = 0 \/ d = 1 \/ d = 2 \/ d = 3 \/ d = 4 \/ d = 5 \/ d = 6 \/ d = 7 \/ d = 8 \/ d = 9.
Proof. lia. Qed.

Ltac each_digit H :=
  apply digit_cases in H;
  repeat (destruct H as [H|H]; [subst|]); subst.

Lemma digit_val_digit_char (d : Z) : 0 <= d <= 9 -> digit_val (digit_char d) = Some d.
Proof. intros H. each_digit H; reflexivity. Qed.

Lemma digits_value_map (ds : list Z) (rest : list ascii) (acc : Z) :
  Forall is_digit ds ->
  digits_value (map digit_char ds ++ rest) acc
  = digits_value rest (fold_left (fun a d => a * 10 + d) ds acc).
Proof.
  intros H. revert acc. induction H as [|d ds Hd Hds IH]; intros acc; [reflexivity|].
  simpl. rewrite digit_val_digit_char by exact Hd. apply IH.
Qed.

Lemma dec_digits_spec (fuel : nat) (n : Z) :
  0 <= n < 2 ^ Z.of_nat fuel ->
  Forall is_digit (dec_digits fuel n) /\
  fold_left (fun a d => a * 10 + d) (dec_digits fuel n) 0 = n.
Proof.
  revert n. induction fuel as [|fuel IH]; intros n Hn.
  - simpl in *. assert (n = 0) as -> by lia. split; [constructor | reflexivity].
  - cbn [dec_digits]. destruct (n <? 10) eqn:E.
    + apply Z.ltb_lt in E. split; [repeat constructor; unfold is_digit; lia | simpl; lia].
    + apply Z.ltb_ge in E.
      assert (0 <= n / 10 < 2 ^ Z.of_nat fuel) as Hq.
      { rewrite Nat2Z.inj_succ, Z.pow_succ_r in Hn by lia.
        split; [apply Z.div_pos; lia|].
        apply Z.div_lt_upper_bound; lia. }
      destruct (IH _ Hq) as [Hall Hval]. split.
      * apply Forall_app. split; [exact Hall|].
        repeat constructor; unfold is_digit; pose proof (Z.mod_pos_bound n 10); lia.
      * rewrite fold_left_app, Hval. simpl.
        pose proof (Z.div_mod n 10). lia.
Qed.

Lemma decimal_fuel (n : Z) : 0 <= n -> 0 <= n < 2 ^ Z.of_nat (S (Z.to_nat (Z.log2 n))).
Proof.
  intros Hn. split; [exact Hn|].
  rewrite Nat2Z.inj_succ, Z2Nat.id by apply Z.log2_nonneg.
  destruct (Z.eq_dec n 0) as [->|Hne]; [reflexivity|].
  apply Z.log2_spec. lia.
Qed.

Lemma digits_value_decimal (n : Z) (rest : list ascii) :
  0 <= n ->
  digits_value (decimal n ++ rest) 0 = digits_value rest n.
Proof.
  intros Hn. unfold decimal.
  destruct (dec_digits_spec _ n (decimal_fuel n Hn)) as [Hall Hval].
  rewrite digits_value_map by exact Hall. rewrite Hval. reflexivity.
Qed.

Lemma decimal_head (n : Z) :
  0 <= n -> exists d rest, is_digit d /\ decimal n = digit_char d :: rest.
Proof.
  intros Hn. unfold decimal.
  destruct (dec_digits_spec _ n (decimal_fuel n Hn)) as [Hall _].
  destruct (dec_digits (S (Z.to_nat (Z.log2 n))) n) as [|d ds] eqn:E.
  - exfalso. cbn [dec_digits] in E. destruct (n <? 10); [discriminate|].
    destruct (dec_digits _ _); discriminate.
  - exists d, (map digit_char ds). split; [|reflexivity].
    apply Forall_cons in Hall. tauto.
Qed.

Lemma strtol_digit_head (d : Z) (rest : list ascii) :
  is_digit d ->
  strtol (digit_char d :: rest) = clamp_long (digits_value (digit_char d :: rest) 0).
Proof. intros H. unfold is_digit in H. each_digit H; reflexivity. Qed.

(** [strtol] reads back what the backend printed. *)
Lemma strtol_decimal (n : Z) : 0 <= n -> strtol (decimal n) = clamp_long n.
Proof.
  intros Hn. destruct (decimal_head n Hn) as (d & rest & Hd & He).
  rewrite He, strtol_digit_head by exact Hd. rewrite <- He.
  rewrite <- (app_nil_r (decimal n)), digits_value_decimal by lia. reflexivity.
Qed.

Lemma strtol_decimal_pos (n : Z) : 1 <= n -> (strtol (decimal n) <=? 0) = false.
Proof.
  intros Hn. rewrite strtol_decimal by lia. apply Z.leb_gt.
  unfold clamp_long, LONG_MIN, LONG_MAX. lia.
Qed.

End NumberFacts.

(** ** Statement execution *)

Section StatementFacts.

Context {ConnData : Type}.
Variable PQexecPrepared : PGconn -> list ascii -> Z -> ConnData -> Z -> PGresult.
Variable PQexec : PGconn -> list ascii -> PGresult.

Lemma no_rows_reported_strtol (r : PGresult) :
  no_rows_reported r ->
  match PQcmdTuples r with
  | None => true
  | Some rows_affected => strtol rows_affected <=? 0
  end = true.
Proof. intros [-> | [-> | ->]]; reflexivity. Qed.

Lemma rows_reported_strtol (n : Z) (r : PGresult) :
  1 <= n -> rows_reported n r ->
  match PQcmdTuples r with
  | None => true
  | Some rows_affected => strtol rows_affected <=? 0
  end = false.
Proof. intros Hn ->. apply strtol_decimal_pos. exact Hn. Qed.

(** C6: a command the backend executed with no count or a count of 0
    gives 1 from [db_cmd], and at least one affected row gives 0; an ad
    hoc statement the backend took gives 1 from [db_execute_str] when
    there is no count or a count of 0 and no row came back, and 0 when a
    row was affected or came back; either function returns -1 exactly
    when the backend did not take the statement. *)
Theorem execute_three_way_result (conn : PGconn) (conn_data : ConnData)
    (stmt sql : list ascii) (num_vars : Z) (cache : option (list ascii)) :
  let rc := PQexecPrepared conn stmt num_vars conn_data 0 in
  let rs := PQexec conn sql in
  (PQresultStatus rc = PGRES_COMMAND_OK -> no_rows_reported rc ->
   db_cmd PQexecPrepared conn conn_data stmt num_vars cache = (1, cache)) /\
  (PQresultStatus rc = PGRES_COMMAND_OK ->
   forall n, 1 <= n -> rows_reported n rc ->
   db_cmd PQexecPrepared conn conn_data stmt num_vars cache = (0, cache)) /\
  (fst (db_cmd PQexecPrepared conn conn_data stmt num_vars cache) = -1
   <-> PQresultStatus rc <> PGRES_COMMAND_OK) /\
  (accepted rs -> no_rows_reported rs -> PQntuples rs <= 0 ->
   db_execute_str PQexec conn sql cache = (1, cache)) /\
  (accepted rs ->
   (exists n, 1 <= n /\ rows_reported n rs) \/ 1 <= PQntuples rs ->
   db_execute_str PQexec conn sql cache = (0, cache)) /\
  (fst (db_execute_str PQexec conn sql cache) = -1 <-> ~ accepted rs).
Proof.
  intros rc rs. repeat split.
  - intros Hs Hno. unfold db_cmd. fold rc. rewrite Hs. cbn [is_command_ok negb].
    pose proof (no_rows_reported_strtol rc Hno) as H.
    destruct (PQcmdTuples rc); [rewrite H|]; reflexivity.
  - intros Hs n Hn Hrows. unfold db_cmd. fold rc. rewrite Hs. cbn [is_command_ok negb].
    pose proof (rows_reported_strtol n rc Hn Hrows) as H.
    destruct (PQcmdTuples rc); [rewrite H; reflexivity | discriminate].
  - unfold db_cmd. fold rc. intros H Hs. rewrite Hs in H. cbn [is_command_ok negb] in H.
    destruct (PQcmdTuples rc) as [ra|]; [destruct (strtol ra <=? 0)|]; discriminate.
  - unfold db_cmd. fold rc. intros Hs.
    destruct (PQresultStatus rc); try reflexivity. contradiction.
  - intros Hacc Hno Hnt. unfold db_execute_str. fold rs.
    rewrite (no_rows_reported_strtol rs Hno).
    assert ((PQntuples rs <=? 0) = true) as -> by (apply Z.leb_le; exact Hnt).
    destruct Hacc as [-> | ->]; reflexivity.
  - intros Hacc Hsome. unfold db_execute_str. fold rs.
    assert (match PQcmdTuples rs with
            | None => true
            | Some rows_affected => strtol rows_affected <=? 0
            end && (PQntuples rs <=? 0) = false) as ->.
    { destruct Hsome as [(n & Hn & Hrows) | Hnt].
      - rewrite (rows_reported_strtol n rs Hn Hrows). reflexivity.
      - apply andb_false_iff. right. apply Z.leb_gt. lia. }
    destruct Hacc as [-> | ->]; reflexivity.
  - unfold db_execute_str. fold rs. intros H [Hs | Hs]; rewrite Hs in H;
      cbn [is_command_ok is_tuples_ok negb andb] in H;
      destruct (_ && _); discriminate.
  - unfold db_execute_str, accepted. fold rs. intros Hs.
    destruct (PQresultStatus rs); try reflexivity; exfalso; apply Hs; auto.
Qed.

End StatementFacts.

Lemma execute_three_way_result_witness :
  db_cmd (demo_exec_prepared (demo_command_result (Some (cstr "0"))))
         demo_conn tt (cstr "update_job") 3 None = (1, None) /\
  db_cmd (demo_exec_prepared (demo_command_result (Some (decimal 4))))
         demo_conn tt (cstr "update_job") 3 None = (0, None) /\
  db_execute_str (demo_exec (demo_command_result (Some [])))
         demo_conn (cstr "select 1 where false") None = (1, None).
Proof.
  split; [|split].
  - destruct (execute_three_way_result
                (demo_exec_prepared (demo_command_result (Some (cstr "0"))))
                (demo_exec (demo_command_result (Some [])))
                demo_conn tt (cstr "update_job") [] 3 None) as (H & _).
    apply H; [reflexivity | right; right; reflexivity].
  - destruct (execute_three_way_result
                (demo_exec_prepared (demo_command_result (Some (decimal 4))))
                (demo_exec (demo_command_result (Some [])))
                demo_conn tt (cstr "update_job") [] 3 None) as (_ & H & _).
    apply (H eq_refl 4); [lia | reflexivity].
  - destruct (execute_three_way_result
                (demo_exec_prepared (demo_command_result (Some (cstr "0"))))
                (demo_exec (demo_command_result (Some [])))
                demo_conn tt (cstr "update_job") (cstr "select 1 where false") 3 None)
      as (_ & _ & _ & H & _).
    apply H; [left; reflexivity | right; left; reflexivity | simpl; lia].
Defined.

(** A failed statement leaves its message in the cache. *)
Example db_cmd_rejected :
  db_cmd (demo_exec_prepared
            {| PQresultStatus := PGRES_FATAL_ERROR; PQcmdTuples := Some [];
               PQntuples := 0; PQresultErrorField := Some (cstr "23505") |})
         {| PQstatus := CONNECTION_OK;
            PQerrorMessage := Some (cstr "ERROR:  duplicate key" ++ ["010"%char]) |}
         tt (cstr "insert_job") 3 None
  = (-1, Some (cstr "Execution of Prepared statement insert_job failed: ERROR:  duplicate key 23505")).
Proof. vm_compute. reflexivity. Qed.

(** ** Escaping the password *)

Section EscapeFacts.

Lemma store_at_app (pre rest : list ascii) (r c : ascii) :
  store (pre ++ r :: rest) (Z.of_nat (length pre)) c = Some (pre ++ c :: rest).
Proof.
  unfold store. rewrite length_app. simpl.
  destruct ((0 <=? Z.of_nat (length pre))
            && (Z.of_nat (length pre) <? Z.of_nat (length pre + S (length rest)))) eqn:E.
  - rewrite Nat2Z.id. rewrite insert_app_r_alt by lia.
    rewrite Nat.sub_diag. reflexivity.
  - apply andb_false_iff in E. destruct E as [E|E];
      [apply Z.leb_gt in E | apply Z.ltb_ge in E]; lia.
Qed.

Lemma length_escaped_text (s : list ascii) :
  (length (escaped_text s) <= 2 * length s)%nat.
Proof. induction s as [|c s IH]; simpl; [lia|]. destruct (needs_escape c); simpl; lia. Qed.

Lemma escaped_text_no_nul (s : list ascii) : no_nul s -> no_nul (escaped_text s).
Proof.
  induction 1 as [|c s Hc Hs IH]; simpl; [constructor|].
  destruct (needs_escape c); repeat constructor; try assumption. discriminate.
Qed.

Lemma c_string_app_nul (s rest : list ascii) :
  no_nul s -> c_string (s ++ NUL :: rest) = s.
Proof.
  induction 1 as [|c s Hc Hs IH]; simpl; [reflexivity|].
  destruct (Ascii.eqb c NUL) eqn:E; [apply Ascii.eqb_eq in E; contradiction|].
  f_equal. exact IH.
Qed.

(** The loop writes the escaped text and its terminator over the bytes
    that follow the index, and touches nothing else. *)
Lemma escape_loop_writes (src : list ascii) :
  forall (pre rest : list ascii) (len : Z),
    no_nul src ->
    Z.of_nat (length pre) + 2 * Z.of_nat (length src) + 1 <= len ->
    (2 * length src + 1 <= length rest)%nat ->
    escape_loop src (pre ++ rest) (Z.of_nat (length pre)) len
    = Some (pre ++ escaped_text src ++ NUL :: drop (S (length (escaped_text src))) rest).
Proof.
  induction src as [|c src IH]; intros pre rest len Hnn Hlen Hrest.
  - destruct rest as [|r rest]; [simpl in Hrest; lia|].
    cbn [escape_loop escaped_text]. rewrite store_at_app. reflexivity.
  - apply Forall_cons in Hnn. destruct Hnn as [Hc Hnn].
    cbn [escape_loop escaped_text].
    destruct (Ascii.eqb c NUL) eqn:E; [apply Ascii.eqb_eq in E; contradiction|].
    assert ((Z.of_nat (length pre) <? len) = true) as ->
      by (apply Z.ltb_lt; simpl length in Hlen; lia).
    simpl length in Hlen, Hrest.
    destruct (needs_escape c).
    + destruct rest as [|r1 [|r2 rest]]; [simpl in Hrest; lia ..|].
      rewrite store_at_app. cbn [mbind option_bind].
      replace (pre ++ "\"%char :: r2 :: rest) with ((pre ++ ["\"%char]) ++ r2 :: rest)
        by (rewrite <- app_assoc; reflexivity).
      replace (Z.of_nat (length pre) + 1) with (Z.of_nat (length (pre ++ ["\"%char])))
        by (rewrite length_app; simpl; lia).
      rewrite store_at_app. cbn [mbind option_bind].
      replace ((pre ++ ["\"%char]) ++ c :: rest) with ((pre ++ ["\"%char; c]) ++ rest)
        by (rewrite <- !app_assoc; reflexivity).
      replace (Z.of_nat (length (pre ++ ["\"%char])) + 1)
        with (Z.of_nat (length (pre ++ ["\"%char; c])))
        by (rewrite !length_app; simpl; lia).
      rewrite IH; [|exact Hnn | rewrite length_app; simpl; lia | simpl in Hrest; lia].
      rewrite <- !app_assoc. reflexivity.
    + destruct rest as [|r1 rest]; [simpl in Hrest; lia|].
      rewrite store_at_app. cbn [mbind option_bind].
      replace (pre ++ c :: rest) with ((pre ++ [c]) ++ rest)
        by (rewrite <- app_assoc; reflexivity).
      replace (Z.of_nat (length pre) + 1) with (Z.of_nat (length (pre ++ [c])))
        by (rewrite length_app; simpl; lia).
      rewrite IH; [|exact Hnn | rewrite length_app; simpl; lia | simpl in Hrest; lia].
      rewrite <- !app_assoc. reflexivity.
Qed.

Lemma unescape_escaped_text (s : list ascii) : unescape (escaped_text s) = s.
Proof.
  induction s as [|c s IH]; [reflexivity|]. cbn [escaped_text].
  destruct (needs_escape c) eqn:E.
  - cbn [unescape]. rewrite Ascii.eqb_refl, IH. reflexivity.
  - cbn [unescape]. unfold needs_escape in E. apply orb_false_iff in E.
    destruct E as [_ ->]. rewrite IH. reflexivity.
Qed.

(** With room for twice the source and one byte more the loop is never
    cut short and no write leaves the buffer. *)
Lemma escape_passwd_writes (dest src : list ascii) (len : Z) :
  no_nul src ->
  2 * Z.of_nat (length src) + 1 <= len ->
  len <= Z.of_nat (length dest) ->
  exists dest',
    escape_passwd dest src len = Some dest' /\
    length dest' = length dest /\
    c_string dest' = escaped_text src.
Proof.
  intros Hnn Hlen Hdest. unfold escape_passwd.
  pose proof (escape_loop_writes src [] dest len Hnn) as Hw.
  change ([] ++ dest) with dest in Hw. change (Z.of_nat (length [])) with 0 in Hw.
  rewrite Hw by lia. clear Hw.
  eexists. split; [reflexivity|].
  pose proof (length_escaped_text src) as Hle.
  split.
  - simpl. rewrite length_app. simpl. rewrite length_drop. lia.
  - simpl. apply c_string_app_nul. apply escaped_text_no_nul. exact Hnn.
Qed.

(** C7: with room for twice the source and one byte more,
    [escape_passwd] stays inside the buffer and leaves in it the source
    with a backslash in front of every backslash and single quote, and
    removing the escape backslashes gives the source back. *)
Theorem escape_passwd_round_trip (dest src : list ascii) (len : Z) :
  no_nul src ->
  2 * Z.of_nat (length src) + 1 <= len ->
  len <= Z.of_nat (length dest) ->
  exists dest',
    escape_passwd dest src len = Some dest' /\
    length dest' = length dest /\
    c_string dest' = escaped_text src /\
    unescape (c_string dest') = src.
Proof.
  intros Hnn Hlen Hdest.
  destruct (escape_passwd_writes dest src len Hnn Hlen Hdest) as (dest' & He & Hl & Hc).
  exists dest'. split; [exact He|]. split; [exact Hl|]. split; [exact Hc|].
  rewrite Hc. apply unescape_escaped_text.
Qed.

End EscapeFacts.

Lemma escape_passwd_round_trip_witness :
  exists dest',
    escape_passwd (replicate 9 "x"%char) (cstr "a'b\") 9 = Some dest' /\
    length dest' = length (replicate 9 "x"%char) /\
    c_string dest' = escaped_text (cstr "a'b\") /\
    unescape (c_string dest') = cstr "a'b\".
Proof.
  apply (escape_passwd_round_trip (replicate 9 "x"%char) (cstr "a'b\") 9).
  - repeat constructor; discriminate.
  - simpl. lia.
  - simpl. lia.
Defined.

Example escape_passwd_run :
  escape_passwd (replicate 9 "x"%char) (cstr "a'b\") 9
  = Some (cstr "a\'b\\" ++ [NUL; "x"%char; "x"%char]).
Proof. vm_compute. reflexivity. Qed.

Example get_db_connect_string_runs :
  get_db_connect_string (demo_env (cstr "pbsdata")) None 30 PBS_DB_SUCCESS
  = Ok (Some (cstr "port = 15007 dbname = 'pbs_datastore' user = 'pbsdata' password = 's3\'cr\\t' connect_timeout = 30"),
        PBS_DB_SUCCESS) /\
  get_db_connect_string (demo_env (cstr "pbsdata")) (Some (cstr "head1")) 30 PBS_DB_SUCCESS
  = Ok (Some (cstr "hostaddr = '192.168.1.1' port = 15007 dbname = 'pbs_datastore' user = 'pbsdata' password = 's3\'cr\\t' connect_timeout = 30"),
        PBS_DB_SUCCESS) /\
  parse_conninfo (cstr "hostaddr = '192.168.1.1' port = 15007 user = 'pbsdata' password = 's3\'cr\\t'")
  = Some [(cstr "hostaddr", cstr "192.168.1.1"); (cstr "port", cstr "15007");
          (cstr "user", cstr "pbsdata"); (cstr "password", cstr "s3'cr\t")] /\
  read_ipv4 (cstr "192.168.1.1") = Some (192, 168, 1, 1) /\
  read_ipv4 (cstr "192.168.1.256") = None /\
  read_ipv4 (cstr "head1") = None.
Proof. vm_compute. repeat split; reflexivity. Qed.

(** ** The connect string *)

Section DescriptorFacts.

Lemma plain_char (c : ascii) :
  needs_escape c = false -> Ascii.eqb c "\"%char = false /\ Ascii.eqb c "'"%char = false.
Proof. unfold needs_escape. intros H. apply orb_false_iff in H. tauto. Qed.

(** A plain text between quotes is read as it is. *)
Lemma parse_quoted_plain (w : list ascii) :
  forall k v rest acc,
    plain w ->
    parse_from (PQuoted k v) (w ++ "'"%char :: rest) acc
    = parse_from PStart rest (acc ++ [(k, v ++ w)]).
Proof.
  induction w as [|c w IH]; intros k v rest acc Hw.
  - simpl. rewrite app_nil_r. reflexivity.
  - apply Forall_cons in Hw. destruct Hw as [Hc Hw].
    destruct (plain_char c Hc) as [E1 E2].
    cbn [app parse_from]. rewrite E1, E2.
    rewrite IH by exact Hw. rewrite <- app_assoc. reflexivity.
Qed.

(** An escaped text between quotes is read as the text that was
    escaped. *)
Lemma parse_quoted_escaped (w : list ascii) :
  forall k v rest acc,
    parse_from (PQuoted k v) (escaped_text w ++ "'"%char :: rest) acc
    = parse_from PStart rest (acc ++ [(k, v ++ w)]).
Proof.
  induction w as [|c w IH]; intros k v rest acc.
  - simpl. rewrite app_nil_r. reflexivity.
  - cbn [escaped_text]. destruct (needs_escape c) eqn:Hc.
    + cbn [app parse_from]. rewrite Ascii.eqb_refl.
      rewrite IH. rewrite <- app_assoc. reflexivity.
    + destruct (plain_char c Hc) as [E1 E2].
      cbn [app parse_from]. rewrite E1, E2.
      rewrite IH. rewrite <- app_assoc. reflexivity.
Qed.

Lemma parse_bare_rest (w : list ascii) :
  forall k v rest acc,
    bare_text w ->
    parse_from (PBare k v) (w ++ " "%char :: rest) acc
    = parse_from PStart rest (acc ++ [(k, v ++ w)]).
Proof.
  induction w as [|c w IH]; intros k v rest acc Hw.
  - simpl. rewrite app_nil_r. reflexivity.
  - apply Forall_cons in Hw. destruct Hw as [[Hs Hc] Hw].
    destruct (plain_char c Hc) as [E1 E2].
    cbn [app parse_from]. rewrite Hs, E1.
    rewrite IH by exact Hw. rewrite <- app_assoc. reflexivity.
Qed.

Lemma parse_bare_end (w : list ascii) :
  forall k v acc,
    bare_text w ->
    parse_from (PBare k v) w acc = Some (acc ++ [(k, v ++ w)]).
Proof.
  induction w as [|c w IH]; intros k v acc Hw.
  - simpl. rewrite app_nil_r. reflexivity.
  - apply Forall_cons in Hw. destruct Hw as [[Hs Hc] Hw].
    destruct (plain_char c Hc) as [E1 E2].
    cbn [parse_from]. rewrite Hs, E1.
    rewrite IH by exact Hw. rewrite <- app_assoc. reflexivity.
Qed.

(** A value without quotes, from its first byte. *)
Lemma parse_value_bare (k : list ascii) (c : ascii) (w rest : list ascii) (acc : list field) :
  bare_text (c :: w) ->
  parse_from (PEq k) (c :: w ++ " "%char :: rest) acc
  = parse_from PStart rest (acc ++ [(k, c :: w)]).
Proof.
  intros Hw. apply Forall_cons in Hw. destruct Hw as [[Hs Hc] Hw].
  destruct (plain_char c Hc) as [E1 E2].
  cbn [parse_from]. rewrite Hs. unfold value_step. rewrite E1, E2.
  rewrite parse_bare_rest by exact Hw. reflexivity.
Qed.

Lemma parse_value_bare_end (k : list ascii) (c : ascii) (w : list ascii) (acc : list field) :
  bare_text (c :: w) ->
  parse_from (PEq k) (c :: w) acc = Some (acc ++ [(k, c :: w)]).
Proof.
  intros Hw. apply Forall_cons in Hw. destruct Hw as [[Hs Hc] Hw].
  destruct (plain_char c Hc) as [E1 E2].
  cbn [parse_from]. rewrite Hs. unfold value_step. rewrite E1, E2.
  rewrite parse_bare_end by exact Hw. reflexivity.
Qed.

Lemma digit_char_bare (d : Z) :
  is_digit d -> isspace (digit_char d) = false /\ needs_escape (digit_char d) = false.
Proof.
  intros H. unfold is_digit in H. apply digit_cases in H.
  repeat (destruct H as [H|H]; [subst; split; reflexivity|]). subst. split; reflexivity.
Qed.

Lemma decimal_bare (n : Z) : 0 <= n -> bare_text (decimal n).
Proof.
  intros Hn. unfold decimal, bare_text.
  destruct (dec_digits_spec _ n (decimal_fuel n Hn)) as [Hall _].
  apply Forall_fmap. eapply Forall_impl; [exact Hall|].
  intros d Hd. apply digit_char_bare. exact Hd.
Qed.

(** What [%d] prints is never empty and holds no blank, quote or
    backslash. *)
Lemma print_int_bare (z : Z) :
  exists c w, print_int z = c :: w /\ bare_text (c :: w).
Proof.
  unfold print_int. destruct (z <? 0) eqn:E.
  - apply Z.ltb_lt in E. eexists _, _. split; [reflexivity|].
    constructor; [split; reflexivity | apply decimal_bare; lia].
  - apply Z.ltb_ge in E. destruct (decimal_head z E) as (d & rest & Hd & He).
    exists (digit_char d), rest. split; [exact He|].
    rewrite <- He. apply decimal_bare. exact E.
Qed.


Lemma parse_print_int (k : list ascii) (z : Z) (rest : list ascii) (acc : list field) :
  parse_from (PEq k) (print_int z ++ " "%char :: rest) acc
  = parse_from PStart rest (acc ++ [(k, print_int z)]).
Proof.
  destruct (print_int_bare z) as (c & w & -> & Hb).
  apply parse_value_bare. exact Hb.
Qed.

Lemma parse_print_int_end (k : list ascii) (z : Z) (acc : list field) :
  parse_from (PEq k) (print_int z) acc = Some (acc ++ [(k, print_int z)]).
Proof.
  destruct (print_int_bare z) as (c & w & -> & Hb).
  apply parse_value_bare_end. exact Hb.
Qed.

(** The fixed pieces of the two templates, as the grammar reads them. *)
Lemma parse_lit_port (r : list ascii) (a : list field) :
  parse_from PStart (cstr "port = " ++ r) a = parse_from (PEq (cstr "port")) r a.
Proof. reflexivity. Qed.

Lemma parse_lit_dbname (r : list ascii) (a : list field) :
  parse_from PStart (cstr "dbname = '" ++ r) a
  = parse_from (PQuoted (cstr "dbname") []) r a.
Proof. reflexivity. Qed.

Lemma parse_lit_user (r : list ascii) (a : list field) :
  parse_from PStart (cstr " user = '" ++ r) a
  = parse_from (PQuoted (cstr "user") []) r a.
Proof. reflexivity. Qed.

Lemma parse_lit_password (r : list ascii) (a : list field) :
  parse_from PStart (cstr " password = '" ++ r) a
  = parse_from (PQuoted (cstr "password") []) r a.
Proof. reflexivity. Qed.

Lemma parse_lit_timeout (r : list ascii) (a : list field) :
  parse_from PStart (cstr " connect_timeout = " ++ r) a
  = parse_from (PEq (cstr "connect_timeout")) r a.
Proof. reflexivity. Qed.

Lemma parse_lit_hostaddr (r : list ascii) (a : list field) :
  parse_from PStart (cstr "hostaddr = '" ++ r) a
  = parse_from (PQuoted (cstr "hostaddr") []) r a.
Proof. reflexivity. Qed.

Lemma parse_conninfo_local (port : Z) (dbname usr passwd : list ascii) (timeout : Z)
    (acc : list field) :
  plain dbname -> plain usr ->
  parse_from PStart (conninfo_local port dbname usr (escaped_text passwd) timeout) acc
  = Some (acc ++ local_fields port dbname usr passwd timeout).
Proof.
  intros Hdb Husr. unfold conninfo_local, local_fields.
  rewrite parse_lit_port.
  etransitivity; [apply parse_print_int|].
  etransitivity; [apply parse_lit_dbname|].
  etransitivity; [apply parse_quoted_plain; exact Hdb|].
  etransitivity; [apply parse_lit_user|].
  etransitivity; [apply parse_quoted_plain; exact Husr|].
  etransitivity; [apply parse_lit_password|].
  etransitivity; [apply parse_quoted_escaped|].
  etransitivity; [apply parse_lit_timeout|].
  rewrite parse_print_int_end. rewrite <- !app_assoc. reflexivity.
Qed.

Lemma parse_conninfo_host (ip : list ascii) (port : Z) (dbname usr passwd : list ascii)
    (timeout : Z) :
  plain ip -> plain dbname -> plain usr ->
  parse_conninfo (conninfo_host ip port dbname usr (escaped_text passwd) timeout)
  = Some ((cstr "hostaddr", ip) :: local_fields port dbname usr passwd timeout).
Proof.
  intros Hip Hdb Husr. unfold parse_conninfo, conninfo_host.
  rewrite parse_lit_hostaddr.
  etransitivity; [apply parse_quoted_plain; exact Hip|].
  change (parse_from PStart
            (" "%char :: conninfo_local port dbname usr (escaped_text passwd) timeout)
            ([] ++ [(cstr "hostaddr", [] ++ ip)])
          = Some ((cstr "hostaddr", ip) :: local_fields port dbname usr passwd timeout)).
  cbn [parse_from]. change (isspace " "%char) with true. cbn iota.
  rewrite parse_conninfo_local by assumption. reflexivity.
Qed.


Lemma template_size : Z.max (sizeof_str template1) (sizeof_str template2) = 89.
Proof. reflexivity. Qed.

Lemma format_template2 (port : Z) (dbname usr pquoted : list ascii) (timeout : Z) :
  format template2 [ArgD port; ArgS dbname; ArgS usr; ArgS pquoted; ArgD timeout]
  = Some (conninfo_local port dbname usr pquoted timeout).
Proof.
  unfold template2, conninfo_local. cbn -[print_int].
  rewrite app_nil_r. reflexivity.
Qed.

Lemma format_template1 (ip : list ascii) (port : Z) (dbname usr pquoted : list ascii)
    (timeout : Z) :
  format template1 [ArgS ip; ArgD port; ArgS dbname; ArgS usr; ArgS pquoted; ArgD timeout]
  = Some (conninfo_host ip port dbname usr pquoted timeout).
Proof.
  unfold template1, conninfo_host, conninfo_local. cbn -[print_int].
  rewrite app_nil_r. reflexivity.
Qed.

Lemma strlen_conninfo_local (port : Z) (dbname usr pquoted : list ascii) (timeout : Z) :
  strlen (conninfo_local port dbname usr pquoted timeout)
  = 62 + strlen (print_int port) + strlen dbname + strlen usr + strlen pquoted
    + strlen (print_int timeout).
Proof.
  unfold strlen, conninfo_local. rewrite !length_app.
  cbn [cstr list_ascii_of_string length]. lia.
Qed.

Lemma strlen_conninfo_host (ip : list ascii) (port : Z) (dbname usr pquoted : list ascii)
    (timeout : Z) :
  strlen (conninfo_host ip port dbname usr pquoted timeout)
  = 14 + strlen ip + strlen (conninfo_local port dbname usr pquoted timeout).
Proof.
  unfold strlen, conninfo_host. rewrite !length_app.
  cbn [cstr list_ascii_of_string length]. lia.
Qed.

(** *** The address *)

Lemma octet_range (x : Z) : 0 <= Z.land x 255 <= 255.
Proof.
  change 255 with (Z.ones 8) at 1 2. rewrite Z.land_ones by lia.
  pose proof (Z.mod_pos_bound x (2 ^ 8)). lia.
Qed.

Lemma length_dec_digits (fuel : nat) :
  forall (n : Z) (k : nat),
    (1 <= k)%nat -> 0 <= n < 10 ^ Z.of_nat k ->
    (length (dec_digits fuel n) <= k)%nat.
Proof.
  induction fuel as [|fuel IH]; intros n k Hk Hn; [simpl; lia|].
  cbn [dec_digits]. destruct (n <? 10) eqn:E; [simpl; lia|].
  apply Z.ltb_ge in E. destruct k as [|k]; [lia|].
  destruct k as [|k]; [simpl in Hn; lia|].
  rewrite length_app. simpl.
  assert (length (dec_digits fuel (n / 10)) <= S k)%nat; [|lia].
  apply IH; [lia|].
  rewrite (Nat2Z.inj_succ (S k)), Z.pow_succ_r in Hn by lia.
  split; [apply Z.div_pos; lia | apply Z.div_lt_upper_bound; lia].
Qed.

Lemma strlen_octet (b : Z) : 0 <= b <= 255 -> 1 <= strlen (decimal b) <= 3.
Proof.
  intros Hb. unfold strlen. split.
  - destruct (decimal_head b) as (d & rest & _ & ->); [lia | simpl; lia].
  - unfold decimal. rewrite length_map.
    pose proof (length_dec_digits (S (Z.to_nat (Z.log2 b))) b 3) as H.
    assert (10 ^ Z.of_nat 3 = 1000) as E by reflexivity.
    rewrite E in H. lia.
Qed.

Lemma span_digits_map (ds : list Z) (t : list ascii) :
  Forall is_digit ds -> span_digits t = ([], t) ->
  span_digits (map digit_char ds ++ t) = (map digit_char ds, t).
Proof.
  intros Hds Ht. induction Hds as [|d ds Hd Hds IH]; [exact Ht|].
  cbn [map app span_digits]. rewrite digit_val_digit_char by exact Hd.
  rewrite IH. reflexivity.
Qed.

Lemma digits_value_decimal_nil (n : Z) : 0 <= n -> digits_value (decimal n) 0 = n.
Proof.
  intros Hn. pose proof (digits_value_decimal n [] Hn) as H.
  rewrite app_nil_r in H. exact H.
Qed.

Lemma read_octet_decimal (b : Z) (t : list ascii) :
  0 <= b <= 255 -> span_digits t = ([], t) ->
  read_octet (decimal b ++ t) = Some (b, t).
Proof.
  intros Hb Ht. unfold read_octet.
  pose proof (strlen_octet b Hb) as Hlen.
  assert (span_digits (decimal b ++ t) = (decimal b, t)) as ->.
  { unfold decimal.
    destruct (dec_digits_spec _ b (decimal_fuel b ltac:(lia))) as [Hall _].
    apply span_digits_map; assumption. }
  rewrite digits_value_decimal_nil by lia.
  assert ((1 <=? strlen (decimal b)) = true) as -> by (apply Z.leb_le; lia).
  assert ((strlen (decimal b) <=? 3) = true) as -> by (apply Z.leb_le; lia).
  assert ((b <=? 255) = true) as -> by (apply Z.leb_le; lia).
  reflexivity.
Qed.

(** [inet_ntoa] prints a numeric IPv4 literal of at most 15 bytes that
    reads back as the four bytes it was given. *)
Lemma inet_ntoa_literal (b1 b2 b3 b4 : Z) :
  0 <= b1 <= 255 -> 0 <= b2 <= 255 -> 0 <= b3 <= 255 -> 0 <= b4 <= 255 ->
  exists q,
    inet_ntoa (b1, b2, b3, b4) = Some q /\
    strlen q <= IPV4_STR_LEN /\ plain q /\
    read_ipv4 q = Some (b1, b2, b3, b4).
Proof.
  intros H1 H2 H3 H4. eexists. split; [reflexivity|].
  pose proof (strlen_octet b1 H1). pose proof (strlen_octet b2 H2).
  pose proof (strlen_octet b3 H3). pose proof (strlen_octet b4 H4).
  assert (forall b, 0 <= b -> plain (decimal b)) as Hplain.
  { intros b Hb. eapply Forall_impl; [apply decimal_bare; exact Hb|].
    simpl. tauto. }
  split; [|split].
  - unfold strlen in *. rewrite !length_app. unfold IPV4_STR_LEN.
    cbn [cstr list_ascii_of_string length]. lia.
  - unfold plain. rewrite !Forall_app.
    repeat split; try (apply Hplain; lia); repeat constructor.
  - unfold read_ipv4.
    rewrite read_octet_decimal by (assumption || reflexivity).
    cbn [mbind option_bind after_dot cstr list_ascii_of_string app].
    rewrite Ascii.eqb_refl. cbn [mbind option_bind].
    rewrite read_octet_decimal by (assumption || reflexivity).
    cbn [mbind option_bind after_dot cstr list_ascii_of_string app].
    rewrite Ascii.eqb_refl. cbn [mbind option_bind].
    rewrite read_octet_decimal by (assumption || reflexivity).
    cbn [mbind option_bind after_dot cstr list_ascii_of_string app].
    rewrite Ascii.eqb_refl. cbn [mbind option_bind].
    rewrite <- (app_nil_r (decimal b4)).
    rewrite read_octet_decimal by (assumption || reflexivity).
    reflexivity.
Qed.


Lemma malloc_length (env : conn_env) (i : nat) (n : Z) (buf : list ascii) :
  0 <= n -> malloc env i n = Some buf -> Z.of_nat (length buf) = n.
Proof.
  intros Hn. unfold malloc. destruct (malloc_fails env i); [discriminate|].
  intros [= <-]. rewrite length_take, length_app, length_replicate. lia.
Qed.

Lemma local_fields_no_hostaddr (port : Z) (dbname usr passwd : list ascii) (timeout : Z)
    (d : list ascii) :
  parse_conninfo d = Some (local_fields port dbname usr passwd timeout) ->
  ~ has_field "hostaddr" d.
Proof.
  intros Hp (fields & Hf & Hin). rewrite Hp in Hf. injection Hf as <-.
  unfold local_fields in Hin. cbn [fmap list_fmap fst] in Hin.
  repeat (apply elem_of_cons in Hin; destruct Hin as [Hin|Hin]; [discriminate|]).
  apply elem_of_nil in Hin. exact Hin.
Qed.

(** The descriptor for an account name and a database name free of
    single quotes and backslashes, when the text stays inside the bytes
    allocated for it (which count the password and not its escaped
    form).  Without a host its fields are port, dbname, user, password
    and connect_timeout, the password field being the password itself,
    and there is no hostaddr field.  With a host that resolves, a
    hostaddr field comes first whose value is a numeric IPv4 literal
    that reads back as the resolved address. *)
Lemma get_db_connect_string_fields (env : conn_env) (timeout : Z)
    (err_code : db_failcode) (usr passwd : list ascii) :
  pbs_get_dataservice_usr env = Some usr ->
  get_dataservice_password env usr = Some passwd ->
  malloc_fails env 0%nat = false -> malloc_fails env 1%nat = false ->
  no_nul passwd -> plain usr -> plain (PBS_DATA_SERVICE_STORE_NAME env) ->
  (strlen (escaped_text passwd) - strlen passwd
     + strlen (print_int (pbs_data_service_port env))
     + strlen (print_int timeout) <= 41 ->
   exists d,
     get_db_connect_string env None timeout err_code = Ok (Some d, err_code) /\
     parse_conninfo d
       = Some (local_fields (pbs_data_service_port env)
                 (PBS_DATA_SERVICE_STORE_NAME env) usr passwd timeout) /\
     ~ has_field "hostaddr" d) /\
  (forall h,
     strlen (escaped_text passwd) - strlen passwd
       + strlen (print_int (pbs_data_service_port env))
       + strlen (print_int timeout) <= 27 ->
     get_hostaddr env h <> 0 ->
     exists d ip,
       get_db_connect_string env (Some h) timeout err_code = Ok (Some d, err_code) /\
       parse_conninfo d
         = Some ((cstr "hostaddr", ip)
                   :: local_fields (pbs_data_service_port env)
                        (PBS_DATA_SERVICE_STORE_NAME env) usr passwd timeout) /\
       read_ipv4 ip = Some (htonl (get_hostaddr env h))).
Proof.
  intros Husr Hpw Hm0 Hm1 Hnn Hpu Hpd.
  assert (exists buf, malloc env 0 (strlen passwd * 2 + 1) = Some buf) as [buf Hbuf].
  { unfold malloc. rewrite Hm0. eexists. reflexivity. }
  assert (0 <= strlen passwd * 2 + 1) as Hsz by (unfold strlen; lia).
  pose proof (malloc_length env 0 _ buf Hsz Hbuf) as Hlen.
  destruct (escape_passwd_writes buf passwd (strlen passwd * 2 + 1) Hnn)
    as (pquoted & Hesc & _ & Hcs); [unfold strlen; lia | lia |].
  split.
  - intros Hfit. eexists. split; [|split].
    + unfold get_db_connect_string. rewrite Husr, Hpw, Hbuf, Hesc.
      unfold malloc at 1. rewrite Hm1.
      unfold sprintf. rewrite format_template2, Hcs.
      fold (strlen (conninfo_local (pbs_data_service_port env)
                      (PBS_DATA_SERVICE_STORE_NAME env) usr (escaped_text passwd) timeout)).
      rewrite strlen_conninfo_local, template_size.
      match goal with |- context [if ?b then _ else _] =>
        assert (b = true) as -> by (apply Z.leb_le; lia) end.
      reflexivity.
    + apply (parse_conninfo_local _ _ _ _ _ []); assumption.
    + eapply local_fields_no_hostaddr.
      apply (parse_conninfo_local _ _ _ _ _ []); assumption.
  - intros h Hfit Hh.
    destruct (htonl (get_hostaddr env h)) as [[[b1 b2] b3] b4] eqn:Hb.
    assert (0 <= b1 <= 255 /\ 0 <= b2 <= 255 /\ 0 <= b3 <= 255 /\ 0 <= b4 <= 255)
      as (H1 & H2 & H3 & H4).
    { injection Hb as <- <- <- <-. repeat split; apply octet_range. }
    destruct (inet_ntoa_literal b1 b2 b3 b4 H1 H2 H3 H4) as (q & Hq & Hql & Hqp & Hqr).
    exists (conninfo_host q (pbs_data_service_port env)
              (PBS_DATA_SERVICE_STORE_NAME env) usr (escaped_text passwd) timeout), q.
    split; [|split].
    + unfold get_db_connect_string. rewrite Husr, Hpw, Hbuf, Hesc.
      unfold malloc at 1. rewrite Hm1.
      destruct (get_hostaddr env h =? 0) eqn:E; [apply Z.eqb_eq in E; contradiction|].
      rewrite Hb, Hq.
      assert (strncpy q IPV4_STR_LEN = q) as ->.
      { unfold strncpy. apply take_ge. unfold strlen in Hql. lia. }
      unfold sprintf. rewrite format_template1, Hcs.
      fold (strlen (conninfo_host q (pbs_data_service_port env)
                      (PBS_DATA_SERVICE_STORE_NAME env) usr (escaped_text passwd) timeout)).
      rewrite strlen_conninfo_host, strlen_conninfo_local, template_size.
      match goal with |- context [if ?b then _ else _] =>
        assert (b = true) as -> by (apply Z.leb_le; unfold IPV4_STR_LEN in *; lia) end.
      reflexivity.
    + apply parse_conninfo_host; assumption.
    + exact Hqr.
Qed.

End DescriptorFacts.

(** C8, at a NULL host and an account name that closes the quote: the
    account name is put between the quotes as it is, where the password
    beside it is escaped, so the descriptor has a hostaddr field. *)
Lemma get_db_connect_string_hostaddr_without_host :
  exists d,
    get_db_connect_string (demo_env (cstr "pbs' hostaddr = '10.0.0.1")) None 30
                          PBS_DB_SUCCESS = Ok (Some d, PBS_DB_SUCCESS) /\
    has_field "hostaddr" d.
Proof.
  eexists. split; [vm_compute; reflexivity|].
  eexists. split; [vm_compute; reflexivity|].
  apply (list_elem_of_lookup_2 _ 3%nat). reflexivity.
Qed.

Lemma get_db_connect_string_fields_witness :
  (exists d,
     get_db_connect_string (demo_env (cstr "pbsdata")) None 30 PBS_DB_SUCCESS
       = Ok (Some d, PBS_DB_SUCCESS) /\
     parse_conninfo d
       = Some (local_fields 15007 (cstr "pbs_datastore") (cstr "pbsdata")
                 (cstr "s3'cr\t") 30) /\
     ~ has_field "hostaddr" d) /\
  (exists d ip,
     get_db_connect_string (demo_env (cstr "pbsdata")) (Some (cstr "head1")) 30
                           PBS_DB_SUCCESS = Ok (Some d, PBS_DB_SUCCESS) /\
     parse_conninfo d
       = Some ((cstr "hostaddr", ip)
                 :: local_fields 15007 (cstr "pbs_datastore") (cstr "pbsdata")
                      (cstr "s3'cr\t") 30) /\
     read_ipv4 ip = Some (htonl 3232235777)).
Proof.
  destruct (get_db_connect_string_fields (demo_env (cstr "pbsdata")) 30 PBS_DB_SUCCESS
              (cstr "pbsdata") (cstr "s3'cr\t")) as [Hlocal Hhost].
  - reflexivity.
  - reflexivity.
  - reflexivity.
  - reflexivity.
  - repeat constructor; discriminate.
  - repeat constructor.
  - repeat constructor.
  - split; [apply Hlocal; vm_compute; discriminate|].
    apply (Hhost (cstr "head1")); vm_compute; discriminate.
Defined.

(** ** Schema migration *)

Section MigrationFacts.

Context {DataStore NodeData : Type}.
Variable pbs_db_get_schema_version :
  server_state DataStore NodeData -> Z * Z * Z * option (list ascii).
Variable pbsd_init :
  Z -> server_state DataStore NodeData -> Z * server_state DataStore NodeData.
Variable save_nodes_db :
  server_state DataStore NodeData -> Z * server_state DataStore NodeData.
Variable RECOV_WARM : Z.
Variable NODE_UPDATE_OTHERS : Z.

Local Abbreviation migrate :=
  (svr_migrate_data pbs_db_get_schema_version pbsd_init save_nodes_db
                    RECOV_WARM NODE_UPDATE_OTHERS).
Local Abbreviation mark := (mark_for_update NODE_UPDATE_OTHERS).

(** The loop over the node array marks every node when the count is the
    length of the array. *)
Lemma mark_nodes_all (l2 : list (pbsnode NodeData)) :
  forall l1,
    mark_nodes NODE_UPDATE_OTHERS (length l2) (length l1) (l1 ++ l2)
    = Some (l1 ++ map mark l2).
Proof.
  induction l2 as [|nd l2 IH]; intros l1; [reflexivity|].
  cbn [length mark_nodes]. rewrite list_lookup_middle by reflexivity.
  cbn [mbind option_bind].
  rewrite insert_app_r_alt by lia. rewrite Nat.sub_diag. cbn [insert list_insert].
  replace (l1 ++ mark nd :: l2) with ((l1 ++ [mark nd]) ++ l2)
    by (rewrite <- app_assoc; reflexivity).
  replace (S (length l1)) with (length (l1 ++ [mark nd]))
    by (rewrite length_app; simpl; lia).
  rewrite IH. rewrite <- app_assoc. reflexivity.
Qed.

Lemma mark_nodes_whole (s : server_state DataStore NodeData) :
  svr_totnodes s = Z.of_nat (length (pbsndlist s)) ->
  mark_nodes NODE_UPDATE_OTHERS (Z.to_nat (svr_totnodes s)) 0 (pbsndlist s)
  = Some (map mark (pbsndlist s)).
Proof.
  intros ->. rewrite Nat2Z.id. apply (mark_nodes_all (pbsndlist s) []).
Qed.

(** C5: with the schema version read as (major, minor): for (1, 0) the
    warm recovery is run, every node is marked for update and the nodes
    are saved, 0 being returned when both steps return 0 and -1 when
    either fails; for (3, 0) the result is 0 and the server is left as
    the query of the version left it, which is as it was before the
    call when the query leaves the error text of the connection alone;
    for any other version the result is -1 and besides only the log and
    stderr have changed, nodes and data store being as they were before
    the call. *)
Theorem svr_migrate_data_by_version (s : server_state DataStore NodeData) (maj min : Z)
    (e : option (list ascii)) :
  pbs_db_get_schema_version s = (0, maj, min, e) ->
  (maj = 1 -> min = 0 ->
   forall rc1 s1,
     pbsd_init RECOV_WARM (set_db_err e s) = (rc1, s1) ->
     (rc1 <> 0 -> migrate s = Ok (-1, s1)) /\
     (rc1 = 0 -> svr_totnodes s1 = Z.of_nat (length (pbsndlist s1)) ->
      forall rc2 s2,
        save_nodes_db (set_nodes (map mark (pbsndlist s1)) s1) = (rc2, s2) ->
        (rc2 = 0 -> migrate s = Ok (0, s2)) /\
        (rc2 <> 0 -> migrate s = Ok (-1, log_err (cstr "save_nodes_db failed!") s2)))) /\
  (maj = 3 -> min = 0 ->
   migrate s = Ok (0, set_db_err e s) /\
   (e = conn_db_err s -> migrate s = Ok (0, s))) /\
  (~ (maj = 1 /\ min = 0) -> ~ (maj = 3 /\ min = 0) ->
   exists s',
     migrate s = Ok (-1, s') /\
     s' = to_stderr (cannot_upgrade maj min)
            (log_err (cannot_upgrade maj min) (set_db_err e s)) /\
     datastore s' = datastore s /\ pbsndlist s' = pbsndlist s) /\
  (e = conn_db_err s -> set_db_err e s = s).
Proof.
  intros Hv. unfold svr_migrate_data. rewrite Hv. cbn [Z.eqb negb].
  split; [|split; [|split; [|intros ->; destruct s; reflexivity]]].
  - intros -> -> rc1 s1 Hinit. cbn [Z.eqb andb]. rewrite Hinit. split.
    + intros Hrc. destruct (rc1 =? 0) eqn:E; [apply Z.eqb_eq in E; contradiction|].
      reflexivity.
    + intros -> Htot rc2 s2 Hsave. cbn [Z.eqb negb].
      rewrite (mark_nodes_whole s1 Htot), Hsave. split.
      * intros ->. reflexivity.
      * intros Hrc. destruct (rc2 =? 0) eqn:E; [apply Z.eqb_eq in E; contradiction|].
        reflexivity.
  - intros -> ->. split; [reflexivity|]. intros ->. destruct s; reflexivity.
  - intros H1 H3.
    assert ((maj =? 1) && (min =? 0) = false) as ->.
    { apply andb_false_iff.
      destruct (Z.eqb_spec maj 1); [|left; reflexivity].
      destruct (Z.eqb_spec min 0); [|right; reflexivity]. exfalso. auto. }
    assert ((maj =? 3) && (min =? 0) = false) as ->.
    { apply andb_false_iff.
      destruct (Z.eqb_spec maj 3); [|left; reflexivity].
      destruct (Z.eqb_spec min 0); [|right; reflexivity]. exfalso. auto. }
    eexists. split; [reflexivity|]. repeat split.
Qed.

End MigrationFacts.

Lemma svr_migrate_data_by_version_witness :
  svr_migrate_data (demo_version 1 0) (demo_pbsd_init 0) (demo_save_nodes 0) 2 1
                   (demo_server 2)
  = Ok (0, {| pbsndlist := [ {| nd_data := tt; nd_modified := 1 |};
                             {| nd_data := tt; nd_modified := 1 |} ];
              svr_totnodes := 2; datastore := 2; conn_db_err := None;
              log_lines := []; stderr_lines := [] |}) /\
  svr_migrate_data (demo_version 3 0) (demo_pbsd_init 0) (demo_save_nodes 0) 2 1
                   (demo_server 2)
  = Ok (0, demo_server 2) /\
  exists s',
    svr_migrate_data (demo_version 2 7) (demo_pbsd_init 0) (demo_save_nodes 0) 2 1
                     (demo_server 2) = Ok (-1, s') /\
    s' = to_stderr (cannot_upgrade 2 7) (log_err (cannot_upgrade 2 7) (demo_server 2)) /\
    datastore s' = datastore (demo_server 2) /\
    pbsndlist s' = pbsndlist (demo_server 2).
Proof.
  split; [|split].
  - destruct (svr_migrate_data_by_version (demo_version 1 0) (demo_pbsd_init 0)
                (demo_save_nodes 0) 2 1 (demo_server 2) 1 0 None eq_refl) as (H & _).
    destruct (H eq_refl eq_refl 0 (demo_server 2) eq_refl) as (_ & H2).
    destruct (H2 eq_refl eq_refl 0 _ eq_refl) as (H3 & _).
    exact (H3 eq_refl).
  - destruct (svr_migrate_data_by_version (demo_version 3 0) (demo_pbsd_init 0)
                (demo_save_nodes 0) 2 1 (demo_server 2) 3 0 None eq_refl) as (_ & H & _).
    exact (proj1 (H eq_refl eq_refl)).
  - destruct (svr_migrate_data_by_version (demo_version 2 7) (demo_pbsd_init 0)
                (demo_save_nodes 0) 2 1 (demo_server 2) 2 7 None eq_refl)
      as (_ & _ & H & _).
    apply H; intros [? ?]; discriminate.
Defined.

Example svr_migrate_data_unknown_version :
  svr_migrate_data (demo_version 2 7) (demo_pbsd_init 0) (demo_save_nodes 0) 2 1
                   (demo_server 2)
  = Ok (-1, {| pbsndlist := pbsndlist (demo_server 2); svr_totnodes := 2;
               datastore := 0; conn_db_err := None;
               log_lines := [cstr "Cannot upgrade from PBS datastore version 2.7"];
               stderr_lines := [cstr "Cannot upgrade from PBS datastore version 2.7"] |}).
Proof. vm_compute. reflexivity. Qed.

(** * Further properties of the data store *)

(** ** Searches *)

Section SearchFacts.

Context {Payload Opts Srv : Type}.
Context `{EM : EntityModules Payload Opts Srv}.

Implicit Types (conn : PGconn) (st : db_query_state_t Payload Srv).
Implicit Types (obj : pbs_db_obj_info_t Payload) (w : world Srv).
Implicit Types (cb : @query_cb_t Payload Srv).

Lemma callbacks_app (t u : list event) : callbacks (t ++ u) = callbacks t + callbacks u.
Proof. induction t as [|e t IH]; simpl; [reflexivity | rewrite IH; lia]. Qed.

Lemma accepted_le_callbacks (t : list event) : 0 <= accepted_rows t <= callbacks t.
Proof.
  induction t as [|e t IH]; simpl; [lia|].
  destruct e as [| | |[|]| |]; simpl; lia.
Qed.





(** What the loop of a search leaves behind, whatever made it stop. *)
Lemma search_loop_shape (fuel : nat) conn cb :
  forall st obj tot w v st' obj' w',
  search_loop fuel conn cb st obj tot w = Ok (v, st', obj', w') ->
  exists evs,
    trace w' = trace w ++ evs /\ v = tot + accepted_rows evs /\
    Forall (fun e => is_row_event e = true) evs /\
    callbacks evs <= fetches evs <= callbacks evs + 1 /\
    res st' = res st /\
    pbs_db_obj_type_of obj' = pbs_db_obj_type_of obj.
Proof.
  induction fuel as [|fuel IH]; intros st obj tot w v st' obj' w'; [discriminate|].
  cbn [search_loop].
  destruct (db_cursor_next conn st obj w) as [[[[rc st1] obj1] w1]| |] eqn:Hn;
    [|discriminate|discriminate].
  apply db_cursor_next_inv in Hn.
  assert (exists e0, trace w1 = trace w ++ e0 /\
                     (e0 = [] \/ e0 = [EvFetch (pbs_db_obj_type_of obj) (row st)]) /\
                     (rc = 0 -> e0 <> []) /\
                     res st1 = res st /\
                     pbs_db_obj_type_of obj1 = pbs_db_obj_type_of obj)
    as (e0 & Ht & He0 & Hrc & Hres & Hty).
  { destruct Hn as [(_ & -> & -> & -> & ->)|(_ & _ & next & _ & _ & -> & -> & ->)].
    - exists []. rewrite app_nil_r. repeat split; auto; try (intros; discriminate).
    - eexists. split; [reflexivity|]. repeat split; auto; try (intros; discriminate). }
  destruct (rc =? 0) eqn:Erc.
  - apply Z.eqb_eq in Erc. specialize (Hrc Erc).
    destruct He0 as [->| ->]; [contradiction|].
    destruct (cb obj1 (srv w1)) as [[p refreshed] s1].
    assert (forall t b,
              search_loop fuel conn cb st1 (set_payload obj1 p) t
                (log (EvCallback b) {| oom := oom w1; srv := s1; trace := trace w1 |})
              = Ok (v, st', obj', w') ->
              t = tot + (if b then 1 else 0) ->
              exists evs,
                trace w' = trace w ++ evs /\ v = tot + accepted_rows evs /\
                Forall (fun e => is_row_event e = true) evs /\
                callbacks evs <= fetches evs <= callbacks evs + 1 /\
                res st' = res st /\
                pbs_db_obj_type_of obj' = pbs_db_obj_type_of obj) as Hstep.
    { intros t b H Hb. apply IH in H.
      destruct H as (evs & Htr & Hv & Hall & Hcnt & Hr & Hk).
      simpl in Htr, Hk.
      exists ([EvFetch (pbs_db_obj_type_of obj) (row st); EvCallback b] ++ evs).
      rewrite Htr, Ht, <- !app_assoc. split; [reflexivity|].
      split; [simpl; destruct b; simpl; lia|].
      split; [repeat constructor; exact Hall|].
      split; [simpl; lia|]. split; congruence. }
    destruct (refreshed =? 0).
    + intros H. apply (Hstep _ _ H). simpl. lia.
    + destruct (int_incr tot) as [t|] eqn:Et; [|discriminate].
      apply int_incr_Some in Et. destruct Et as [-> _].
      intros H. apply (Hstep _ _ H). simpl. lia.
  - intros [= <- <- <- <-]. exists e0. split; [exact Ht|].
    destruct He0 as [->| ->]; simpl; repeat split; try lia; auto.
Qed.

(** X2: whenever [pbs_db_search] returns, the callback was run once for
    each fetch but possibly the last one, the value returned is at least
    -1 and at most the number of runs of the callback, and the kind of
    the object is the one it came with. *)
Theorem pbs_db_search_accounting conn obj opts cb w v obj' w' :
  pbs_db_search conn obj opts cb w = Ok (v, obj', w') ->
  exists evs,
    trace w' = trace w ++ evs /\
    -1 <= v <= callbacks evs /\
    callbacks evs <= fetches evs <= callbacks evs + 1 /\
    pbs_db_obj_type_of obj' = pbs_db_obj_type_of obj.
Proof.
  unfold pbs_db_search, db_initialize_state. destruct (oom w).
  - intros [= <- <- <-]. exists [EvMalloc false]. simpl. repeat split; lia.
  - destruct (pbs_db_find_obj _) as [find|]; [|discriminate].
    destruct (find conn _ obj opts) as [ret st1].
    destruct (ret =? -1).
    + intros H.
      assert (v = -1 /\ obj' = obj /\
              w' = db_destroy_state (Some st1)
                     (log (EvFind (pbs_db_obj_type_of obj)) (log (EvMalloc true) w)))
        as (-> & -> & ->) by (repeat split; congruence).
      rewrite trace_destroy. simpl. rewrite <- !app_assoc. eexists.
      split; [reflexivity|]. simpl.
      assert (callbacks (destroy_trace st1) = 0 /\ fetches (destroy_trace st1) = 0)
        as [-> ->] by (unfold destroy_trace; destruct (res st1); split; reflexivity).
      repeat split; lia.
    + destruct (search_loop _ _ _ _ _ _ _) as [[[[t st2] obj2] w2]| |] eqn:Hl;
        [|discriminate|discriminate].
      intros H.
      assert (v = t /\ obj' = obj2 /\ w' = db_destroy_state (Some st2) w2)
        as (-> & -> & ->) by (repeat split; congruence).
      apply search_loop_shape in Hl.
      destruct Hl as (evs & Htr & Hv & _ & Hcnt & _ & Hk).
      rewrite trace_destroy, Htr. simpl. rewrite <- !app_assoc. eexists.
      split; [reflexivity|]. simpl. rewrite callbacks_app, fetches_app.
      assert (callbacks (destroy_trace st2) = 0 /\ fetches (destroy_trace st2) = 0)
        as [-> ->] by (unfold destroy_trace; destruct (res st2); split; reflexivity).
      pose proof (accepted_le_callbacks evs) as Hacc.
      repeat split; try lia. exact Hk.
Qed.

(** X3: on every path on which [pbs_db_search] returns after its
    allocation succeeded, the state that find left is destroyed as the
    last thing done: its result set is cleared if it holds one, and it
    is freed, once.  Between the find and that, only fetches and runs
    of the callback occur, and none when the find returned -1.  When
    the allocation failed nothing else is done. *)
Theorem pbs_db_search_releases_state conn obj opts cb w v obj' w' :
  pbs_db_search conn obj opts cb w = Ok (v, obj', w') ->
  (oom w = true /\ v = -1 /\ trace w' = trace w ++ [EvMalloc false]) \/
  (oom w = false /\
   exists st0 w1 find ret st1 rows,
     db_initialize_state conn cb w = (Some st0, w1) /\
     pbs_db_find_obj (db_fn_arr (pbs_db_obj_type_of obj)) = Some find /\
     find conn st0 obj opts = (ret, st1) /\
     trace w' = trace w ++ [EvMalloc true; EvFind (pbs_db_obj_type_of obj)]
                        ++ rows
                        ++ match res st1 with Some _ => [EvPQclear] | None => [] end
                        ++ [EvFree] /\
     Forall (fun e => is_row_event e = true) rows /\
     (ret = -1 -> rows = [])).
Proof.
  unfold pbs_db_search, db_initialize_state. destruct (oom w).
  - intros [= <- <- <-]. left. repeat split.
  - destruct (pbs_db_find_obj _) as [find|] eqn:Hfn; [|discriminate].
    destruct (find conn _ obj opts) as [ret st1] eqn:Hfind.
    destruct (Z.eqb_spec ret (-1)) as [Hret|Hret].
    + intros Hs. right. split; [reflexivity|].
      assert (w' = db_destroy_state (Some st1)
                     (log (EvFind (pbs_db_obj_type_of obj)) (log (EvMalloc true) w)))
        as -> by congruence.
      eexists _, _, find, ret, st1, [].
      split; [reflexivity|]. split; [reflexivity|]. split; [exact Hfind|].
      rewrite trace_destroy. unfold destroy_trace. simpl. rewrite <- !app_assoc.
      split; [reflexivity|]. split; [constructor | reflexivity].
    + destruct (search_loop _ _ _ _ _ _ _) as [[[[t st2] obj2] w2]| |] eqn:Hl;
        [|discriminate|discriminate].
      intros Hs. right. split; [reflexivity|].
      assert (w' = db_destroy_state (Some st2) w2) as -> by congruence.
      apply search_loop_shape in Hl.
      destruct Hl as (evs & Htr & _ & Hall & _ & Hres & _).
      eexists _, _, find, ret, st1, evs.
      split; [reflexivity|]. split; [reflexivity|]. split; [exact Hfind|].
      rewrite trace_destroy, Htr. unfold destroy_trace. rewrite Hres.
      simpl. rewrite <- !app_assoc.
      split; [reflexivity|]. split; [exact Hall | intros; contradiction].
Qed.

(** X4: the find and next entries of a row of the dispatch table are
    NULL together, for the server, the node time stamp and the job
    script; a search on an object of such a kind calls a NULL pointer as
    soon as its allocation has succeeded, and returns -1 when it has
    not. *)
Theorem pbs_db_search_unsupported_kind conn obj opts cb w :
  (forall k,
     pbs_db_find_obj (db_fn_arr k) = None <-> pbs_db_next_obj (db_fn_arr k) = None) /\
  (pbs_db_find_obj (db_fn_arr (pbs_db_obj_type_of obj)) = None <->
   pbs_db_obj_type_of obj = PBS_DB_SVR \/
   pbs_db_obj_type_of obj = PBS_DB_MOMINFO_TIME \/
   pbs_db_obj_type_of obj = PBS_DB_JOBSCR) /\
  (pbs_db_find_obj (db_fn_arr (pbs_db_obj_type_of obj)) = None ->
   pbs_db_search conn obj opts cb w
   = if oom w then Ok (-1, obj, log (EvMalloc false) w) else Undefined).
Proof.
  split; [|split].
  - intros k. destruct k; simpl; split; intros H; try discriminate; reflexivity.
  - destruct (pbs_db_obj_type_of obj); simpl; split; intros H;
      try discriminate; try reflexivity; auto;
      destruct H as [H|[H|H]]; discriminate.
  - intros H. unfold pbs_db_search, db_initialize_state.
    destruct (oom w); [reflexivity|]. rewrite H. reflexivity.
Qed.

End SearchFacts.


(** The search of the witness above, run: the three rows are fetched
    and handed to the callback, which accepts the rows 0 and 2. *)
Example pbs_db_search_full_pass_run :
  pbs_db_search (EM := demo_modules_res (demo_find 0 0 3)) demo_conn demo_job None
                demo_cb_even demo_world
  = Ok (2, {| pbs_db_obj_type_of := PBS_DB_JOB; pbs_db_un := 2 |},
        {| oom := false; srv := 3;
           trace := [EvMalloc true; EvFind PBS_DB_JOB]
                      ++ pass_trace PBS_DB_JOB 0 [true; false; true]
                      ++ [EvPQclear; EvFree] |}).
Proof. vm_compute. reflexivity. Qed.

Lemma pbs_db_search_accounting_witness :
  exists evs,
    trace {| oom := false; srv := 3;
             trace := [EvMalloc true; EvFind PBS_DB_JOB;
                       EvFetch PBS_DB_JOB 0; EvCallback true;
                       EvFetch PBS_DB_JOB 1; EvCallback false;
                       EvFetch PBS_DB_JOB 2; EvCallback true;
                       EvFetch PBS_DB_JOB 3; EvPQclear; EvFree] |}
      = trace demo_world ++ evs /\
    -1 <= 2 <= callbacks evs /\
    callbacks evs <= fetches evs <= callbacks evs + 1 /\
    pbs_db_obj_type_of {| pbs_db_obj_type_of := PBS_DB_JOB; pbs_db_un := 3 |}
      = pbs_db_obj_type_of demo_job.
Proof.
  apply (pbs_db_search_accounting (EM := demo_modules (demo_find 0 0 5) 3)
           demo_conn demo_job None demo_cb_even demo_world).
  vm_compute. reflexivity.
Defined.

Lemma pbs_db_search_releases_state_witness :
  (oom demo_world = true /\ 2 = -1 /\
   [EvMalloc true; EvFind PBS_DB_JOB;
    EvFetch PBS_DB_JOB 0; EvCallback true;
    EvFetch PBS_DB_JOB 1; EvCallback false;
    EvFetch PBS_DB_JOB 2; EvCallback true;
    EvFetch PBS_DB_JOB 3; EvPQclear; EvFree]
   = trace demo_world ++ [EvMalloc false]) \/
  (oom demo_world = false /\
   exists st0 w1 find ret st1 rows,
     db_initialize_state demo_conn demo_cb_even demo_world = (Some st0, w1) /\
     pbs_db_find_obj (db_fn_arr (EM := demo_modules (demo_find 0 0 5) 3)
                        (pbs_db_obj_type_of demo_job)) = Some find /\
     find demo_conn st0 demo_job None = (ret, st1) /\
     [EvMalloc true; EvFind PBS_DB_JOB;
      EvFetch PBS_DB_JOB 0; EvCallback true;
      EvFetch PBS_DB_JOB 1; EvCallback false;
      EvFetch PBS_DB_JOB 2; EvCallback true;
      EvFetch PBS_DB_JOB 3; EvPQclear; EvFree]
     = trace demo_world ++ [EvMalloc true; EvFind (pbs_db_obj_type_of demo_job)]
         ++ rows ++ match res st1 with Some _ => [EvPQclear] | None => [] end
         ++ [EvFree] /\
     Forall (fun e => is_row_event e = true) rows /\
     (ret = -1 -> rows = [])).
Proof.
  apply (pbs_db_search_releases_state (EM := demo_modules (demo_find 0 0 5) 3)
           demo_conn demo_job None demo_cb_even demo_world 2
           {| pbs_db_obj_type_of := PBS_DB_JOB; pbs_db_un := 3 |}
           {| oom := false; srv := 3;
              trace := [EvMalloc true; EvFind PBS_DB_JOB;
                        EvFetch PBS_DB_JOB 0; EvCallback true;
                        EvFetch PBS_DB_JOB 1; EvCallback false;
                        EvFetch PBS_DB_JOB 2; EvCallback true;
                        EvFetch PBS_DB_JOB 3; EvPQclear; EvFree] |}).
  vm_compute. reflexivity.
Defined.

Lemma pbs_db_search_unsupported_kind_witness :
  pbs_db_search (EM := demo_modules demo_find_empty 0) demo_conn demo_svr_obj None
                demo_cb demo_world = Undefined.
Proof.
  destruct (pbs_db_search_unsupported_kind (EM := demo_modules demo_find_empty 0)
              demo_conn demo_svr_obj None demo_cb demo_world) as (_ & _ & H).
  exact (H eq_refl).
Defined.

(** ** The other columns of the dispatch table *)

Section StoreFacts.

Context {Payload Opts Srv ObjId AttrList : Type}.
Context `{EM : EntityModules Payload Opts Srv}.
Context `{SM : StoreModules Payload ObjId AttrList}.

(** X5: saving and loading go through a function for every kind;
    deleting calls a NULL pointer exactly for the kinds that cannot be
    searched (server, node time stamp, job script), and deleting
    attributes exactly for the node time stamp and the job script.
    Where there is a function, its result is passed on as it is, by
    each of the four operations; a load also leaves the payload the
    function loaded in the object. *)
Theorem dispatch_columns (conn : PGconn) (obj : pbs_db_obj_info_t Payload)
    (savetype : Z) (obj_id : ObjId) (attrs : AttrList) :
  pbs_db_save_obj conn obj savetype <> Undefined /\
  pbs_db_load_obj conn obj <> Undefined /\
  (pbs_db_delete_obj conn obj = Undefined <->
   pbs_db_find_obj (db_fn_arr (pbs_db_obj_type_of obj)) = None) /\
  (pbs_db_delete_attr_obj conn obj obj_id attrs = Undefined <->
   pbs_db_obj_type_of obj = PBS_DB_MOMINFO_TIME \/
   pbs_db_obj_type_of obj = PBS_DB_JOBSCR) /\
  (forall f, fn_save_obj (db_fn_arr_store (pbs_db_obj_type_of obj)) = Some f ->
             pbs_db_save_obj conn obj savetype = Ok (f conn obj savetype)) /\
  (forall f, fn_delete_obj (db_fn_arr_store (pbs_db_obj_type_of obj)) = Some f ->
             pbs_db_delete_obj conn obj = Ok (f conn obj)) /\
  (forall f, fn_load_obj (db_fn_arr_store (pbs_db_obj_type_of obj)) = Some f ->
             pbs_db_load_obj conn obj
             = Ok (fst (f conn obj), set_payload obj (snd (f conn obj)))) /\
  (forall f, fn_del_attr_obj (db_fn_arr_store (pbs_db_obj_type_of obj)) = Some f ->
             pbs_db_delete_attr_obj conn obj obj_id attrs = Ok (f conn obj_id attrs)).
Proof.
  unfold pbs_db_save_obj, pbs_db_load_obj, pbs_db_delete_obj, pbs_db_delete_attr_obj.
  split; [|split; [|split; [|split; [|split; [|split; [|split]]]]]].
  - destruct (pbs_db_obj_type_of obj); discriminate.
  - destruct (pbs_db_obj_type_of obj); simpl;
      match goal with |- context [let '(_, _) := ?x in _] => destruct x end;
      discriminate.
  - destruct (pbs_db_obj_type_of obj); simpl; split; intros H;
      try discriminate; reflexivity.
  - destruct (pbs_db_obj_type_of obj); simpl; split; intros H;
      try discriminate; auto; destruct H; discriminate.
  - intros f ->. reflexivity.
  - intros f ->. reflexivity.
  - intros f ->. destruct (f conn obj). reflexivity.
  - intros f ->. reflexivity.
Qed.

End StoreFacts.

(** ** Queries *)

Section QueryFacts.

Context {ConnData : Type}.
Variable PQexecPrepared : PGconn -> list ascii -> Z -> ConnData -> Z -> PGresult.

(** X6: [db_query] asks for binary rows and returns 0 exactly for a
    result with status PGRES_TUPLES_OK and at least one row, which is
    then left to the caller; 1 for PGRES_TUPLES_OK without a row and -1
    for any other status, the result having been cleared in both cases.
    The error cache is touched only when -1 is returned.  A statement
    answered with the same status in both formats cannot succeed in both
    [db_cmd] and [db_query]. *)
Theorem db_query_three_way (conn : PGconn) (conn_data : ConnData) (stmt : list ascii)
    (num_vars : Z) (cache : option (list ascii))
    (rc : Z) (res : PGresult) (cleared : bool) (cache' : option (list ascii)) :
  db_query PQexecPrepared conn conn_data stmt num_vars cache = (rc, res, cleared, cache') ->
  res = PQexecPrepared conn stmt num_vars conn_data 1 /\
  (rc = 0 <-> PQresultStatus res = PGRES_TUPLES_OK /\ 1 <= PQntuples res) /\
  (rc = 1 <-> PQresultStatus res = PGRES_TUPLES_OK /\ PQntuples res <= 0) /\
  (rc = -1 <-> PQresultStatus res <> PGRES_TUPLES_OK) /\
  (cleared = false <-> rc = 0) /\
  (rc <> -1 -> cache' = cache) /\
  (PQresultStatus (PQexecPrepared conn stmt num_vars conn_data 0) = PQresultStatus res ->
   fst (db_cmd PQexecPrepared conn conn_data stmt num_vars cache) = -1 \/ rc = -1).
Proof.
  unfold db_query.
  set (r := PQexecPrepared conn stmt num_vars conn_data 1).
  destruct (is_tuples_ok (PQresultStatus r)) eqn:Es; cbn [negb].
  - assert (PQresultStatus r = PGRES_TUPLES_OK) as Hs
        by (destruct (PQresultStatus r); try discriminate; reflexivity).
    destruct (PQntuples r <=? 0) eqn:En; intros [= <- <- <- <-];
      [apply Z.leb_le in En | apply Z.leb_gt in En];
      (split; [reflexivity|]); repeat split; intros; try lia; try congruence;
      try tauto; try discriminate.
    + left. unfold db_cmd. rewrite H, Hs. reflexivity.
    + left. unfold db_cmd. rewrite H, Hs. reflexivity.
  - assert (PQresultStatus r <> PGRES_TUPLES_OK) as Hs
        by (intros E; rewrite E in Es; discriminate).
    intros [= <- <- <- <-].
    (split; [reflexivity|]); repeat split; intros; try lia; try congruence;
      try tauto; try discriminate; auto.
Qed.

End QueryFacts.

Lemma db_query_three_way_witness :
  demo_tuples_result 2
    = demo_exec_prepared (demo_tuples_result 2) demo_conn (cstr "select_jobs") 0 tt 1 /\
  (0 = 0 <-> PQresultStatus (demo_tuples_result 2) = PGRES_TUPLES_OK /\
             1 <= PQntuples (demo_tuples_result 2)).
Proof.
  destruct (db_query_three_way (demo_exec_prepared (demo_tuples_result 2))
              demo_conn tt (cstr "select_jobs") 0 None
              0 (demo_tuples_result 2) false None eq_refl) as (H1 & H2 & _).
  split; [exact H1 | exact H2].
Defined.

(** ** The cached error message *)

Section ErrorTextFacts.

Lemma skip_newlines_head (r : list ascii) (c : ascii) (r' : list ascii) :
  skip_newlines r = c :: r' -> is_newline c = false.
Proof.
  induction r as [|d r IH]; simpl; [discriminate|].
  destruct (is_newline d) eqn:E; [exact IH|].
  intros [= <- _]. exact E.
Qed.

Lemma suppress_newlines_last (s b : list ascii) (c : ascii) :
  suppress_newlines s = b ++ [c] -> is_newline c = false.
Proof.
  unfold suppress_newlines. intros H.
  apply (f_equal (@rev ascii)) in H.
  rewrite rev_involutive, rev_app_distr in H. simpl in H.
  eapply skip_newlines_head. exact H.
Qed.

(** X7: the message [db_set_error] caches is the context, the subject,
    the word failed, the message of the session and the diagnostic code
    (nothing for a NULL one), where the message of the session has lost
    all the carriage returns and line feeds at its end and nothing else;
    without a message of the session nothing is cached. *)
Theorem db_set_error_text (conn : PGconn) (fnc msg : list ascii)
    (diag : option (list ascii)) :
  match PQerrorMessage conn with
  | None => db_set_error conn fnc msg diag = None
  | Some m =>
      exists body nl,
        m = body ++ nl /\
        Forall (fun c => is_newline c = true) nl /\
        (forall b c, body = b ++ [c] -> is_newline c = false) /\
        db_set_error conn fnc msg diag
        = Some (fnc ++ cstr " " ++ msg ++ cstr " failed: " ++ body ++ cstr " "
                  ++ default [] diag)
  end.
Proof.
  unfold db_set_error. destruct (PQerrorMessage conn) as [m|]; [|reflexivity].
  destruct (suppress_newlines_split m) as (nl & Hm & Hnl).
  exists (suppress_newlines m), nl. split; [exact Hm|]. split; [exact Hnl|].
  split; [|reflexivity]. intros b c Hb. eapply suppress_newlines_last. exact Hb.
Qed.

End ErrorTextFacts.

(** ** Opening and closing the connection *)

Section ConnectFacts.

Context `{PM : PrepareModules}.

Lemma ev_count_app (p : conn_event -> bool) (t u : list conn_event) :
  ev_count p (t ++ u) = (ev_count p t + ev_count p u)%nat.
Proof. unfold ev_count. rewrite List.filter_app, length_app. reflexivity. Qed.

Lemma db_prepare_sqls_spec (conn : PGconn) (cache : option (list ascii))
    (rc : Z) (cache' : option (list ascii)) (pr : list conn_event) :
  db_prepare_sqls conn cache = (rc, cache', pr) ->
  (rc = 0 \/ rc = -1) /\
  (forall p, (forall m, p (CePrepare m) = false) -> ev_count p pr = 0%nat) /\
  (rc = 0 ->
   pr = [CePrepare SqlJob; CePrepare SqlSvr; CePrepare SqlQue; CePrepare SqlResv;
         CePrepare SqlNode; CePrepare SqlSched]).
Proof.
  unfold db_prepare_sqls.
  destruct (db_prepare_job_sqls conn cache) as [r1 c1].
  destruct (negb (r1 =? 0));
    [intros [= <- <- <-]; split; [right; reflexivity|];
     split; [intros p Hp; unfold ev_count; simpl; rewrite ?Hp; reflexivity | discriminate]|].
  destruct (db_prepare_svr_sqls conn c1) as [r2 c2].
  destruct (negb (r2 =? 0));
    [intros [= <- <- <-]; split; [right; reflexivity|];
     split; [intros p Hp; unfold ev_count; simpl; rewrite ?Hp; reflexivity | discriminate]|].
  destruct (db_prepare_que_sqls conn c2) as [r3 c3].
  destruct (negb (r3 =? 0));
    [intros [= <- <- <-]; split; [right; reflexivity|];
     split; [intros p Hp; unfold ev_count; simpl; rewrite ?Hp; reflexivity | discriminate]|].
  destruct (db_prepare_resv_sqls conn c3) as [r4 c4].
  destruct (negb (r4 =? 0));
    [intros [= <- <- <-]; split; [right; reflexivity|];
     split; [intros p Hp; unfold ev_count; simpl; rewrite ?Hp; reflexivity | discriminate]|].
  destruct (db_prepare_node_sqls conn c4) as [r5 c5].
  destruct (negb (r5 =? 0));
    [intros [= <- <- <-]; split; [right; reflexivity|];
     split; [intros p Hp; unfold ev_count; simpl; rewrite ?Hp; reflexivity | discriminate]|].
  destruct (db_prepare_sched_sqls conn c5) as [r6 c6].
  destruct (negb (r6 =? 0));
    intros [= <- <- <-]; (split; [auto|]);
    (split; [intros p Hp; unfold ev_count; simpl; rewrite ?Hp; reflexivity|]);
    [discriminate | reflexivity].
Qed.

Lemma get_db_connect_string_inv (env : conn_env) (host : option (list ascii))
    (timeout : Z) (err_code : db_failcode) (r : option (list ascii)) (fc : db_failcode) :
  get_db_connect_string env host timeout err_code = Ok (r, fc) ->
  match r with
  | Some _ => fc = err_code
  | None =>
      (fc = PBS_DB_AUTH_FAILED /\
       (pbs_get_dataservice_usr env = None \/
        exists usr, pbs_get_dataservice_usr env = Some usr /\
                    get_dataservice_password env usr = None)) \/
      (fc = PBS_DB_NOMEM /\ (malloc_fails env 0%nat = true \/ malloc_fails env 1%nat = true)) \/
      (fc = PBS_DB_CONNFAILED /\ exists h, host = Some h /\ get_hostaddr env h = 0)
  end.
Proof.
  unfold get_db_connect_string.
  destruct (pbs_get_dataservice_usr env) as [usr|] eqn:Hu;
    [|intros [= <- <-]; left; split; [reflexivity | left; reflexivity]].
  destruct (get_dataservice_password env usr) as [p|] eqn:Hp;
    [|intros [= <- <-]; left; split; [reflexivity | right; exists usr; auto]].
  unfold malloc.
  destruct (malloc_fails env 0) eqn:M0;
    [intros [= <- <-]; right; left; auto|].
  destruct (escape_passwd _ p _); [|discriminate].
  destruct (malloc_fails env 1) eqn:M1;
    [intros [= <- <-]; right; left; auto|].
  destruct host as [h|].
  - destruct (get_hostaddr env h =? 0) eqn:E.
    + apply Z.eqb_eq in E. intros [= <- <-]. right. right.
      split; [reflexivity | exists h; auto].
    + destruct (inet_ntoa _) as [q|] eqn:Hq.
      * destruct (sprintf _ _ _); [|discriminate|discriminate].
        intros [= <- <-]. reflexivity.
      * exfalso. revert Hq. unfold inet_ntoa.
        destruct (htonl (get_hostaddr env h)) as [[[? ?] ?] ?]. discriminate.
  - destruct (sprintf _ _ _); [|discriminate|discriminate].
    intros [= <- <-]. reflexivity.
Qed.

Lemma get_db_connect_string_null (env : conn_env) (host : option (list ascii))
    (timeout : Z) (fc : db_failcode) :
  get_db_connect_string env host timeout PBS_DB_SUCCESS = Ok (None, fc) ->
  fc <> PBS_DB_SUCCESS.
Proof.
  intros H. apply get_db_connect_string_inv in H.
  destruct H as [[-> _]|[[-> _]|[-> _]]]; discriminate.
Qed.

(** X8: when the builder of the connect string returns NULL the error
    code is PBS_DB_AUTH_FAILED (no account name or no password),
    PBS_DB_NOMEM (one of its two allocations failed) or
    PBS_DB_CONNFAILED (the host did not resolve), and so never
    PBS_DB_SUCCESS; when it returns a descriptor the code is the one it
    was called with. *)
Theorem get_db_connect_string_failures (env : conn_env) (host : option (list ascii))
    (timeout : Z) (err_code : db_failcode) (r : option (list ascii)) (fc : db_failcode) :
  get_db_connect_string env host timeout err_code = Ok (r, fc) ->
  match r with
  | Some _ => fc = err_code
  | None =>
      fc <> PBS_DB_SUCCESS /\
      ((fc = PBS_DB_AUTH_FAILED /\
        (pbs_get_dataservice_usr env = None \/
         exists usr, pbs_get_dataservice_usr env = Some usr /\
                     get_dataservice_password env usr = None)) \/
       (fc = PBS_DB_NOMEM /\
        (malloc_fails env 0%nat = true \/ malloc_fails env 1%nat = true)) \/
       (fc = PBS_DB_CONNFAILED /\ exists h, host = Some h /\ get_hostaddr env h = 0))
  end.
Proof.
  intros H. apply get_db_connect_string_inv in H. destruct r; [exact H|].
  split; [|exact H].
  destruct H as [[-> _]|[[-> _]|[-> _]]]; discriminate.
Qed.

Lemma is_conn_error_inv (c : option PGconn) (fc : db_failcode)
    (cache : option (list ascii)) (e : Z) (fc1 : db_failcode)
    (cache1 : option (list ascii)) :
  is_conn_error c fc cache = Ok (e, fc1, cache1) ->
  (e = 0 /\ fc1 = fc /\ cache1 = cache /\
   exists s, c = Some s /\ is_bad (PQstatus s) = false) \/
  (e = 1 /\ fc1 <> PBS_DB_SUCCESS /\ fc1 <> PBS_DB_ERR /\ fc1 <> PBS_DB_NOMEM).
Proof.
  unfold is_conn_error. destruct c as [s|].
  - destruct (is_bad (PQstatus s)) eqn:Eb.
    + destruct (db_set_error _ _ _ _) as [t|]; [|discriminate].
      intros [= <- <- <-]. right. split; [reflexivity|].
      destruct (_ || _); [repeat split; discriminate|].
      destruct (isSome _); [repeat split; discriminate|].
      destruct (isSome _); repeat split; discriminate.
    + intros [= <- <- <-]. left. repeat split. exists s. auto.
  - intros [= <- <- <-]. right. repeat split; discriminate.
Qed.

(** The ways [pbs_db_connect] can end. *)
Lemma pbs_db_connect_cases (env : connect_env) (db_conn : option PGconn)
    (host : option (list ascii)) (port timeout : Z) (cache : option (list ascii))
    (fc : db_failcode) (h : option PGconn) (cache' : option (list ascii))
    (tr : list conn_event) :
  pbs_db_connect env db_conn host port timeout cache = Ok (fc, h, cache', tr) ->
  (alloc_data_fails env = true /\ fc = PBS_DB_NOMEM /\ h = db_conn /\
   tr = [CeAllocData false]) \/
  (alloc_trx_fails env = true /\ fc = PBS_DB_NOMEM /\ h = db_conn /\
   tr = [CeAllocData true; CeAllocTrx false; CeFreeData]) \/
  (fc <> PBS_DB_SUCCESS /\ fc <> PBS_DB_ERR /\ h = None /\
   exists mid,
     tr = [CeAllocData true; CeAllocTrx true] ++ mid ++ [CeFreeData; CeFreeTrx] /\
     (mid = [] \/ exists info, mid = [CeConnectdb info; CeScrub])) \/
  (fc = PBS_DB_ERR /\ h = None /\
   exists info pr,
     tr = [CeAllocData true; CeAllocTrx true; CeConnectdb info; CeScrub] ++ pr
            ++ [CeStopDb host port; CeFreeData; CeFreeTrx] /\
     (forall p, (forall m, p (CePrepare m) = false) -> ev_count p pr = 0%nat)) \/
  (fc = PBS_DB_SUCCESS /\
   exists s info,
     h = Some s /\ PQconnectdb env info = Some s /\ is_bad (PQstatus s) = false /\
     tr = [CeAllocData true; CeAllocTrx true; CeConnectdb info; CeScrub;
           CePrepare SqlJob; CePrepare SqlSvr; CePrepare SqlQue; CePrepare SqlResv;
           CePrepare SqlNode; CePrepare SqlSched]).
Proof.
  unfold pbs_db_connect.
  destruct (alloc_data_fails env) eqn:Ad;
    [intros [= <- <- <- <-]; left; auto|].
  destruct (alloc_trx_fails env) eqn:At;
    [intros [= <- <- <- <-]; right; left; auto|].
  destruct (get_db_connect_string _ _ _ _) as [[[info|] fc0]| |] eqn:Hs;
    [| |discriminate|discriminate].
  - assert (fc0 = PBS_DB_SUCCESS) as ->
        by (apply get_db_connect_string_inv in Hs; exact Hs).
    destruct (is_conn_error _ _ _) as [[[e fc1] cache1]| |] eqn:Hc;
      [|discriminate|discriminate].
    apply is_conn_error_inv in Hc.
    destruct Hc as [(-> & -> & -> & s & Hcs & Hbad)|(-> & Hf1 & Hf2 & Hf3)].
    + cbn [Z.eqb]. rewrite Hcs.
      destruct (db_prepare_sqls s cache) as [[rc cache2] pr] eqn:Hp.
      apply db_prepare_sqls_spec in Hp. destruct Hp as (Hrc & Hev & Hall).
      destruct Hrc as [-> | ->]; cbn [Z.eqb negb].
      * intros [= <- <- <- <-]. right. right. right. right.
        split; [reflexivity|]. exists s, info. rewrite (Hall eq_refl).
        repeat split; auto.
      * intros [= <- <- <- <-]. right. right. right. left.
        split; [reflexivity|]. split; [reflexivity|]. exists info, pr.
        split; [|exact Hev]. simpl. rewrite <- !app_assoc. reflexivity.
    + cbn [Z.eqb]. unfold db_cnerr.
      destruct fc1; try contradiction;
        intros [= <- <- <- <-]; right; right; left;
        (split; [discriminate|]); (split; [discriminate|]); (split; [reflexivity|]);
        exists [CeConnectdb info; CeScrub]; (split; [reflexivity|]);
        right; exists info; reflexivity.
  - pose proof (get_db_connect_string_null _ _ _ _ Hs) as Hne.
    apply get_db_connect_string_inv in Hs.
    assert (fc0 <> PBS_DB_ERR) as Hne2
        by (destruct Hs as [[-> _]|[[-> _]|[-> _]]]; discriminate).
    unfold db_cnerr.
    destruct fc0; try contradiction;
      intros [= <- <- <- <-]; right; right; left;
      (split; [discriminate|]); (split; [discriminate|]); (split; [reflexivity|]);
      exists []; (split; [reflexivity|]); left; reflexivity.
Qed.

(** X9: when [pbs_db_connect] returns PBS_DB_SUCCESS the handle is the
    session [PQconnectdb] gave, that session is not bad, all six
    statement sets were prepared and both buffers are still allocated;
    when it returns anything else the handle is NULL, or, if one of the
    two first allocations failed, left as the caller had it.  The data
    service is told to stop exactly when the code is PBS_DB_ERR, that
    is when the session was good and a statement set failed to
    prepare. *)
Theorem pbs_db_connect_outcome (env : connect_env) (db_conn : option PGconn)
    (host : option (list ascii)) (port timeout : Z) (cache : option (list ascii))
    (fc : db_failcode) (h : option PGconn) (cache' : option (list ascii))
    (tr : list conn_event) :
  pbs_db_connect env db_conn host port timeout cache = Ok (fc, h, cache', tr) ->
  (fc = PBS_DB_SUCCESS ->
   exists s info,
     h = Some s /\ PQconnectdb env info = Some s /\ is_bad (PQstatus s) = false /\
     ev_count is_free_data tr = 0%nat /\ ev_count is_free_trx tr = 0%nat /\
     ev_count (fun e => match e with CePrepare _ => true | _ => false end) tr = 6%nat) /\
  (fc <> PBS_DB_SUCCESS ->
   h = None \/
   (fc = PBS_DB_NOMEM /\ h = db_conn /\
    (alloc_data_fails env = true \/ alloc_trx_fails env = true))) /\
  (ev_count is_stop_db tr = (if match fc with PBS_DB_ERR => true | _ => false end
                             then 1 else 0)%nat).
Proof.
  intros H. apply pbs_db_connect_cases in H.
  destruct H as [(Ha & -> & -> & ->)|[(Ha & -> & -> & ->)|
                 [(Hn1 & Hn2 & -> & mid & -> & Hmid)|
                 [(-> & -> & info & pr & -> & Hpr)|
                  (-> & s & info & -> & Hc & Hb & ->)]]]].
  - split; [discriminate|]. split; [auto | reflexivity].
  - split; [discriminate|]. split; [auto | reflexivity].
  - split; [contradiction|]. split; [auto|].
    destruct Hmid as [->|[info ->]]; destruct fc; try contradiction; reflexivity.
  - split; [discriminate|]. split; [auto|].
    rewrite !ev_count_app, Hpr by reflexivity. reflexivity.
  - split; [|split; [contradiction | reflexivity]].
    intros _. exists s, info. repeat split; auto.
Qed.

(** X10: after [pbs_db_connect] on a NULL handle and [pbs_db_disconnect]
    on the handle it left, each of the two buffers has been freed as
    many times as it was allocated, whether the connect succeeded or at
    which step it failed; the disconnect returns 0 exactly when the
    connect had returned PBS_DB_SUCCESS. *)
Theorem pbs_db_connect_disconnect_balance (env : connect_env)
    (host : option (list ascii)) (port timeout : Z) (cache : option (list ascii))
    (fc : db_failcode) (h : option PGconn) (cache' : option (list ascii))
    (tr : list conn_event) :
  pbs_db_connect env None host port timeout cache = Ok (fc, h, cache', tr) ->
  let '(rc, tr2) := pbs_db_disconnect h in
  ev_count is_free_data (tr ++ tr2) = ev_count is_alloc_data (tr ++ tr2) /\
  ev_count is_free_trx (tr ++ tr2) = ev_count is_alloc_trx (tr ++ tr2) /\
  (rc = 0 <-> fc = PBS_DB_SUCCESS).
Proof.
  intros H. apply pbs_db_connect_cases in H.
  destruct H as [(Ha & -> & -> & ->)|[(Ha & -> & -> & ->)|
                 [(Hn1 & Hn2 & -> & mid & -> & Hmid)|
                 [(-> & -> & info & pr & -> & Hpr)|
                  (-> & s & info & -> & Hc & Hb & ->)]]]];
    cbn [pbs_db_disconnect].
  - repeat split; intros; discriminate.
  - repeat split; intros; discriminate.
  - split; [|split].
    + destruct Hmid as [->|[info ->]]; reflexivity.
    + destruct Hmid as [->|[info ->]]; reflexivity.
    + split; [discriminate | intros ->; contradiction].
  - rewrite !app_nil_r. rewrite !ev_count_app, !Hpr by reflexivity.
    repeat split; intros; discriminate.
  - repeat split; intros; reflexivity.
Qed.

End ConnectFacts.

Lemma get_db_connect_string_failures_witness :
  PBS_DB_CONNFAILED <> PBS_DB_SUCCESS /\
  ((PBS_DB_CONNFAILED = PBS_DB_AUTH_FAILED /\
    (pbs_get_dataservice_usr demo_env_unresolved = None \/
     exists usr, pbs_get_dataservice_usr demo_env_unresolved = Some usr /\
                 get_dataservice_password demo_env_unresolved usr = None)) \/
   (PBS_DB_CONNFAILED = PBS_DB_NOMEM /\
    (malloc_fails demo_env_unresolved 0%nat = true \/
     malloc_fails demo_env_unresolved 1%nat = true)) \/
   (PBS_DB_CONNFAILED = PBS_DB_CONNFAILED /\
    exists h, Some (cstr "nowhere") = Some h /\ get_hostaddr demo_env_unresolved h = 0)).
Proof.
  apply (get_db_connect_string_failures demo_env_unresolved (Some (cstr "nowhere")) 30
           PBS_DB_SUCCESS None PBS_DB_CONNFAILED).
  vm_compute. reflexivity.
Defined.

Lemma pbs_db_connect_outcome_witness :
  ev_count is_stop_db
    [CeAllocData true; CeAllocTrx true;
     CeConnectdb (cstr "port = 15007 dbname = 'pbs_datastore' user = 'pbsdata' password = 's3\'cr\\t' connect_timeout = 30");
     CeScrub; CePrepare SqlJob; CePrepare SqlSvr; CePrepare SqlQue;
     CeStopDb None 15007; CeFreeData; CeFreeTrx] = 1%nat.
Proof.
  apply (pbs_db_connect_outcome (PM := demo_prepare (Some SqlQue))
           (demo_connect_env (Some demo_conn)) None None 15007 30 None
           PBS_DB_ERR None (Some (cstr "pg_ctl: server stopped"))).
  vm_compute. reflexivity.
Defined.

Lemma pbs_db_connect_disconnect_balance_witness :
  let '(rc, tr2) := pbs_db_disconnect (Some demo_conn) in
  ev_count is_free_data
    ([CeAllocData true; CeAllocTrx true;
      CeConnectdb (cstr "port = 15007 dbname = 'pbs_datastore' user = 'pbsdata' password = 's3\'cr\\t' connect_timeout = 30");
      CeScrub; CePrepare SqlJob; CePrepare SqlSvr; CePrepare SqlQue; CePrepare SqlResv;
      CePrepare SqlNode; CePrepare SqlSched] ++ tr2)
  = ev_count is_alloc_data
    ([CeAllocData true; CeAllocTrx true;
      CeConnectdb (cstr "port = 15007 dbname = 'pbs_datastore' user = 'pbsdata' password = 's3\'cr\\t' connect_timeout = 30");
      CeScrub; CePrepare SqlJob; CePrepare SqlSvr; CePrepare SqlQue; CePrepare SqlResv;
      CePrepare SqlNode; CePrepare SqlSched] ++ tr2) /\
  ev_count is_free_trx
    ([CeAllocData true; CeAllocTrx true;
      CeConnectdb (cstr "port = 15007 dbname = 'pbs_datastore' user = 'pbsdata' password = 's3\'cr\\t' connect_timeout = 30");
      CeScrub; CePrepare SqlJob; CePrepare SqlSvr; CePrepare SqlQue; CePrepare SqlResv;
      CePrepare SqlNode; CePrepare SqlSched] ++ tr2)
  = ev_count is_alloc_trx
    ([CeAllocData true; CeAllocTrx true;
      CeConnectdb (cstr "port = 15007 dbname = 'pbs_datastore' user = 'pbsdata' password = 's3\'cr\\t' connect_timeout = 30");
      CeScrub; CePrepare SqlJob; CePrepare SqlSvr; CePrepare SqlQue; CePrepare SqlResv;
      CePrepare SqlNode; CePrepare SqlSched] ++ tr2) /\
  (rc = 0 <-> PBS_DB_SUCCESS = PBS_DB_SUCCESS).
Proof.
  apply (pbs_db_connect_disconnect_balance (PM := demo_prepare None)
           (demo_connect_env (Some demo_conn)) None 15007 30 None
           PBS_DB_SUCCESS (Some demo_conn) None).
  vm_compute. reflexivity.
Defined.

(** ** More on the connect string *)

Section ConnectStringFacts.

(** X11: the bytes allocated for the descriptor count the password and
    not its escaped form.  With account, password and allocations in
    order and no host, the builder returns the descriptor when the
    escape bytes added to the password and the digits of port and
    timeout come to 41 bytes at most, and writes past the allocation
    otherwise. *)
Theorem get_db_connect_string_room (env : conn_env) (timeout : Z)
    (err_code : db_failcode) (usr passwd : list ascii) :
  pbs_get_dataservice_usr env = Some usr ->
  get_dataservice_password env usr = Some passwd ->
  malloc_fails env 0%nat = false -> malloc_fails env 1%nat = false ->
  no_nul passwd ->
  get_db_connect_string env None timeout err_code
  = if strlen (escaped_text passwd) - strlen passwd
         + strlen (print_int (pbs_data_service_port env))
         + strlen (print_int timeout) <=? 41
    then Ok (Some (conninfo_local (pbs_data_service_port env)
                     (PBS_DATA_SERVICE_STORE_NAME env) usr (escaped_text passwd) timeout),
             err_code)
    else Undefined.
Proof.
  intros Husr Hpw Hm0 Hm1 Hnn.
  assert (exists buf, malloc env 0 (strlen passwd * 2 + 1) = Some buf) as [buf Hbuf].
  { unfold malloc. rewrite Hm0. eexists. reflexivity. }
  assert (0 <= strlen passwd * 2 + 1) as Hsz by (unfold strlen; lia).
  pose proof (malloc_length env 0 _ buf Hsz Hbuf) as Hlen.
  destruct (escape_passwd_writes buf passwd (strlen passwd * 2 + 1) Hnn)
    as (pquoted & Hesc & _ & Hcs); [unfold strlen; lia | lia |].
  unfold get_db_connect_string. rewrite Husr, Hpw, Hbuf, Hesc.
  unfold malloc at 1. rewrite Hm1.
  unfold sprintf. rewrite format_template2, Hcs.
  fold (strlen (conninfo_local (pbs_data_service_port env)
                  (PBS_DATA_SERVICE_STORE_NAME env) usr (escaped_text passwd) timeout)).
  rewrite strlen_conninfo_local, template_size.
  match goal with |- context [if ?b then _ else _] => destruct b eqn:E1 end;
    match goal with |- context [if ?b then _ else _] => destruct b eqn:E2 end;
    try reflexivity; exfalso;
    [apply Z.leb_le in E1; apply Z.leb_gt in E2 | apply Z.leb_gt in E1; apply Z.leb_le in E2];
    lia.
Qed.

Lemma htonl_value (h : Z) :
  let '(b1, b2, b3, b4) := htonl h in
  b1 * 2 ^ 24 + b2 * 2 ^ 16 + b3 * 2 ^ 8 + b4 = h mod 2 ^ 32.
Proof.
  unfold htonl. change 255 with (Z.ones 8).
  rewrite !Z.land_ones, !Z.shiftr_div_pow2 by lia.
  change (2 ^ 8) with 256. change (2 ^ 16) with 65536.
  change (2 ^ 24) with 16777216. change (2 ^ 32) with 4294967296.
  Z.div_mod_to_equations. lia.
Qed.

(** X12: for every address [get_hostaddr] can give, the text put in the
    hostaddr field is a numeric IPv4 literal that [strncpy] with
    IPV4_STR_LEN does not cut, and its four numbers are the bytes of the
    address, most significant first. *)
Theorem hostaddr_literal (h : Z) :
  exists q b1 b2 b3 b4,
    inet_ntoa (htonl h) = Some q /\
    strncpy q IPV4_STR_LEN = q /\
    read_ipv4 q = Some (b1, b2, b3, b4) /\
    b1 * 2 ^ 24 + b2 * 2 ^ 16 + b3 * 2 ^ 8 + b4 = h mod 2 ^ 32.
Proof.
  pose proof (htonl_value h) as Hv.
  destruct (htonl h) as [[[b1 b2] b3] b4] eqn:Hb.
  assert (0 <= b1 <= 255 /\ 0 <= b2 <= 255 /\ 0 <= b3 <= 255 /\ 0 <= b4 <= 255)
    as (H1 & H2 & H3 & H4).
  { injection Hb as <- <- <- <-. repeat split; apply octet_range. }
  destruct (inet_ntoa_literal b1 b2 b3 b4 H1 H2 H3 H4) as (q & Hq & Hql & _ & Hqr).
  exists q, b1, b2, b3, b4. split; [exact Hq|]. split; [|split; [exact Hqr | exact Hv]].
  unfold strncpy. apply take_ge. unfold strlen, IPV4_STR_LEN in *. lia.
Qed.

(** The loop of [escape_passwd] checks the room before a byte of the
    source and not before what it writes for it. *)
Lemma escape_loop_bounded (src : list ascii) :
  forall (pre rest : list ascii) (len : Z),
    Z.of_nat (length pre) <= len + 1 ->
    len + 2 <= Z.of_nat (length pre) + Z.of_nat (length rest) ->
    exists e,
      escape_loop src (pre ++ rest) (Z.of_nat (length pre)) len
      = Some (pre ++ e ++ NUL :: drop (S (length e)) rest) /\
      e `prefix_of` escaped_text (c_string src) /\
      Z.of_nat (length pre) + Z.of_nat (length e) <= len + 1.
Proof.
  induction src as [|c src IH]; intros pre rest len Hp Hroom.
  - destruct rest as [|r rest]; [simpl in Hroom; lia|].
    exists []. cbn [escape_loop]. rewrite store_at_app.
    split; [reflexivity|]. split; [apply prefix_nil | simpl; lia].
  - cbn [escape_loop c_string].
    destruct (Ascii.eqb c NUL) eqn:E.
    { destruct rest as [|r rest]; [simpl in Hroom; lia|].
      exists []. rewrite store_at_app.
      split; [reflexivity|]. split; [apply prefix_nil | simpl; lia]. }
    destruct (Z.of_nat (length pre) <? len) eqn:El.
    2:{ destruct rest as [|r rest]; [simpl in Hroom; lia|].
        exists []. rewrite store_at_app.
        split; [reflexivity|]. split; [apply prefix_nil | simpl; lia]. }
    apply Z.ltb_lt in El. cbn [escaped_text].
    destruct (needs_escape c).
    + destruct rest as [|r1 [|r2 rest]]; [simpl in Hroom; lia ..|].
      rewrite store_at_app. cbn [mbind option_bind].
      replace (pre ++ "\"%char :: r2 :: rest) with ((pre ++ ["\"%char]) ++ r2 :: rest)
        by (rewrite <- app_assoc; reflexivity).
      replace (Z.of_nat (length pre) + 1) with (Z.of_nat (length (pre ++ ["\"%char])))
        by (rewrite length_app; simpl; lia).
      rewrite store_at_app. cbn [mbind option_bind].
      replace ((pre ++ ["\"%char]) ++ c :: rest) with ((pre ++ ["\"%char; c]) ++ rest)
        by (rewrite <- !app_assoc; reflexivity).
      replace (Z.of_nat (length (pre ++ ["\"%char])) + 1)
        with (Z.of_nat (length (pre ++ ["\"%char; c])))
        by (rewrite !length_app; simpl; lia).
      destruct (IH (pre ++ ["\"%char; c]) rest len) as (e & He & Hpre & Hle);
        [rewrite length_app; simpl; lia | rewrite length_app; simpl in *; lia |].
      exists ("\"%char :: c :: e). rewrite He.
      split; [rewrite <- !app_assoc; reflexivity|].
      split; [apply prefix_cons, prefix_cons; exact Hpre|].
      rewrite length_app in Hle. simpl in *. lia.
    + destruct rest as [|r1 rest]; [simpl in Hroom; lia|].
      rewrite store_at_app. cbn [mbind option_bind].
      replace (pre ++ c :: rest) with ((pre ++ [c]) ++ rest)
        by (rewrite <- app_assoc; reflexivity).
      replace (Z.of_nat (length pre) + 1) with (Z.of_nat (length (pre ++ [c])))
        by (rewrite length_app; simpl; lia).
      destruct (IH (pre ++ [c]) rest len) as (e & He & Hpre & Hle);
        [rewrite length_app; simpl; lia | rewrite length_app; simpl in *; lia |].
      exists (c :: e). rewrite He.
      split; [rewrite <- !app_assoc; reflexivity|].
      split; [apply prefix_cons; exact Hpre|].
      rewrite length_app in Hle. simpl in *. lia.
Qed.

Lemma c_string_no_nul (s : list ascii) : no_nul (c_string s).
Proof.
  induction s as [|c s IH]; simpl; [constructor|].
  destruct (Ascii.eqb c NUL) eqn:E; [constructor|].
  constructor; [|exact IH]. intros ->. discriminate.
Qed.

Lemma no_nul_prefix (e s : list ascii) : e `prefix_of` s -> no_nul s -> no_nul e.
Proof. intros [t ->] H. apply Forall_app in H. tauto. Qed.

(** X13: whatever the source and the [len] it is given, [escape_passwd]
    writes at most [len + 2] bytes: in a buffer of that size no write is
    out of bounds, and the text left is the start of the escaped source,
    [len + 1] bytes of it at most.  The claimed length alone is not
    enough: with [len] 1 and a source that is one single quote three
    bytes are written. *)
Theorem escape_passwd_bound (dest src : list ascii) (len : Z) :
  0 <= len -> len + 2 <= Z.of_nat (length dest) ->
  (exists dest',
     escape_passwd dest src len = Some dest' /\
     c_string dest' `prefix_of` escaped_text (c_string src) /\
     Z.of_nat (length (c_string dest')) <= len + 1) /\
  escape_passwd [NUL; NUL] (cstr "'") 1 = None.
Proof.
  intros Hlen Hroom. split; [|reflexivity].
  destruct (escape_loop_bounded src [] dest len) as (e & He & Hpre & Hle);
    [simpl; lia | simpl; lia |].
  unfold escape_passwd. change ([] ++ dest) with dest in He.
  change (Z.of_nat (length [])) with 0 in *. rewrite He.
  eexists. split; [reflexivity|].
  assert (c_string ([] ++ e ++ NUL :: drop (S (length e)) dest) = e) as ->.
  { simpl. apply c_string_app_nul.
    eapply no_nul_prefix; [exact Hpre|].
    apply escaped_text_no_nul, c_string_no_nul. }
  split; [exact Hpre | lia].
Qed.

End ConnectStringFacts.

Lemma get_db_connect_string_room_witness :
  get_db_connect_string (demo_env (cstr "pbsdata")) None 30 PBS_DB_SUCCESS
  = if strlen (escaped_text (cstr "s3'cr\t")) - strlen (cstr "s3'cr\t")
         + strlen (print_int 15007) + strlen (print_int 30) <=? 41
    then Ok (Some (conninfo_local 15007 (cstr "pbs_datastore") (cstr "pbsdata")
                     (escaped_text (cstr "s3'cr\t")) 30), PBS_DB_SUCCESS)
    else Undefined.
Proof.
  apply (get_db_connect_string_room (demo_env (cstr "pbsdata")) 30 PBS_DB_SUCCESS
           (cstr "pbsdata") (cstr "s3'cr\t")).
  - reflexivity.
  - reflexivity.
  - reflexivity.
  - reflexivity.
  - repeat constructor; discriminate.
Defined.

(** A password of forty single quotes takes the text past the bytes
    allocated for it. *)
Example get_db_connect_string_overrun :
  get_db_connect_string
    {| pbs_get_dataservice_usr := Some (cstr "pbsdata");
       db_password_file := PwdFile 16 16 [];
       pbs_decrypt_pwd := fun _ _ => Some (replicate 40 "'"%char);
       get_hostaddr := fun _ => 0;
       pbs_data_service_port := 15007;
       PBS_DATA_SERVICE_STORE_NAME := cstr "pbs_datastore";
       malloc_fails := fun _ => false;
       heap_garbage := [] |} None 30 PBS_DB_SUCCESS
  = Undefined.
Proof. vm_compute. reflexivity. Qed.

Lemma escape_passwd_bound_witness :
  (exists dest',
     escape_passwd (replicate 4 "x"%char) (cstr "a'b\") 2 = Some dest' /\
     c_string dest' `prefix_of` escaped_text (c_string (cstr "a'b\")) /\
     Z.of_nat (length (c_string dest')) <= 2 + 1) /\
  escape_passwd [NUL; NUL] (cstr "'") 1 = None.
Proof.
  apply (escape_passwd_bound (replicate 4 "x"%char) (cstr "a'b\") 2).
  - lia.
  - simpl. lia.
Defined.

(** ** Messages for error codes *)

(** X14: [pbs_db_get_errmsg] leaves a NULL message exactly when memory
    has run out or the code is PBS_DB_ERR with nothing cached; for
    PBS_DB_ERR the message is a copy of the cache and for every other
    code it does not depend on the cache; the six named failure codes
    other than PBS_DB_ERR get six different texts, none of them the text
    given for PBS_DB_SUCCESS and for unknown codes. *)
Theorem pbs_db_get_errmsg_table (oom : bool) (code : option db_failcode)
    (cache cache2 : option (list ascii)) :
  (pbs_db_get_errmsg oom code cache = None <->
   oom = true \/ (code = Some PBS_DB_ERR /\ cache = None)) /\
  (code <> Some PBS_DB_ERR ->
   pbs_db_get_errmsg oom code cache = pbs_db_get_errmsg oom code cache2) /\
  (pbs_db_get_errmsg false (Some PBS_DB_ERR) cache = cache) /\
  (forall c1 c2,
     c1 <> PBS_DB_ERR -> c2 <> PBS_DB_ERR ->
     pbs_db_get_errmsg false (Some c1) cache = pbs_db_get_errmsg false (Some c2) cache ->
     c1 = c2) /\
  (forall c1, c1 <> PBS_DB_ERR -> c1 <> PBS_DB_SUCCESS ->
     pbs_db_get_errmsg false (Some c1) cache <> pbs_db_get_errmsg false None cache).
Proof.
  split; [|split; [|split; [|split]]].
  - destruct oom, cache, code as [[| | | | | | |]|]; simpl; split;
      try discriminate; auto; intros [H|[H1 H2]]; discriminate.
  - destruct code as [[| | | | | | |]|]; simpl; intros H; try reflexivity.
    contradiction.
  - destruct cache; reflexivity.
  - intros c1 c2 H1 H2. destruct c1, c2; try contradiction; simpl; intros H;
      try reflexivity; exfalso; vm_compute in H; discriminate.
  - intros c1 H1 H2. destruct c1; try contradiction; simpl; intros H;
      vm_compute in H; discriminate.
Qed.

(** ** Byte order *)

Section ByteOrderFacts.

Lemma testbit_255 (k : Z) : Z.testbit 255 k = (0 <=? k) && (k <? 8).
Proof. change 255 with (Z.ones 8). apply Z.testbit_ones. lia. Qed.

Lemma testbit_mask32 (k : Z) : Z.testbit 4294967295 k = (0 <=? k) && (k <? 32).
Proof. change 4294967295 with (Z.ones 32). apply Z.testbit_ones. lia. Qed.

Ltac decide_comparisons :=
  repeat match goal with
         | |- context [?a <=? ?b] => destruct (Z.leb_spec a b); try lia
         | |- context [?a <? ?b] => destruct (Z.ltb_spec a b); try lia
         end.

Lemma byte_at_bits (v s t m : Z) :
  0 <= s -> 0 <= t -> 0 <= m ->
  Z.testbit (Z.shiftl (Z.land (Z.shiftr v s) 255) t) m
  = (t <=? m) && (m <? t + 8) && Z.testbit v (m - t + s).
Proof.
  intros Hs Ht Hm. rewrite Z.shiftl_spec by lia.
  destruct (Z.leb_spec t m).
  - rewrite Z.land_spec, Z.shiftr_spec, testbit_255 by lia.
    decide_comparisons; simpl; rewrite ?andb_false_r, ?andb_true_r; reflexivity.
  - rewrite Z.testbit_neg_r by lia. reflexivity.
Qed.

Lemma bswap32_bits (v m : Z) :
  0 <= m ->
  Z.testbit (bswap32 v) m
  = (24 <=? m) && (m <? 32) && Z.testbit v (m - 24)
    || (16 <=? m) && (m <? 24) && Z.testbit v (m - 8)
    || (8 <=? m) && (m <? 16) && Z.testbit v (m + 8)
    || (m <? 8) && Z.testbit v (m + 24).
Proof.
  intros Hm. unfold bswap32.
  rewrite <- (Z.shiftr_0_r v) at 1.
  rewrite <- (Z.shiftl_0_r (Z.land (Z.shiftr v 24) 255)).
  rewrite !Z.lor_spec, !byte_at_bits by lia.
  change (24 + 8) with 32. change (16 + 8) with 24. change (8 + 8) with 16.
  change (0 + 8) with 8.
  replace (m - 24 + 0) with (m - 24) by lia.
  replace (m - 16 + 8) with (m - 8) by lia.
  replace (m - 8 + 16) with (m + 8) by lia.
  replace (m - 0 + 24) with (m + 24) by lia.
  assert ((0 <=? m) = true) as -> by (apply Z.leb_le; lia).
  rewrite !orb_assoc. reflexivity.
Qed.

(** On a little-endian host the bit [j] of the byte [k] of the result is
    the bit [j] of the byte [7 - k] of the argument. *)
Lemma db_ntohll_bits (x k j : Z) :
  0 <= k < 8 -> 0 <= j < 8 ->
  Z.testbit (db_ntohll false x) (8 * k + j) = Z.testbit x (8 * (7 - k) + j).
Proof.
  intros Hk Hj. unfold db_ntohll.
  change (ntohl false 1 =? 1) with false. cbv iota. unfold ntohl.
  rewrite Z.lor_spec, Z.shiftl_spec by lia.
  assert (k = 0 \/ k = 1 \/ k = 2 \/ k = 3 \/ k = 4 \/ k = 5 \/ k = 6 \/ k = 7)
    as Hcases by lia.
  destruct (Z.leb_spec 32 (8 * k + j)).
  - rewrite bswap32_bits by lia. rewrite bswap32_bits by lia.
    decide_comparisons; simpl;
      rewrite ?Z.land_spec, ?Z.shiftr_spec, ?testbit_mask32 by lia;
      decide_comparisons; simpl;
      rewrite ?andb_true_r, ?andb_false_r, ?orb_false_r; simpl;
      try (f_equal; lia).
  - rewrite (Z.testbit_neg_r _ (8 * k + j - 32)) by lia.
    rewrite bswap32_bits by lia.
    decide_comparisons; simpl;
      rewrite ?Z.land_spec, ?Z.shiftr_spec, ?testbit_mask32 by lia;
      decide_comparisons; simpl;
      rewrite ?andb_true_r, ?andb_false_r, ?orb_false_r; simpl;
      try (f_equal; lia).
Qed.

Lemma db_ntohll_high_bits (x n : Z) :
  64 <= n -> Z.testbit (db_ntohll false x) n = false.
Proof.
  intros Hn. unfold db_ntohll.
  change (ntohl false 1 =? 1) with false. cbv iota. unfold ntohl.
  rewrite Z.lor_spec, Z.shiftl_spec by lia.
  rewrite !bswap32_bits by lia.
  decide_comparisons; reflexivity.
Qed.

Lemma bswap32_nonneg (v : Z) : 0 <= bswap32 v.
Proof.
  unfold bswap32.
  rewrite !Z.lor_nonneg, !Z.shiftl_nonneg, !Z.land_nonneg.
  repeat split; right; lia.
Qed.

Lemma db_ntohll_nonneg (x : Z) : 0 <= db_ntohll false x.
Proof.
  unfold db_ntohll. change (ntohl false 1 =? 1) with false. cbv iota.
  unfold ntohl. rewrite Z.lor_nonneg, Z.shiftl_nonneg.
  split; apply bswap32_nonneg.
Qed.

Lemma high_bits_clear (x n : Z) : 0 <= x < 2 ^ 64 -> 64 <= n -> Z.testbit x n = false.
Proof.
  intros Hx Hn. rewrite <- (Z.mod_small x (2 ^ 64)) by lia.
  apply Z.mod_pow2_bits_high. lia.
Qed.

Lemma below_2_64 (y : Z) :
  0 <= y -> (forall n, 64 <= n -> Z.testbit y n = false) -> y < 2 ^ 64.
Proof.
  intros Hy Hb.
  assert (y = y mod 2 ^ 64) as ->.
  { apply Z.bits_inj'. intros n Hn.
    destruct (Z.ltb_spec n 64).
    - rewrite Z.mod_pow2_bits_low by lia. reflexivity.
    - rewrite Z.mod_pow2_bits_high by lia. apply Hb. lia. }
  apply Z.mod_pos_bound. lia.
Qed.

Lemma split_bit_index (n : Z) :
  0 <= n < 64 -> exists k j, n = 8 * k + j /\ 0 <= k < 8 /\ 0 <= j < 8.
Proof.
  intros Hn. exists (n / 8), (n mod 8).
  pose proof (Z.div_mod n 8). pose proof (Z.mod_pos_bound n 8).
  assert (0 <= n / 8 < 8)
    by (split; [apply Z.div_pos; lia | apply Z.div_lt_upper_bound; lia]).
  lia.
Qed.

(** X15: on a little-endian host [db_ntohll] turns the eight bytes of a
    64-bit value around, stays within 64 bits and undoes itself; on a
    big-endian host it returns its argument. *)
Theorem db_ntohll_reverses_bytes (x : Z) :
  0 <= x < 2 ^ 64 ->
  db_ntohll true x = x /\
  0 <= db_ntohll false x < 2 ^ 64 /\
  (forall i, 0 <= i < 8 -> byte_of (db_ntohll false x) i = byte_of x (7 - i)) /\
  db_ntohll false (db_ntohll false x) = x.
Proof.
  intros Hx. split; [reflexivity|].
  assert (0 <= db_ntohll false x < 2 ^ 64) as Hr.
  { split; [apply db_ntohll_nonneg|].
    apply below_2_64; [apply db_ntohll_nonneg|].
    intros n Hn. apply db_ntohll_high_bits. exact Hn. }
  split; [exact Hr|]. split.
  - intros i Hi. unfold byte_of. apply Z.bits_inj'. intros n Hn.
    rewrite !Z.land_spec, !Z.shiftr_spec, testbit_255 by lia.
    destruct (Z.ltb_spec n 8).
    + replace (n + 8 * i) with (8 * i + n) by lia.
      rewrite db_ntohll_bits by lia.
      replace (n + 8 * (7 - i)) with (8 * (7 - i) + n) by lia. reflexivity.
    + rewrite !andb_false_r. reflexivity.
  - apply Z.bits_inj'. intros n Hn.
    destruct (Z.ltb_spec n 64).
    + destruct (split_bit_index n) as (k & j & -> & Hk & Hj); [lia|].
      rewrite db_ntohll_bits by lia.
      rewrite db_ntohll_bits by lia.
      f_equal. lia.
    + rewrite db_ntohll_high_bits by lia.
      symmetry. apply high_bits_clear; [exact Hx | lia].
Qed.

End ByteOrderFacts.

Lemma db_ntohll_reverses_bytes_witness :
  db_ntohll true 72623859790382856 = 72623859790382856 /\
  0 <= db_ntohll false 72623859790382856 < 2 ^ 64 /\
  (forall i, 0 <= i < 8 ->
     byte_of (db_ntohll false 72623859790382856) i = byte_of 72623859790382856 (7 - i)) /\
  db_ntohll false (db_ntohll false 72623859790382856) = 72623859790382856.
Proof.
  apply (db_ntohll_reverses_bytes 72623859790382856). lia.
Defined.

Example db_ntohll_run :
  db_ntohll false 72623859790382856 = 578437695752307201.
Proof. reflexivity. Qed.

(** ** More on the migration *)

Section MigrationBounds.

Context {DataStore NodeData : Type}.
Variable pbs_db_get_schema_version :
  server_state DataStore NodeData -> Z * Z * Z * option (list ascii).
Variable pbsd_init :
  Z -> server_state DataStore NodeData -> Z * server_state DataStore NodeData.
Variable save_nodes_db :
  server_state DataStore NodeData -> Z * server_state DataStore NodeData.
Variable RECOV_WARM : Z.
Variable NODE_UPDATE_OTHERS : Z.

Local Abbreviation migrate :=
  (svr_migrate_data pbs_db_get_schema_version pbsd_init save_nodes_db
                    RECOV_WARM NODE_UPDATE_OTHERS).
Local Abbreviation mark := (mark_for_update NODE_UPDATE_OTHERS).

(** A count below the length of the array marks the nodes in front and
    leaves the rest. *)
Lemma mark_nodes_front (n : nat) :
  forall (l1 l2 : list (pbsnode NodeData)),
    (n <= length l2)%nat ->
    mark_nodes NODE_UPDATE_OTHERS n (length l1) (l1 ++ l2)
    = Some (l1 ++ map mark (take n l2) ++ drop n l2).
Proof.
  induction n as [|n IH]; intros l1 l2 Hn; [reflexivity|].
  destruct l2 as [|nd l2]; [simpl in Hn; lia|].
  cbn [length mark_nodes]. rewrite list_lookup_middle by reflexivity.
  cbn [mbind option_bind].
  rewrite insert_app_r_alt by lia. rewrite Nat.sub_diag. cbn [insert list_insert].
  replace (l1 ++ mark nd :: l2) with ((l1 ++ [mark nd]) ++ l2)
    by (rewrite <- app_assoc; reflexivity).
  replace (S (length l1)) with (length (l1 ++ [mark nd]))
    by (rewrite length_app; simpl; lia).
  rewrite IH by (simpl in Hn; lia). rewrite <- app_assoc. reflexivity.
Qed.

(** A count that runs past the end of the array reads outside it. *)
Lemma mark_nodes_past (n : nat) :
  forall (i : nat) (l : list (pbsnode NodeData)),
    (i <= length l)%nat -> (length l < i + n)%nat ->
    mark_nodes NODE_UPDATE_OTHERS n i l = None.
Proof.
  induction n as [|n IH]; intros i l Hi Hn; [lia|].
  cbn [mark_nodes]. destruct (l !! i) as [nd|] eqn:E; [|reflexivity].
  cbn [mbind option_bind].
  apply lookup_lt_Some in E.
  apply IH; rewrite length_insert; lia.
Qed.

(** X16: in the upgrade from version 1.0 the loop marks the first
    [svr_totnodes] nodes and no other: with a count within the array the
    nodes behind it are saved as they were (none is marked for a count of
    zero or less), and a count above the length of the array makes the
    loop read past its end. *)
Theorem svr_migrate_data_node_count (s s1 : server_state DataStore NodeData)
    (e : option (list ascii)) :
  pbs_db_get_schema_version s = (0, 1, 0, e) ->
  pbsd_init RECOV_WARM (set_db_err e s) = (0, s1) ->
  (svr_totnodes s1 <= Z.of_nat (length (pbsndlist s1)) ->
   migrate s =
   let n := Z.to_nat (svr_totnodes s1) in
   let '(rc2, s2) :=
     save_nodes_db (set_nodes (map mark (take n (pbsndlist s1)) ++ drop n (pbsndlist s1)) s1) in
   if rc2 =? 0 then Ok (0, s2)
   else Ok (-1, log_err (cstr "save_nodes_db failed!") s2)) /\
  (svr_totnodes s1 <= 0 ->
   mark_nodes NODE_UPDATE_OTHERS (Z.to_nat (svr_totnodes s1)) 0 (pbsndlist s1)
   = Some (pbsndlist s1)) /\
  (Z.of_nat (length (pbsndlist s1)) < svr_totnodes s1 -> migrate s = Undefined).
Proof.
  intros Hv Hinit. unfold svr_migrate_data. rewrite Hv. cbn [Z.eqb negb andb].
  rewrite Hinit. cbn [Z.eqb negb].
  split; [|split].
  - intros Hle.
    pose proof (mark_nodes_front (Z.to_nat (svr_totnodes s1)) [] (pbsndlist s1)) as Hm.
    cbn [app length] in Hm. rewrite Hm by lia.
    destruct (save_nodes_db _) as [rc2 s2]. destruct (rc2 =? 0); reflexivity.
  - intros Hle. replace (Z.to_nat (svr_totnodes s1)) with O by lia. reflexivity.
  - intros Hlt. rewrite mark_nodes_past; [reflexivity | lia | lia].
Qed.

(** X17: the migration returns 0 or -1, and 0 only for the version 3.0,
    the server being as the query of the version left it, or for the
    version 1.0 with both the warm recovery and the saving of the nodes
    returning 0, the server being the one the saving left.  When the
    version cannot be read the result is -1, and the log and stderr get
    the failure and then the error the failed query left in the
    connection, if it left one: the error cached before the call plays
    no part. *)
Theorem svr_migrate_data_results (s s' : server_state DataStore NodeData) (r : Z) :
  migrate s = Ok (r, s') ->
  (r = 0 \/ r = -1) /\
  (r = 0 ->
   (exists e, pbs_db_get_schema_version s = (0, 3, 0, e) /\ s' = set_db_err e s) \/
   (exists e s1 l,
      pbs_db_get_schema_version s = (0, 1, 0, e) /\
      pbsd_init RECOV_WARM (set_db_err e s) = (0, s1) /\
      mark_nodes NODE_UPDATE_OTHERS (Z.to_nat (svr_totnodes s1)) 0 (pbsndlist s1) = Some l /\
      save_nodes_db (set_nodes l s1) = (0, s'))) /\
  (forall rc maj min e,
     pbs_db_get_schema_version s = (rc, maj, min, e) -> rc <> 0 ->
     r = -1 /\ conn_db_err s' = e /\
     log_lines s' = log_lines s ++ cstr "Failed to get PBS datastore version"
                      :: match e with Some m => [m] | None => [] end /\
     stderr_lines s' = stderr_lines s ++ cstr "Failed to get the PBS datastore version"
                         :: match e with
                            | Some m => [cstr "[" ++ m ++ cstr "]"]
                            | None => []
                            end).
Proof.
  unfold svr_migrate_data.
  destruct (pbs_db_get_schema_version s) as [[[rc maj] min] e] eqn:Hv.
  cbv zeta.
  destruct (Z.eqb_spec rc 0) as [->|Hrc]; cbn [negb].
  - assert (forall rc' maj' min' e',
              (0, maj, min, e) = (rc', maj', min', e') -> rc' <> 0 -> False) as Hno
      by (intros ? ? ? ? [= <- _ _ _] Hn; contradiction).
    destruct (Z.eqb_spec maj 1) as [->|Hm1]; cbn [andb].
    + destruct (Z.eqb_spec min 0) as [->|Hn0].
      * destruct (pbsd_init RECOV_WARM (set_db_err e s)) as [rc1 s1] eqn:Hinit.
        destruct (Z.eqb_spec rc1 0) as [->|Hrc1]; cbn [negb].
        -- destruct (mark_nodes _ _ _ _) as [l|] eqn:Hmark; [|discriminate].
           destruct (save_nodes_db _) as [rc2 s2] eqn:Hsave.
           destruct (Z.eqb_spec rc2 0) as [->|Hrc2]; cbn [negb];
             intros H; assert (r = 0 \/ r = -1) as Hr by (inversion H; auto);
             (split; [exact Hr|]);
             (split; [|intros; exfalso; eapply Hno; eauto]).
           ++ intros _. right. exists e, s1, l. inversion H; subst. auto.
           ++ intros ->. inversion H.
        -- intros H. inversion H; subst.
           split; [auto|]. split; [discriminate | intros; exfalso; eapply Hno; eauto].
      * cbn [Z.eqb andb]. intros H. inversion H; subst.
        split; [auto|]. split; [discriminate | intros; exfalso; eapply Hno; eauto].
    + destruct (Z.eqb_spec maj 3) as [->|Hm3]; cbn [andb].
      * destruct (Z.eqb_spec min 0) as [->|Hn0].
        -- intros H. inversion H; subst.
           split; [auto|].
           split; [intros _; left; exists e; auto | intros; exfalso; eapply Hno; eauto].
        -- intros H. inversion H; subst.
           split; [auto|]. split; [discriminate | intros; exfalso; eapply Hno; eauto].
      * intros H. inversion H; subst.
        split; [auto|]. split; [discriminate | intros; exfalso; eapply Hno; eauto].
  - cbn [conn_db_err set_db_err].
    destruct e as [m|]; intros H; inversion H; subst;
      (split; [auto|]); (split; [discriminate|]);
      intros rc' maj' min' e' [= <- _ _ <-] _;
      cbn; rewrite <- ?app_assoc; auto.
Qed.

End MigrationBounds.

Lemma svr_migrate_data_node_count_witness :
  svr_migrate_data (demo_version 1 0) (demo_pbsd_init 0) (demo_save_nodes 0) 2 1
                   (demo_server 1)
  = Ok (0, {| pbsndlist := [ {| nd_data := tt; nd_modified := 1 |};
                             {| nd_data := tt; nd_modified := 0 |} ];
              svr_totnodes := 1; datastore := 1; conn_db_err := None;
              log_lines := []; stderr_lines := [] |}) /\
  svr_migrate_data (demo_version 1 0) (demo_pbsd_init 0) (demo_save_nodes 0) 2 1
                   (demo_server 3)
  = Undefined.
Proof.
  split.
  - destruct (svr_migrate_data_node_count (demo_version 1 0) (demo_pbsd_init 0)
                (demo_save_nodes 0) 2 1 (demo_server 1) (demo_server 1) None
                eq_refl eq_refl) as (H & _).
    rewrite H by (simpl; lia). reflexivity.
  - destruct (svr_migrate_data_node_count (demo_version 1 0) (demo_pbsd_init 0)
                (demo_save_nodes 0) 2 1 (demo_server 3) (demo_server 3) None
                eq_refl eq_refl) as (_ & _ & H).
    apply H. simpl. lia.
Defined.

Lemma svr_migrate_data_results_witness :
  exists s',
    svr_migrate_data demo_version_fails (demo_pbsd_init 0) (demo_save_nodes 0) 2 1
                     demo_server_err = Ok (-1, s') /\
    conn_db_err s' = Some (cstr "no such table") /\
    log_lines s' = [cstr "Failed to get PBS datastore version"; cstr "no such table"] /\
    stderr_lines s' = [cstr "Failed to get the PBS datastore version";
                       cstr "[no such table]"].
Proof.
  eexists. split; [reflexivity|].
  destruct (svr_migrate_data_results demo_version_fails (demo_pbsd_init 0)
              (demo_save_nodes 0) 2 1 demo_server_err _ (-1) eq_refl) as (_ & _ & H).
  destruct (H (-1) 0 0 (Some (cstr "no such table")) eq_refl ltac:(lia))
    as (_ & He & Hl & Hs).
  split; [exact He|]. split; [exact Hl | exact Hs].
Defined.

(** ** Changing the password *)

Section PasswordFacts.

Context {Backend : Type}.
Variable PQexec : Backend -> PGconn -> list ascii -> PGresult * Backend.
Variable PQescapeStringConn : PGconn -> list ascii -> list ascii * Z.

Local Abbreviation password := (pbs_db_password PQexec PQescapeStringConn).
Local Abbreviation escape := (db_escape_str PQescapeStringConn).

Lemma streq_spec (a b : list ascii) : streq a b = true <-> a = b.
Proof.
  revert b. induction a as [|x a IH]; intros [|y b]; simpl; split;
    try discriminate; try reflexivity.
  - intros H. apply andb_true_iff in H as [Hx Hs].
    apply Ascii.eqb_eq in Hx. apply IH in Hs. congruence.
  - intros [= -> ->]. rewrite Ascii.eqb_refl. simpl. apply IH. reflexivity.
Qed.

Lemma format_select (u : list ascii) :
  format sql_select_user [ArgS u]
  = Some (cstr "select usename from pg_user where usename = '" ++ u ++ cstr "'").
Proof. cbn. reflexivity. Qed.

Lemma format_create (u p : list ascii) :
  format sql_create_user [ArgS u; ArgS p]
  = Some (cstr "create user " ++ [dquote] ++ u ++ [dquote]
            ++ cstr " SUPERUSER ENCRYPTED PASSWORD '" ++ p ++ cstr "'").
Proof. cbn. reflexivity. Qed.

Lemma format_alter (u p : list ascii) :
  format sql_alter_user [ArgS u; ArgS p]
  = Some (cstr "alter user " ++ [dquote] ++ u ++ [dquote]
            ++ cstr " SUPERUSER ENCRYPTED PASSWORD '" ++ p ++ cstr "'").
Proof. cbn. reflexivity. Qed.

Lemma format_drop (u : list ascii) :
  format sql_drop_user [ArgS u] = Some (drop_user u).
Proof. cbn. reflexivity. Qed.

Lemma exec_str_rejected (b : Backend) (conn : PGconn) (sql : list ascii)
    (cache : option (list ascii)) :
  ((exec_str PQexec b conn sql cache).1.1 =? -1) = true
  <-> ~ accepted (PQexec b conn sql).1.
Proof.
  unfold exec_str.
  destruct (db_execute_str _ conn sql cache) as [rc c] eqn:Hd. cbn [fst].
  unfold db_execute_str in Hd. cbn [fst] in Hd. unfold accepted.
  destruct (PQresultStatus (PQexec b conn sql).1); cbn in Hd;
    repeat match type of Hd with
           | context [if ?x then _ else _] => destruct x
           end;
    inversion Hd; subst; cbn; split; intros H;
    try discriminate; try reflexivity;
    try (exfalso; apply H; auto; fail);
    try (intros [?|?]; discriminate).
Qed.

Lemma accepted_dec (r : PGresult) : accepted r \/ ~ accepted r.
Proof.
  unfold accepted. destruct (PQresultStatus r); auto;
    right; intros [?|?]; discriminate.
Qed.

Lemma exec_str_backend (b : Backend) (conn : PGconn) (sql : list ascii)
    (cache : option (list ascii)) :
  (exec_str PQexec b conn sql cache).2 = (PQexec b conn sql).2.
Proof.
  unfold exec_str. destruct (db_execute_str _ conn sql cache). reflexivity.
Qed.

Lemma pbs_db_password_inv (calloc_fails : bool) (b : Backend) (conn : PGconn)
    (userid : list ascii) (pw : option (list ascii)) (olduser : list ascii)
    (cache : option (list ascii)) (run : password_run Backend) :
  password calloc_fails b conn userid pw olduser cache = Ok run ->
  (escape calloc_fails conn pw = Ok None /\
   run = {| pw_rc := -1; pw_backend := b; pw_cache := cache; pw_sent := [];
            pw_stderr := [cstr "pbs_db_password: Out of memory"] |}) \/
  (exists p,
     escape calloc_fails conn pw = Ok (Some p) /\
     (((userid = [] \/ userid = olduser) /\
       exists q1,
         sprintf 1024 sql_alter_user [ArgS olduser; ArgS p] = Ok q1 /\
         pw_sent run = [q1] /\ pw_backend run = (PQexec b conn q1).2 /\
         (accepted (PQexec b conn q1).1 /\ pw_rc run = 0 \/
          ~ accepted (PQexec b conn q1).1 /\ pw_rc run = -1)) \/
      (userid <> [] /\ userid <> olduser /\
       exists q0 q1,
         snprintf 1024 sql_select_user [ArgS userid] = Ok q0 /\
         snprintf 1024
           (if (exec_str PQexec b conn q0 cache).1.1 =? 1
            then sql_create_user else sql_alter_user)
           [ArgS userid; ArgS p] = Ok q1 /\
         let b0 := (PQexec b conn q0).2 in
         let b1 := (PQexec b0 conn q1).2 in
         (~ accepted (PQexec b0 conn q1).1 /\ pw_sent run = [q0; q1] /\
          pw_rc run = -1 /\ pw_backend run = b1) \/
         (accepted (PQexec b0 conn q1).1 /\
          sprintf 1024 sql_drop_user [ArgS olduser] = Ok (drop_user olduser) /\
          pw_sent run = [q0; q1; drop_user olduser] /\
          pw_backend run = (PQexec b1 conn (drop_user olduser)).2 /\
          (accepted (PQexec b1 conn (drop_user olduser)).1 /\ pw_rc run = 0 \/
           ~ accepted (PQexec b1 conn (drop_user olduser)).1 /\ pw_rc run = -1))))).
Proof.
  unfold pbs_db_password.
  destruct (escape calloc_fails conn pw) as [[p|]| |] eqn:Hesc;
    cbn [mbind result_bind]; try discriminate.
  2:{ intros [= <-]. left. auto. }
  intros H. right. exists p. split; [reflexivity|].
  assert (match userid with [] => false | _ :: _ => negb (streq olduser userid) end = false
          -> userid = [] \/ userid = olduser) as Hsame.
  { destruct userid as [|c u]; [auto|]. intros Hn. right.
    apply negb_false_iff, streq_spec in Hn. congruence. }
  assert (match userid with [] => false | _ :: _ => negb (streq olduser userid) end = true
          -> userid <> [] /\ userid <> olduser) as Hdiff.
  { destruct userid as [|c u]; [discriminate|]. intros Hn. split; [discriminate|].
    apply negb_true_iff in Hn. intros Heq.
    assert (streq olduser (c :: u) = true) by (apply streq_spec; congruence).
    congruence. }
  destruct (match userid with [] => false | _ :: _ => negb (streq olduser userid) end).
  - right. destruct (Hdiff eq_refl) as [Hne Hne2]. split; [exact Hne|]. split; [exact Hne2|].
    clear Hsame Hdiff.
    destruct (snprintf 1024 sql_select_user [ArgS userid]) as [q0| |] eqn:Hq0;
      cbn [mbind result_bind] in H; try discriminate.
    destruct (exec_str PQexec b conn q0 cache) as [[rc0 cache0] b0] eqn:Hx0.
    cbn [fst].
    destruct (snprintf 1024 _ [ArgS userid; ArgS p]) as [q1| |] eqn:Hq1;
      cbn [mbind result_bind] in H; try discriminate.
    exists q0, q1. split; [reflexivity|].
    split; [rewrite Hx0; exact Hq1|].
    pose proof (exec_str_backend b conn q0 cache) as Hb0. rewrite Hx0 in Hb0.
    cbn [snd] in Hb0. subst b0.
    pose proof (exec_str_rejected (PQexec b conn q0).2 conn q1 cache0) as Hr1.
    pose proof (exec_str_backend (PQexec b conn q0).2 conn q1 cache0) as Hb1.
    destruct (exec_str PQexec (PQexec b conn q0).2 conn q1 cache0)
      as [[rc1 cache1] b1] eqn:Hx1.
    cbn [fst snd] in Hr1, Hb1. subst b1.
    destruct (rc1 =? -1) eqn:Hrc1.
    + left. injection H as <-. cbn. split; [apply Hr1; reflexivity | auto].
    + right.
      assert (accepted (PQexec (PQexec b conn q0).2 conn q1).1) as Hacc.
      { destruct (accepted_dec (PQexec (PQexec b conn q0).2 conn q1).1) as [Ha|Hn];
          [exact Ha|]. apply Hr1 in Hn. congruence. }
      split; [exact Hacc|].
      unfold sprintf in *. rewrite format_drop in *.
      destruct (Z.of_nat (length (drop_user olduser)) + 1 <=? 1024);
        cbn [mbind result_bind] in H; try discriminate.
      split; [reflexivity|].
      set (b1 := (PQexec (PQexec b conn q0).2 conn q1).2) in *.
      pose proof (exec_str_rejected b1 conn (drop_user olduser) cache1) as Hr2.
      pose proof (exec_str_backend b1 conn (drop_user olduser) cache1) as Hb2.
      destruct (exec_str PQexec b1 conn (drop_user olduser) cache1)
        as [[rc2 cache2] b2] eqn:Hx2.
      cbn [fst snd] in Hr2, Hb2. subst b2.
      injection H as <-. cbn. split; [reflexivity|]. split; [reflexivity|].
      destruct (rc2 =? -1) eqn:Hrc2.
      * right. split; [apply Hr2; reflexivity | reflexivity].
      * left. split; [|reflexivity].
        destruct (accepted_dec (PQexec b1 conn (drop_user olduser)).1) as [Ha|Hn];
          [exact Ha|]. apply Hr2 in Hn. congruence.
  - left. split; [apply Hsame; reflexivity|]. clear Hsame Hdiff.
    destruct (sprintf 1024 sql_alter_user [ArgS olduser; ArgS p]) as [q1| |] eqn:Hq1;
      cbn [mbind result_bind] in H; try discriminate.
    exists q1. split; [reflexivity|].
    pose proof (exec_str_rejected b conn q1 cache) as Hr1.
    pose proof (exec_str_backend b conn q1 cache) as Hb1.
    destruct (exec_str PQexec b conn q1 cache) as [[rc1 cache1] b1] eqn:Hx1.
    cbn [fst snd] in Hr1, Hb1. subst b1.
    destruct (rc1 =? -1) eqn:Hrc1; injection H as <-; cbn;
      (split; [reflexivity|]); (split; [reflexivity|]).
    + right. split; [apply Hr1; reflexivity | reflexivity].
    + left. split; [|reflexivity].
      destruct (accepted_dec (PQexec b conn q1).1) as [Ha|Hn];
        [exact Ha|]. apply Hr1 in Hn. congruence.
Qed.

Lemma format_head (c : ascii) (fmt : list ascii) (args : list fmt_arg)
    (out : list ascii) :
  Ascii.eqb c "%"%char = false ->
  format (c :: fmt) args = Some out -> head out = Some c.
Proof.
  intros Hc. cbn [format]. rewrite Hc.
  destruct (format fmt args); cbn; [intros [= <-]; reflexivity | discriminate].
Qed.

Lemma snprintf_head (c : ascii) (fmt : list ascii) (args : list fmt_arg)
    (q : list ascii) :
  Ascii.eqb c "%"%char = false ->
  snprintf 1024 (c :: fmt) args = Ok q -> head q = Some c.
Proof.
  intros Hc. unfold snprintf.
  destruct (format (c :: fmt) args) as [out|] eqn:E; [|discriminate].
  apply format_head in E; [|exact Hc]. intros [= <-].
  destruct out as [|x out]; [discriminate|].
  replace (Z.to_nat (1024 - 1)) with (S (Z.to_nat 1022)) by lia. exact E.
Qed.

Lemma sprintf_head (c : ascii) (fmt : list ascii) (args : list fmt_arg)
    (q : list ascii) :
  Ascii.eqb c "%"%char = false ->
  sprintf 1024 (c :: fmt) args = Ok q -> head q = Some c.
Proof.
  intros Hc. unfold sprintf.
  destruct (format (c :: fmt) args) as [out|] eqn:E; [|discriminate].
  apply format_head in E; [|exact Hc].
  destruct (_ <=? _); [|discriminate]. intros [= <-]. exact E.
Qed.

Lemma snprintf_length (fmt : list ascii) (args : list fmt_arg) (q : list ascii) :
  snprintf 1024 fmt args = Ok q -> strlen q <= 1023.
Proof.
  unfold snprintf, strlen. destruct (format fmt args); [|discriminate].
  intros [= <-]. rewrite length_take. lia.
Qed.

Lemma sprintf_length (fmt : list ascii) (args : list fmt_arg) (q : list ascii) :
  sprintf 1024 fmt args = Ok q -> strlen q <= 1023.
Proof.
  unfold sprintf, strlen. destruct (format fmt args); [|discriminate].
  destruct (Z.leb_spec (Z.of_nat (length l) + 1) 1024); [|discriminate].
  intros [= <-]. lia.
Qed.

(** X18: a call of [pbs_db_password] that returns gives 0 or -1 and
    sends statements of at most 1023 characters; it sends nothing when
    the password cannot be escaped; and the statement that drops the old
    user is sent only for a new user id that is not empty and differs
    from the old one, as the third and last statement, after the backend
    has taken the statement that gives the new user the password. *)
Theorem pbs_db_password_drop_guard (calloc_fails : bool) (b : Backend) (conn : PGconn)
    (userid : list ascii) (pw : option (list ascii)) (olduser : list ascii)
    (cache : option (list ascii)) (run : password_run Backend) :
  password calloc_fails b conn userid pw olduser cache = Ok run ->
  (pw_rc run = 0 \/ pw_rc run = -1) /\
  Forall (fun q => strlen q <= 1023) (pw_sent run) /\
  (escape calloc_fails conn pw = Ok None ->
   pw_sent run = [] /\ pw_rc run = -1 /\ pw_backend run = b) /\
  (pw_rc run = 0 -> pw_sent run <> []) /\
  (In (drop_user olduser) (pw_sent run) ->
   userid <> [] /\ userid <> olduser /\
   exists q0 q1,
     pw_sent run = [q0; q1; drop_user olduser] /\
     accepted (PQexec (PQexec b conn q0).2 conn q1).1).
Proof.
  intros H. apply pbs_db_password_inv in H.
  destruct H as [[Hesc ->] | (p & Hesc & [(Hsame & q1 & Hq1 & Hsent & Hb & Hrc)
                                        | (Hne & Hne2 & q0 & q1 & Hq0 & Hq1 & Hrun)])].
  - cbn. split; [auto|]. split; [constructor|]. split; [auto|].
    split; [discriminate | intros []].
  - rewrite Hsent. split; [destruct Hrc as [[_ ->]|[_ ->]]; auto|].
    split; [repeat constructor; eapply sprintf_length; exact Hq1|].
    split; [rewrite Hesc; discriminate|]. split; [discriminate|].
    intros [->|[]]. apply sprintf_head in Hq1; [discriminate | reflexivity].
  - assert (head q0 = Some "s"%char) as Hh0
        by (eapply snprintf_head; [|exact Hq0]; reflexivity).
    assert (head q1 = Some "c"%char \/ head q1 = Some "a"%char) as Hh1.
    { destruct (_ =? 1) in Hq1;
        [left | right]; (eapply snprintf_head; [|exact Hq1]; reflexivity). }
    assert (q0 <> drop_user olduser) as Hd0 by (intros ->; discriminate).
    assert (q1 <> drop_user olduser) as Hd1
        by (intros ->; destruct Hh1; discriminate).
    cbv zeta in Hrun.
    destruct Hrun as [(Hrej & Hsent & Hrc & Hb) | (Hacc & Hq2 & Hsent & Hb & Hrc)];
      rewrite Hsent.
    + split; [auto|].
      split; [repeat constructor; eapply snprintf_length; eassumption|].
      split; [rewrite Hesc; discriminate|]. split; [discriminate|].
      intros [E|[E|[]]]; congruence.
    + split; [destruct Hrc as [[_ ->]|[_ ->]]; auto|].
      split; [repeat constructor;
              first [eapply snprintf_length; eassumption
                    | eapply sprintf_length; eassumption]|].
      split; [rewrite Hesc; discriminate|]. split; [discriminate|].
      intros _. split; [exact Hne|]. split; [exact Hne2|].
      exists q0, q1. split; [reflexivity | exact Hacc].
Qed.

(** X19: for an empty user id, or one that is the old user, exactly one
    statement is built, with [sprintf]: when the old user and the escaped
    password have at most 978 characters together it is sent, and the
    result is 0 if the backend takes it and -1 if not; when they have
    more, the statement is written past the end of its buffer. *)
Theorem pbs_db_password_same_user (calloc_fails : bool) (b : Backend) (conn : PGconn)
    (userid : list ascii) (pw : option (list ascii)) (olduser p : list ascii)
    (cache : option (list ascii)) :
  userid = [] \/ userid = olduser ->
  escape calloc_fails conn pw = Ok (Some p) ->
  let q := cstr "alter user " ++ [dquote] ++ olduser ++ [dquote]
             ++ cstr " SUPERUSER ENCRYPTED PASSWORD '" ++ p ++ cstr "'" in
  (strlen olduser + strlen p <= 978 ->
   exists run,
     password calloc_fails b conn userid pw olduser cache = Ok run /\
     pw_sent run = [q] /\ pw_backend run = (PQexec b conn q).2 /\
     (accepted (PQexec b conn q).1 -> pw_rc run = 0) /\
     (~ accepted (PQexec b conn q).1 -> pw_rc run = -1)) /\
  (978 < strlen olduser + strlen p ->
   password calloc_fails b conn userid pw olduser cache = Undefined).
Proof.
  intros Hsame Hesc q.
  assert (match userid with [] => false | _ :: _ => negb (streq olduser userid) end = false)
    as Hcu.
  { destruct Hsame as [->| ->]; [reflexivity|]. destruct olduser; [reflexivity|].
    apply negb_false_iff, streq_spec. reflexivity. }
  assert (Z.of_nat (length q) = strlen olduser + strlen p + 45) as Hlen.
  { subst q. unfold strlen. rewrite !length_app. cbn [length cstr list_ascii_of_string].
    lia. }
  unfold pbs_db_password. rewrite Hesc, Hcu. cbn [mbind result_bind].
  unfold sprintf. rewrite format_alter. fold q. split.
  - intros Hfit.
    destruct (Z.leb_spec (Z.of_nat (length q) + 1) 1024); [|lia].
    cbn [mbind result_bind].
    pose proof (exec_str_rejected b conn q cache) as Hr.
    pose proof (exec_str_backend b conn q cache) as Hb.
    destruct (exec_str PQexec b conn q cache) as [[rc1 cache1] b1].
    cbn [fst snd] in Hr, Hb. subst b1.
    destruct (rc1 =? -1); eexists; (split; [reflexivity|]); cbn;
      (split; [reflexivity|]); (split; [reflexivity|]); split; intros Ha;
      try reflexivity.
    + exfalso. apply Hr; [reflexivity | exact Ha].
    + apply Hr in Ha. discriminate.
  - intros Hbig.
    destruct (Z.leb_spec (Z.of_nat (length q) + 1) 1024); [lia|]. reflexivity.
Qed.

End PasswordFacts.

Lemma pbs_db_password_drop_guard_witness :
  exists run,
    pbs_db_password (demo_log_backend [] 0) demo_escape false [] demo_ok_session
      (cstr "pbsnew") (Some (cstr "it's")) (cstr "pbsdata") None = Ok run /\
    (pw_rc run = 0 \/ pw_rc run = -1) /\
    Forall (fun q => strlen q <= 1023) (pw_sent run) /\
    (db_escape_str demo_escape false demo_ok_session (Some (cstr "it's")) = Ok None ->
     pw_sent run = [] /\ pw_rc run = -1 /\ pw_backend run = []) /\
    (pw_rc run = 0 -> pw_sent run <> []) /\
    (In (drop_user (cstr "pbsdata")) (pw_sent run) ->
     cstr "pbsnew" <> [] /\ cstr "pbsnew" <> cstr "pbsdata" /\
     exists q0 q1,
       pw_sent run = [q0; q1; drop_user (cstr "pbsdata")] /\
       accepted (demo_log_backend [] 0 (demo_log_backend [] 0 [] demo_ok_session q0).2
                   demo_ok_session q1).1).
Proof.
  eexists. split; [reflexivity|].
  apply (pbs_db_password_drop_guard (demo_log_backend [] 0) demo_escape false []
           demo_ok_session (cstr "pbsnew") (Some (cstr "it's")) (cstr "pbsdata") None).
  reflexivity.
Defined.

(** The run of the witness above: the new user is looked up, created
    with the escaped password, and the old user is dropped. *)
Example pbs_db_password_run :
  (fun run =>
     match run with
     | Ok r => Some (pw_rc r, pw_sent r)
     | _ => None
     end)
    (pbs_db_password (demo_log_backend [] 0) demo_escape false [] demo_ok_session
       (cstr "pbsnew") (Some (cstr "it's")) (cstr "pbsdata") None)
  = Some (0,
          [cstr "select usename from pg_user where usename = 'pbsnew'";
           cstr "create user " ++ [dquote] ++ cstr "pbsnew" ++ [dquote]
             ++ cstr " SUPERUSER ENCRYPTED PASSWORD 'it''s'";
           drop_user (cstr "pbsdata")]).
Proof. vm_compute. reflexivity. Qed.

(** When the backend refuses to create the new user the old one is
    kept. *)
Example pbs_db_password_keeps_old_user :
  (fun run =>
     match run with
     | Ok r => Some (pw_rc r, length (pw_sent r),
                      existsb (streq (drop_user (cstr "pbsdata"))) (pw_sent r))
     | _ => None
     end)
    (pbs_db_password
       (demo_log_backend
          [cstr "create user " ++ [dquote] ++ cstr "pbsnew" ++ [dquote]
             ++ cstr " SUPERUSER ENCRYPTED PASSWORD 'pw'"] 0)
       demo_escape false [] demo_ok_session
       (cstr "pbsnew") (Some (cstr "pw")) (cstr "pbsdata") None)
  = Some (-1, 2%nat, false).
Proof. vm_compute. reflexivity. Qed.

Lemma pbs_db_password_same_user_witness :
  exists run,
    pbs_db_password (demo_log_backend [] 0) demo_escape false [] demo_ok_session
      [] (Some (cstr "secret")) (cstr "pbsdata") None = Ok run /\
    pw_sent run
    = [cstr "alter user " ++ [dquote] ++ cstr "pbsdata" ++ [dquote]
         ++ cstr " SUPERUSER ENCRYPTED PASSWORD '" ++ cstr "secret" ++ cstr "'"] /\
    pw_rc run = 0.
Proof.
  destruct (pbs_db_password_same_user (demo_log_backend [] 0) demo_escape false []
              demo_ok_session [] (Some (cstr "secret")) (cstr "pbsdata") (cstr "secret")
              None (or_introl eq_refl) eq_refl) as (H & _).
  destruct (H ltac:(unfold strlen; simpl; lia)) as (run & Hrun & Hsent & _ & Hacc & _).
  exists run. split; [exact Hrun|]. split; [exact Hsent|].
  apply Hacc. left. reflexivity.
Defined.

(** ** Signalling a job *)

Section SignalFacts.

Variables SIG_RESUME SIG_SUSPEND SIG_ADMIN_RESUME SIG_ADMIN_SUSPEND : list ascii.
Variables JOB_STATE_RUNNING JOB_SUBSTATE_PROVISION JOB_SUBSTATE_SCHSUSP : Z.
Variables JOB_SUBSTATE_SUSPEND JOB_SUBSTATE_RUNNING : Z.
Variables JOB_SVFLG_Suspend JOB_SVFLG_AdmSuspd : Z.
Variables PBSE_BADSTATE PBSE_WRONG_RESUME PBSE_UNKJOBID PBSE_INTERNAL : Z.
Variable SCH_SCHEDULE_NEW : Z.
Variable rel_resc : job -> job.
Variable svr_setjobstate : job -> Z -> Z -> job.
Variable parse_exec_vnode : list ascii -> list vnode_chunk.

Local Abbreviation signal2 :=
  (req_signaljob2 SIG_RESUME SIG_SUSPEND SIG_ADMIN_RESUME SIG_ADMIN_SUSPEND
     JOB_STATE_RUNNING JOB_SUBSTATE_PROVISION JOB_SUBSTATE_SCHSUSP
     JOB_SVFLG_Suspend JOB_SVFLG_AdmSuspd PBSE_BADSTATE PBSE_WRONG_RESUME
     SCH_SCHEDULE_NEW).
Local Abbreviation post_signal :=
  (post_signal_req SIG_RESUME SIG_SUSPEND SIG_ADMIN_RESUME SIG_ADMIN_SUSPEND
     JOB_STATE_RUNNING JOB_SUBSTATE_SCHSUSP JOB_SUBSTATE_SUSPEND JOB_SUBSTATE_RUNNING
     JOB_SVFLG_Suspend JOB_SVFLG_AdmSuspd PBSE_UNKJOBID PBSE_INTERNAL
     rel_resc svr_setjobstate parse_exec_vnode).
Local Abbreviation admin_suspend :=
  (set_admin_suspend JOB_SVFLG_AdmSuspd parse_exec_vnode).

(** Runs through the branches of the code whose trace is [tr]. *)
Ltac branches H :=
  repeat match type of H with
         | context [if ?c then _ else _] => destruct c eqn:?
         | context [match ?c with Some _ => _ | None => _ end] => destruct c eqn:?
         end;
  cbn in H; rewrite H; clear H.

(** The request is answered at once unless it went to MOM, and then not
    at all. *)
Lemma req_signaljob2_settles (preq : batch_request) (pjob : job) (rc_assign rc_relay : Z) :
  forall tr, tr = signal2 preq pjob rc_assign rc_relay ->
  settles tr = if existsb is_relay tr && (rc_relay =? 0) then 0%nat else 1%nat.
Proof.
  intros tr H. unfold req_signaljob2 in H.
  destruct (rc_relay =? 0) eqn:Hrelay; cbn [negb] in H; branches H; reflexivity.
Qed.

(** X20: [req_signaljob2] answers the request at most once, and as the
    last thing it does; it leaves it unanswered exactly when the request
    went to MOM and [relay_to_mom] returned 0.  The request goes to MOM
    only for a running job that is not being provisioned; resources
    assigned for a resume are released again when MOM cannot be reached;
    and a resume is answered without MOM only for a suspended job, when
    the request is neither an admin-resume nor from the scheduler. *)
Theorem req_signaljob2_protocol (preq : batch_request) (pjob : job)
    (rc_assign rc_relay : Z) :
  let tr := signal2 preq pjob rc_assign rc_relay in
  (settles tr <= 1)%nat /\
  (settles tr = 0%nat <-> In SgRelayToMom tr /\ rc_relay = 0) /\
  (forall e, In e tr -> is_settle e = true -> last tr = Some e) /\
  (In SgRelayToMom tr ->
   ji_state pjob = JOB_STATE_RUNNING /\ ji_substate pjob <> JOB_SUBSTATE_PROVISION) /\
  (In SgSetRescAssigned tr -> rc_relay <> 0 -> In SgRelResc tr) /\
  (In SgReplySend tr ->
   rq_fromsvr preq <> 1 /\ streq (rq_signame preq) SIG_ADMIN_RESUME = false /\
   Z.land (ji_svrflags pjob) JOB_SVFLG_Suspend <> 0).
Proof.
  intros tr. remember tr as t eqn:H. subst tr. unfold req_signaljob2 in H.
  destruct (Z.eqb_spec (ji_state pjob) JOB_STATE_RUNNING) as [Hst|Hst];
    destruct (Z.eqb_spec (ji_substate pjob) JOB_SUBSTATE_PROVISION) as [Hsub|Hsub];
    destruct (Z.eqb_spec rc_relay 0) as [Hrl|Hrl];
    destruct (Z.eqb_spec (rq_fromsvr preq) 1) as [Hsv|Hsv];
    destruct (Z.eqb_spec (Z.land (ji_svrflags pjob) JOB_SVFLG_Suspend) 0) as [Hfl|Hfl];
    cbn [negb orb andb] in H; branches H.
  all: split; [cbn; lia|].
  all: split; [cbn; split;
                 [first [discriminate | intros _; split; [cbn; tauto | assumption]]
                 | intros [Hin Hz];
                   first [contradiction | reflexivity
                         | cbn in Hin; exfalso; intuition discriminate]]|].
  all: split; [cbn; intros e Hin He; intuition (subst; try discriminate; reflexivity)|].
  all: split; [cbn; intros Hin; try (exfalso; intuition discriminate); auto|].
  all: split; [cbn; intros Hin Hn; try contradiction; try (exfalso; intuition discriminate);
             tauto|].
  all: cbn; intros Hin; try (exfalso; intuition discriminate); auto.
Qed.

Lemma settles_app (t u : list sig_event) : settles (t ++ u) = (settles t + settles u)%nat.
Proof. unfold settles. rewrite List.filter_app, length_app. reflexivity. Qed.

Lemma maintenance_trace (set : Z) (cs : list vnode_chunk) :
  Forall (fun e => is_node_event e = true) (flat_map (maintenance_events set) cs).
Proof.
  induction cs as [|c cs IH]; [constructor|].
  cbn [flat_map]. apply Forall_app. split; [|exact IH].
  unfold maintenance_events.
  destruct (chunk_parsed c && chunk_found c); [|constructor].
  destruct (negb (set =? 0)); [repeat constructor|].
  destruct (chunk_last_job c); repeat constructor.
Qed.

Lemma node_events_settle (m : list sig_event) :
  Forall (fun e => is_node_event e = true) m -> settles m = 0%nat.
Proof.
  induction 1 as [|e m He _ IH]; [reflexivity|].
  change (e :: m) with ([e] ++ m). rewrite settles_app, IH.
  destruct e; try discriminate; reflexivity.
Qed.

(** The three ways [set_admin_suspend] ends for a job. *)
Lemma set_admin_suspend_cases (strdup_fails : bool) (j : job) (set : Z) :
  (exec_vnode j = None /\ admin_suspend strdup_fails (Some j) set = Undefined) \/
  (exec_vnode j <> None /\ strdup_fails = true /\
   admin_suspend strdup_fails (Some j) set = Ok (Some j, [])) \/
  (exec_vnode j <> None /\ strdup_fails = false /\
   exists m,
     Forall (fun e => is_node_event e = true) m /\
     admin_suspend strdup_fails (Some j) set
     = Ok (Some (set_flags j
                   (if negb (set =? 0) then Z.lor (ji_svrflags j) JOB_SVFLG_AdmSuspd
                    else Z.land (ji_svrflags j) (Z.lnot JOB_SVFLG_AdmSuspd))),
           SgFlags (ji_svrflags j)
             (if negb (set =? 0) then Z.lor (ji_svrflags j) JOB_SVFLG_AdmSuspd
              else Z.land (ji_svrflags j) (Z.lnot JOB_SVFLG_AdmSuspd))
             :: m ++ [SgSaveNodes])).
Proof.
  unfold set_admin_suspend. destruct (exec_vnode j) as [execvn|]; [|left; auto].
  right. destruct strdup_fails; [left; repeat split; discriminate|].
  right. split; [discriminate|]. split; [reflexivity|].
  eexists. split; [apply (maintenance_trace set (parse_exec_vnode execvn))|].
  reflexivity.
Qed.

(** The bits outside the Suspend and the AdmSuspd flag are left alone by
    setting or clearing one of the two. *)
Lemma flag_bits_outside (f s a : Z) :
  Z.land (Z.lor f s) (Z.lnot (Z.lor s a)) = Z.land f (Z.lnot (Z.lor s a)) /\
  Z.land (Z.land f (Z.lnot s)) (Z.lnot (Z.lor s a)) = Z.land f (Z.lnot (Z.lor s a)) /\
  Z.land (Z.lor f a) (Z.lnot (Z.lor s a)) = Z.land f (Z.lnot (Z.lor s a)) /\
  Z.land (Z.land f (Z.lnot a)) (Z.lnot (Z.lor s a)) = Z.land f (Z.lnot (Z.lor s a)).
Proof.
  repeat split; apply Z.bits_inj'; intros n Hn;
    rewrite ?Z.land_spec, ?Z.lor_spec, ?Z.lnot_spec, ?Z.lor_spec by lia;
    destruct (Z.testbit f n), (Z.testbit s n), (Z.testbit a n); reflexivity.
Qed.

(** The ways [post_signal_req] ends when it returns: after an error of
    MOM, without touching the job, after a suspend and after a resume;
    [adm] is what [set_admin_suspend] did in between, if it was
    called. *)
Lemma post_signal_req_inv (strdup_fails : bool) (wt_aux2 : Z) (preq : batch_request)
    (pjob : option job) (tr : list sig_event) (j' : option job) :
  post_signal strdup_fails wt_aux2 preq pjob = Ok (tr, j') ->
  let sig_is name := streq (rq_signame preq) name in
  let suspend := sig_is SIG_SUSPEND || sig_is SIG_ADMIN_SUSPEND in
  let resume := negb suspend && (sig_is SIG_RESUME || sig_is SIG_ADMIN_RESUME) in
  let admin_part (called : bool) (old new : Z) (adm : list sig_event) :=
    ((called = false \/ strdup_fails = true) /\ adm = []) \/
    (called = true /\ strdup_fails = false /\
     exists m,
       adm = SgFlags old new :: m ++ [SgSaveNodes] /\
       Forall (fun e => is_node_event e = true) m) in
  exists pre,
    (pre = [SgRestoreConn] \/ pre = [SgDisconnect; SgRestoreConn]) /\
    ((brp_code preq <> 0 /\
      tr = pre ++ [SgLogEvent PBSEVENT_DEBUG] ++ (if resume then [SgRelResc] else [])
               ++ [SgReject (if brp_code preq =? PBSE_UNKJOBID then PBSE_INTERNAL
                             else brp_code preq)]) \/
     (brp_code preq = 0 /\ tr = pre ++ [SgReplyAck] /\
      forall j, pjob = Some j -> ji_state j = JOB_STATE_RUNNING ->
        (suspend = true /\ Z.land (ji_svrflags j) JOB_SVFLG_Suspend <> 0) \/
        (suspend = false /\ sig_is SIG_RESUME || sig_is SIG_ADMIN_RESUME = false)) \/
     (brp_code preq = 0 /\
      exists j adm ss,
        pjob = Some j /\ ji_state j = JOB_STATE_RUNNING /\ suspend = true /\
        Z.land (ji_svrflags j) JOB_SVFLG_Suspend = 0 /\
        tr = pre ++ [SgFlags (ji_svrflags j) (Z.lor (ji_svrflags j) JOB_SVFLG_Suspend);
                     SgRelResc]
                 ++ adm ++ [SgSetJobState JOB_STATE_RUNNING ss; SgReplyAck] /\
        let old := ji_svrflags
                     (rel_resc (set_flags j (Z.lor (ji_svrflags j) JOB_SVFLG_Suspend))) in
        admin_part (sig_is SIG_ADMIN_SUSPEND) old (Z.lor old JOB_SVFLG_AdmSuspd) adm) \/
     (brp_code preq = 0 /\
      exists j adm,
        pjob = Some j /\ ji_state j = JOB_STATE_RUNNING /\ suspend = false /\
        sig_is SIG_RESUME || sig_is SIG_ADMIN_RESUME = true /\
        tr = pre ++ [SgFlags (ji_svrflags j)
                       (Z.land (ji_svrflags j) (Z.lnot JOB_SVFLG_Suspend))]
                 ++ adm ++ [SgSetJobState JOB_STATE_RUNNING JOB_SUBSTATE_RUNNING;
                            SgReplyAck] /\
        let old := Z.land (ji_svrflags j) (Z.lnot JOB_SVFLG_Suspend) in
        admin_part (sig_is SIG_ADMIN_RESUME) old
                   (Z.land old (Z.lnot JOB_SVFLG_AdmSuspd)) adm)).
Proof.
  intros H. cbv zeta. unfold post_signal_req in H.
  exists ((if negb (wt_aux2 =? 1) then [SgDisconnect] else []) ++ [SgRestoreConn]).
  split; [destruct (negb (wt_aux2 =? 1)); auto|].
  destruct (Z.eqb_spec (brp_code preq) 0) as [Hrc|Hrc]; cbn [negb] in H.
  2:{ left. split; [exact Hrc|]. injection H as <- _. reflexivity. }
  right. destruct pjob as [j|].
  2:{ left. split; [exact Hrc|]. injection H as <- _.
      split; [reflexivity | intros j [=]]. }
  destruct (Z.eqb_spec (ji_state j) JOB_STATE_RUNNING) as [Hst|Hst].
  2:{ rewrite !andb_false_r in H. left. split; [exact Hrc|].
      injection H as <- _.
      split; [reflexivity | intros j0 [= <-] Hs; contradiction]. }
  rewrite !andb_true_r in H.
  destruct (streq (rq_signame preq) SIG_SUSPEND
            || streq (rq_signame preq) SIG_ADMIN_SUSPEND) eqn:Hsus.
  - destruct (Z.eqb_spec (Z.land (ji_svrflags j) JOB_SVFLG_Suspend) 0) as [Hfl|Hfl].
    2:{ left. split; [exact Hrc|]. injection H as <- _.
        split; [reflexivity | intros j0 [= <-] _; left; auto]. }
    right. left. split; [exact Hrc|].
    destruct (streq (rq_signame preq) SIG_ADMIN_SUSPEND) eqn:Hadm.
    + destruct (set_admin_suspend_cases strdup_fails
                  (rel_resc (set_flags j (Z.lor (ji_svrflags j) JOB_SVFLG_Suspend))) 1)
        as [(_ & Hu)|[(_ & Hsf & Hu)|(_ & Hsf & m & Hm & Hu)]];
        rewrite Hu in H; [discriminate| |].
      * injection H as <- _. eexists j, [], _.
        split; [reflexivity|]. split; [exact Hst|].
        split; [first [reflexivity | exact Hsus | rewrite Hadm; apply orb_true_r]|].
        split; [exact Hfl|]. split; [reflexivity | left; auto].
      * injection H as <- _.
        exists j,
          (SgFlags
             (ji_svrflags
                (rel_resc (set_flags j (Z.lor (ji_svrflags j) JOB_SVFLG_Suspend))))
             (Z.lor
                (ji_svrflags
                   (rel_resc (set_flags j (Z.lor (ji_svrflags j) JOB_SVFLG_Suspend))))
                JOB_SVFLG_AdmSuspd)
             :: m ++ [SgSaveNodes]).
        eexists.
        split; [reflexivity|]. split; [exact Hst|].
        split; [first [reflexivity | exact Hsus | rewrite Hadm; apply orb_true_r]|].
        split; [exact Hfl|]. split; [reflexivity|].
        right. split; [reflexivity|]. split; [exact Hsf|].
        exists m. split; [reflexivity | exact Hm].
    + injection H as <- _. eexists j, [], _.
      split; [reflexivity|]. split; [exact Hst|].
        split; [first [reflexivity | exact Hsus | rewrite Hadm; apply orb_true_r]|].
      split; [exact Hfl|]. split; [reflexivity | left; auto].
  - cbn [negb andb] in H.
    destruct (streq (rq_signame preq) SIG_RESUME
              || streq (rq_signame preq) SIG_ADMIN_RESUME) eqn:Hres.
    2:{ left. split; [exact Hrc|]. injection H as <- _.
        split; [reflexivity | intros j0 [= <-] _; right; auto]. }
    right. right. split; [exact Hrc|].
    destruct (streq (rq_signame preq) SIG_ADMIN_RESUME) eqn:Hadm.
    + destruct (set_admin_suspend_cases strdup_fails
                  (set_flags j (Z.land (ji_svrflags j) (Z.lnot JOB_SVFLG_Suspend))) 0)
        as [(_ & Hu)|[(_ & Hsf & Hu)|(_ & Hsf & m & Hm & Hu)]];
        rewrite Hu in H; [discriminate| |].
      * injection H as <- _. eexists j, [].
        split; [reflexivity|]. split; [exact Hst|]. split; [reflexivity|].
        split; [first [reflexivity | exact Hres | rewrite Hadm; apply orb_true_r]|].
        split; [reflexivity | left; auto].
      * injection H as <- _.
        exists j,
          (SgFlags
             (ji_svrflags
                (set_flags j (Z.land (ji_svrflags j) (Z.lnot JOB_SVFLG_Suspend))))
             (Z.land
                (ji_svrflags
                   (set_flags j (Z.land (ji_svrflags j) (Z.lnot JOB_SVFLG_Suspend))))
                (Z.lnot JOB_SVFLG_AdmSuspd))
             :: m ++ [SgSaveNodes]).
        split; [reflexivity|]. split; [exact Hst|]. split; [reflexivity|].
        split; [first [reflexivity | exact Hres | rewrite Hadm; apply orb_true_r]|].
        split; [reflexivity|].
        right. split; [reflexivity|]. split; [exact Hsf|].
        exists m. split; [reflexivity | exact Hm].
    + injection H as <- _. eexists j, [].
      split; [reflexivity|]. split; [exact Hst|]. split; [reflexivity|].
      split; [first [reflexivity | exact Hres | rewrite Hadm; apply orb_true_r]|].
      split; [reflexivity | left; auto].
Qed.

Lemma node_events_not_in (m : list sig_event) (e : sig_event) :
  Forall (fun e => is_node_event e = true) m -> is_node_event e = false -> ~ In e m.
Proof.
  intros Hm He Hin. rewrite Forall_forall in Hm.
  rewrite (Hm e) in He; [discriminate|]. apply list_elem_of_In. exact Hin.
Qed.

(** [post_signal_req] is undefined exactly when it calls
    [set_admin_suspend] for a job without an exec_vnode string, and
    returns otherwise. *)
Lemma post_signal_req_cases (strdup_fails : bool) (wt_aux2 : Z) (preq : batch_request)
    (pjob : option job) :
  let sig_is name := streq (rq_signame preq) name in
  let suspend := sig_is SIG_SUSPEND || sig_is SIG_ADMIN_SUSPEND in
  let strdup_of_null :=
    brp_code preq = 0 /\
    exists j,
      pjob = Some j /\ ji_state j = JOB_STATE_RUNNING /\
      ((sig_is SIG_ADMIN_SUSPEND = true /\
        Z.land (ji_svrflags j) JOB_SVFLG_Suspend = 0 /\
        exec_vnode (rel_resc (set_flags j (Z.lor (ji_svrflags j) JOB_SVFLG_Suspend)))
        = None) \/
       (suspend = false /\ sig_is SIG_ADMIN_RESUME = true /\ exec_vnode j = None)) in
  (strdup_of_null /\ post_signal strdup_fails wt_aux2 preq pjob = Undefined) \/
  (~ strdup_of_null /\
   exists tr j', post_signal strdup_fails wt_aux2 preq pjob = Ok (tr, j')).
Proof.
  cbv zeta. unfold post_signal_req.
  destruct (Z.eqb_spec (brp_code preq) 0) as [Hrc|Hrc]; cbn [negb].
  2:{ right. split; [intros [Hc _]; contradiction | eauto]. }
  destruct pjob as [j|].
  2:{ right. split; [intros (_ & j & Hj & _); discriminate | eauto]. }
  destruct (Z.eqb_spec (ji_state j) JOB_STATE_RUNNING) as [Hst|Hst].
  2:{ rewrite !andb_false_r. right.
      split; [intros (_ & j0 & [= <-] & Hs & _); contradiction | eauto]. }
  rewrite !andb_true_r.
  destruct (streq (rq_signame preq) SIG_ADMIN_SUSPEND) eqn:Hadm.
  - rewrite orb_true_r.
    destruct (Z.eqb_spec (Z.land (ji_svrflags j) JOB_SVFLG_Suspend) 0) as [Hfl|Hfl].
    2:{ right. split; [|eauto].
        intros (_ & j0 & [= <-] & _ & [(_ & Hf & _)|(Hs & _)]);
          [contradiction | discriminate]. }
    destruct (set_admin_suspend_cases strdup_fails
                (rel_resc (set_flags j (Z.lor (ji_svrflags j) JOB_SVFLG_Suspend))) 1)
      as [(Hv & Hu)|[(Hv & _ & Hu)|(Hv & _ & m & _ & Hu)]]; rewrite Hu.
    + left. split; [|reflexivity]. split; [exact Hrc|]. exists j.
      split; [reflexivity|]. split; [exact Hst|]. left. auto.
    + right. split; [|eauto].
      intros (_ & j0 & [= <-] & _ & [(_ & _ & He)|(Hs & _)]);
        [contradiction | discriminate].
    + right. split; [|eauto].
      intros (_ & j0 & [= <-] & _ & [(_ & _ & He)|(Hs & _)]);
        [contradiction | discriminate].
  - rewrite orb_false_r.
    destruct (streq (rq_signame preq) SIG_SUSPEND) eqn:Hsus.
    + right. split.
      * intros (_ & j0 & _ & _ & [(Ha & _)|(Hs & _)]); discriminate.
      * destruct (Z.land (ji_svrflags j) JOB_SVFLG_Suspend =? 0); eauto.
    + cbn [negb andb].
      destruct (streq (rq_signame preq) SIG_ADMIN_RESUME) eqn:Har.
      * rewrite orb_true_r.
        destruct (set_admin_suspend_cases strdup_fails
                    (set_flags j (Z.land (ji_svrflags j) (Z.lnot JOB_SVFLG_Suspend))) 0)
          as [(Hv & Hu)|[(Hv & _ & Hu)|(Hv & _ & m & _ & Hu)]]; rewrite Hu.
        -- left. split; [|reflexivity]. split; [exact Hrc|]. exists j.
           split; [reflexivity|]. split; [exact Hst|]. right. auto.
        -- right. split; [|eauto].
           intros (_ & j0 & [= <-] & _ & [(Ha & _)|(_ & _ & He)]);
             [discriminate | contradiction].
        -- right. split; [|eauto].
           intros (_ & j0 & [= <-] & _ & [(Ha & _)|(_ & _ & He)]);
             [discriminate | contradiction].
      * right. split.
        -- intros (_ & j0 & _ & _ & [(Ha & _)|(_ & Ha & _)]); discriminate.
        -- destruct (streq (rq_signame preq) SIG_RESUME || false); eauto.
Qed.

(** When [post_signal_req] returns, it has answered the request once. *)
Lemma post_signal_req_settles (strdup_fails : bool) (wt_aux2 : Z) (preq : batch_request)
    (pjob : option job) (tr : list sig_event) (j' : option job) :
  post_signal strdup_fails wt_aux2 preq pjob = Ok (tr, j') -> settles tr = 1%nat.
Proof.
  intros H. apply post_signal_req_inv in H. cbv zeta in H.
  destruct H as (pre & Hpre & H).
  assert (settles pre = 0%nat) as Hp by (destruct Hpre; subst pre; reflexivity).
  assert (forall called old new adm,
             ((called = false \/ strdup_fails = true) /\ adm = []) \/
             (called = true /\ strdup_fails = false /\
              exists m,
                adm = SgFlags old new :: m ++ [SgSaveNodes] /\
                Forall (fun e => is_node_event e = true) m) ->
             settles adm = 0%nat) as Hadm.
  { intros called old new adm [(_ & ->)|(_ & _ & m & -> & Hm)]; [reflexivity|].
    change (SgFlags old new :: m ++ [SgSaveNodes])
      with ([SgFlags old new] ++ m ++ [SgSaveNodes]).
    rewrite !settles_app, (node_events_settle m Hm). reflexivity. }
  destruct H as [(_ & ->)|[(_ & -> & _)|[(_ & j & adm & ss & _ & _ & _ & _ & -> & Ha)
                                    |(_ & j & adm & _ & _ & _ & _ & -> & Ha)]]].
  - rewrite !settles_app, Hp.
    destruct (negb _ && _); reflexivity.
  - rewrite !settles_app, Hp. reflexivity.
  - rewrite !settles_app, Hp, (Hadm _ _ _ _ Ha). reflexivity.
  - rewrite !settles_app, Hp, (Hadm _ _ _ _ Ha). reflexivity.
Qed.

(** X21: [post_signal_req] is undefined exactly when MOM reported no
    error for an admin-suspend or admin-resume of a running job that has
    no exec_vnode string, which [set_admin_suspend] hands to [strdup] as
    it is (for the admin-suspend the Suspend flag being clear and the
    string being read after [rel_resc]); in every other case it returns,
    and then it has answered the request exactly once, as the last thing
    it does: with an acknowledgement when MOM reported no error, and
    otherwise with a rejection that carries MOM's code, except that
    PBSE_UNKJOBID is replaced by PBSE_INTERNAL; after an error it
    neither writes the flags of the job, nor sets its state, nor saves
    the nodes.  The flags are written only for a running job, and a
    write is one of four: the suspend of a job whose Suspend flag is
    clear sets that flag, a resume clears it, and [set_admin_suspend],
    when its [strdup] succeeds, sets the AdmSuspd flag after the first
    and clears it after the second; no write changes a bit other than
    these two flags.  Each of these writes is made when its condition
    holds, and [set_admin_suspend] then saves the nodes.  The state set
    is always the running state. *)
Theorem post_signal_req_outcome (strdup_fails : bool) (wt_aux2 : Z)
    (preq : batch_request) (pjob : option job) :
  let sig_is name := streq (rq_signame preq) name in
  let suspend := sig_is SIG_SUSPEND || sig_is SIG_ADMIN_SUSPEND in
  let resume := negb suspend && (sig_is SIG_RESUME || sig_is SIG_ADMIN_RESUME) in
  let others := Z.lnot (Z.lor JOB_SVFLG_Suspend JOB_SVFLG_AdmSuspd) in
  let suspended j := rel_resc (set_flags j (Z.lor (ji_svrflags j) JOB_SVFLG_Suspend)) in
  let resumed j := Z.land (ji_svrflags j) (Z.lnot JOB_SVFLG_Suspend) in
  let run := post_signal strdup_fails wt_aux2 preq pjob in
  let strdup_of_null :=
    brp_code preq = 0 /\
    exists j,
      pjob = Some j /\ ji_state j = JOB_STATE_RUNNING /\
      ((sig_is SIG_ADMIN_SUSPEND = true /\
        Z.land (ji_svrflags j) JOB_SVFLG_Suspend = 0 /\
        exec_vnode (suspended j) = None) \/
       (suspend = false /\ sig_is SIG_ADMIN_RESUME = true /\ exec_vnode j = None)) in
  (run = Undefined <-> strdup_of_null) /\
  (~ strdup_of_null -> exists tr j', run = Ok (tr, j')) /\
  forall tr j', run = Ok (tr, j') ->
    settles tr = 1%nat /\
    (brp_code preq = 0 -> last tr = Some SgReplyAck) /\
    (brp_code preq <> 0 ->
     last tr = Some (SgReject (if brp_code preq =? PBSE_UNKJOBID then PBSE_INTERNAL
                               else brp_code preq)) /\
     (forall old new, ~ In (SgFlags old new) tr) /\
     (forall st ss, ~ In (SgSetJobState st ss) tr) /\
     ~ In SgSaveNodes tr) /\
    (PBSE_INTERNAL <> PBSE_UNKJOBID -> ~ In (SgReject PBSE_UNKJOBID) tr) /\
    (forall old new, In (SgFlags old new) tr ->
     exists j,
       pjob = Some j /\ ji_state j = JOB_STATE_RUNNING /\ brp_code preq = 0 /\
       Z.land new others = Z.land old others /\
       ((suspend = true /\ Z.land (ji_svrflags j) JOB_SVFLG_Suspend = 0 /\
         old = ji_svrflags j /\ new = Z.lor old JOB_SVFLG_Suspend) \/
        (resume = true /\ old = ji_svrflags j /\
         new = Z.land old (Z.lnot JOB_SVFLG_Suspend)) \/
        (sig_is SIG_ADMIN_SUSPEND = true /\
         Z.land (ji_svrflags j) JOB_SVFLG_Suspend = 0 /\ strdup_fails = false /\
         old = ji_svrflags (suspended j) /\ new = Z.lor old JOB_SVFLG_AdmSuspd) \/
        (resume = true /\ sig_is SIG_ADMIN_RESUME = true /\ strdup_fails = false /\
         old = resumed j /\ new = Z.land old (Z.lnot JOB_SVFLG_AdmSuspd)))) /\
    (brp_code preq = 0 ->
     forall j, pjob = Some j -> ji_state j = JOB_STATE_RUNNING ->
       (suspend = true -> Z.land (ji_svrflags j) JOB_SVFLG_Suspend = 0 ->
        In (SgFlags (ji_svrflags j) (Z.lor (ji_svrflags j) JOB_SVFLG_Suspend)) tr /\
        (sig_is SIG_ADMIN_SUSPEND = true -> strdup_fails = false ->
         In (SgFlags (ji_svrflags (suspended j))
               (Z.lor (ji_svrflags (suspended j)) JOB_SVFLG_AdmSuspd)) tr /\
         In SgSaveNodes tr)) /\
       (resume = true ->
        In (SgFlags (ji_svrflags j) (resumed j)) tr /\
        (sig_is SIG_ADMIN_RESUME = true -> strdup_fails = false ->
         In (SgFlags (resumed j) (Z.land (resumed j) (Z.lnot JOB_SVFLG_AdmSuspd))) tr /\
         In SgSaveNodes tr))) /\
    (forall st ss, In (SgSetJobState st ss) tr -> st = JOB_STATE_RUNNING).
Proof.
  cbv zeta.
  pose proof (post_signal_req_cases strdup_fails wt_aux2 preq pjob) as Hc.
  cbv zeta in Hc.
  split; [|split].
  - destruct Hc as [(Hn & Hu)|(Hn & tr & j' & Hok)].
    + rewrite Hu. tauto.
    + rewrite Hok. split; [discriminate | contradiction].
  - intros Hn. destruct Hc as [(Hn' & _)|(_ & Hok)]; [contradiction | exact Hok].
  - clear Hc. intros tr j' H.
    split; [exact (post_signal_req_settles _ _ _ _ _ _ H)|].
    apply post_signal_req_inv in H. cbv zeta in H.
    destruct H as (pre & Hpre & H).
    assert (forall e, is_settle e = true \/ is_node_event e = true \/
                      (exists o n, e = SgFlags o n) \/
                      (exists st ss, e = SgSetJobState st ss) ->
                      ~ In e pre) as Hnp.
    { intros e He Hin.
      destruct Hpre as [-> | ->]; cbn in Hin;
        destruct Hin as [<-|Hin]; try destruct Hin as [<-|[]]; try contradiction;
        destruct He as [He|[He|[(o & n & He)|(st & ss & He)]]]; discriminate. }
    destruct H as [(Hrc & ->)
                  |[(Hrc & -> & Hwhy)
                   |[(Hrc & j & adm & ss & -> & Hst & Hsus & Hfl & -> & Ha)
                    |(Hrc & j & adm & -> & Hst & Hsus & Hres & -> & Ha)]]].
    + (* an error of MOM *)
      split; [intros Hz; contradiction|].
      split.
      { intros _. split; [rewrite !last_app; reflexivity|].
        split; [|split].
        - intros old new Hin. rewrite !in_app_iff in Hin.
          destruct Hin as [Hin|[Hin|[Hin|Hin]]].
          + apply (Hnp (SgFlags old new)); eauto 6.
          + cbn in Hin. intuition discriminate.
          + destruct (negb _ && _); cbn in Hin; intuition discriminate.
          + cbn in Hin. intuition discriminate.
        - intros st0 ss0 Hin. rewrite !in_app_iff in Hin.
          destruct Hin as [Hin|[Hin|[Hin|Hin]]].
          + apply (Hnp (SgSetJobState st0 ss0)); eauto 6.
          + cbn in Hin. intuition discriminate.
          + destruct (negb _ && _); cbn in Hin; intuition discriminate.
          + cbn in Hin. intuition discriminate.
        - intros Hin. rewrite !in_app_iff in Hin.
          destruct Hin as [Hin|[Hin|[Hin|Hin]]].
          + destruct Hpre as [-> | ->]; cbn in Hin; intuition discriminate.
          + cbn in Hin. intuition discriminate.
          + destruct (negb _ && _); cbn in Hin; intuition discriminate.
          + cbn in Hin. intuition discriminate. }
      split.
      { intros Hne Hin. rewrite !in_app_iff in Hin.
        destruct Hin as [Hin|[Hin|[Hin|Hin]]].
        - apply (Hnp (SgReject PBSE_UNKJOBID)); auto.
        - cbn in Hin. intuition discriminate.
        - destruct (negb _ && _); cbn in Hin; intuition discriminate.
        - cbn in Hin. destruct Hin as [Hin|[]]. injection Hin as Hin.
          destruct (Z.eqb_spec (brp_code preq) PBSE_UNKJOBID); congruence. }
      split.
      { intros old new Hin. exfalso. rewrite !in_app_iff in Hin.
        destruct Hin as [Hin|[Hin|[Hin|Hin]]].
        - apply (Hnp (SgFlags old new)); eauto 6.
        - cbn in Hin. intuition discriminate.
        - destruct (negb _ && _); cbn in Hin; intuition discriminate.
        - cbn in Hin. intuition discriminate. }
      split; [intros Hz; contradiction|].
      intros st0 ss0 Hin. exfalso. rewrite !in_app_iff in Hin.
      destruct Hin as [Hin|[Hin|[Hin|Hin]]].
      * apply (Hnp (SgSetJobState st0 ss0)); eauto 6.
      * cbn in Hin. intuition discriminate.
      * destruct (negb _ && _); cbn in Hin; intuition discriminate.
      * cbn in Hin. intuition discriminate.
    + (* nothing to change *)
      split; [intros _; rewrite last_app; reflexivity|].
      split; [intros Hn; contradiction|].
      split.
      { intros _ Hin. rewrite in_app_iff in Hin. destruct Hin as [Hin|Hin].
        - apply (Hnp (SgReject PBSE_UNKJOBID)); auto.
        - cbn in Hin. intuition discriminate. }
      split.
      { intros old new Hin. exfalso. rewrite in_app_iff in Hin.
        destruct Hin as [Hin|Hin].
        - apply (Hnp (SgFlags old new)); eauto 6.
        - cbn in Hin. intuition discriminate. }
      split.
      { intros _ j Hj Hst. destruct (Hwhy j Hj Hst) as [(Hs & Hf)|(Hs & Hr)].
        - split; [intros _ Hz; contradiction|].
          intros Hres. rewrite Hs in Hres. discriminate.
        - split; [intros Hs'; congruence|].
          intros Hres. rewrite Hs, Hr in Hres. discriminate. }
      intros st0 ss0 Hin. exfalso. rewrite in_app_iff in Hin.
      destruct Hin as [Hin|Hin].
      * apply (Hnp (SgSetJobState st0 ss0)); eauto 6.
      * cbn in Hin. intuition discriminate.
    + (* a suspend *)
      cbv zeta in Ha.
      set (f := ji_svrflags j) in *.
      set (f1 := ji_svrflags (rel_resc (set_flags j (Z.lor f JOB_SVFLG_Suspend)))) in *.
      destruct (flag_bits_outside f JOB_SVFLG_Suspend JOB_SVFLG_AdmSuspd)
        as (Hb1 & _ & _ & _).
      destruct (flag_bits_outside f1 JOB_SVFLG_Suspend JOB_SVFLG_AdmSuspd)
        as (_ & _ & Hb3 & _).
      split; [intros _; rewrite !last_app; reflexivity|].
      split; [intros Hn; contradiction|].
      split.
      { intros _ Hin. rewrite !in_app_iff in Hin.
        destruct Hin as [Hin|[Hin|[Hin|Hin]]].
        - apply (Hnp (SgReject PBSE_UNKJOBID)); auto.
        - cbn in Hin. intuition discriminate.
        - destruct Ha as [(_ & ->)|(_ & _ & m & -> & Hm)]; [destruct Hin|].
          cbn in Hin. rewrite in_app_iff in Hin.
          destruct Hin as [Hin|[Hin|Hin]]; [discriminate| |].
          + refine (node_events_not_in m _ Hm _ Hin); reflexivity.
          + cbn in Hin. intuition discriminate.
        - cbn in Hin. intuition discriminate. }
      split.
      { intros old new Hin. exists j.
        split; [reflexivity|]. split; [exact Hst|]. split; [exact Hrc|].
        rewrite !in_app_iff in Hin.
        destruct Hin as [Hin|[Hin|[Hin|Hin]]].
        - exfalso. apply (Hnp (SgFlags old new)); eauto 6.
        - cbn in Hin. destruct Hin as [Hin|[Hin|[]]]; [|discriminate].
          injection Hin as <- <-. split; [exact Hb1|]. left. auto.
        - destruct Ha as [(_ & ->)|(Hcall & Hsf & m & -> & Hm)]; [destruct Hin|].
          cbn in Hin. rewrite in_app_iff in Hin.
          destruct Hin as [Hin|[Hin|Hin]].
          + injection Hin as <- <-. split; [exact Hb3|]. right. right. left. auto.
          + exfalso. refine (node_events_not_in m _ Hm _ Hin); reflexivity.
          + cbn in Hin. exfalso. intuition discriminate.
        - cbn in Hin. exfalso. intuition discriminate. }
      split.
      { intros _ j0 [= <-] _. split.
        - intros _ _. split.
          + rewrite !in_app_iff. right. left. cbn. auto.
          + intros Hcall Hsf.
            destruct Ha as [([Hcall'|Hsf'] & _)|(_ & _ & m & -> & Hm)];
              [congruence | congruence |].
            rewrite !in_app_iff. split.
            * right. right. left. left. cbn. auto.
            * right. right. left. cbn. right. rewrite in_app_iff. right. cbn. auto.
        - intros Hres. rewrite Hsus in Hres. discriminate. }
      intros st0 ss0 Hin. rewrite !in_app_iff in Hin.
      destruct Hin as [Hin|[Hin|[Hin|Hin]]].
      * exfalso. apply (Hnp (SgSetJobState st0 ss0)); eauto 6.
      * cbn in Hin. exfalso. intuition discriminate.
      * exfalso. destruct Ha as [(_ & ->)|(_ & _ & m & -> & Hm)]; [destruct Hin|].
        cbn in Hin. rewrite in_app_iff in Hin.
        destruct Hin as [Hin|[Hin|Hin]]; [discriminate| |].
        -- refine (node_events_not_in m _ Hm _ Hin); reflexivity.
        -- cbn in Hin. intuition discriminate.
      * cbn in Hin. destruct Hin as [Hin|[Hin|[]]]; [|discriminate].
        injection Hin as <- _. reflexivity.
    + (* a resume *)
      cbv zeta in Ha.
      set (f := ji_svrflags j) in *.
      set (f1 := Z.land f (Z.lnot JOB_SVFLG_Suspend)) in *.
      destruct (flag_bits_outside f JOB_SVFLG_Suspend JOB_SVFLG_AdmSuspd)
        as (_ & Hb2 & _ & _).
      destruct (flag_bits_outside f1 JOB_SVFLG_Suspend JOB_SVFLG_AdmSuspd)
        as (_ & _ & _ & Hb4).
      assert (negb (streq (rq_signame preq) SIG_SUSPEND
                    || streq (rq_signame preq) SIG_ADMIN_SUSPEND)
              && (streq (rq_signame preq) SIG_RESUME
                  || streq (rq_signame preq) SIG_ADMIN_RESUME) = true) as Hresume
        by (rewrite Hsus, Hres; reflexivity).
      split; [intros _; rewrite !last_app; reflexivity|].
      split; [intros Hn; contradiction|].
      split.
      { intros _ Hin. rewrite !in_app_iff in Hin.
        destruct Hin as [Hin|[Hin|[Hin|Hin]]].
        - apply (Hnp (SgReject PBSE_UNKJOBID)); auto.
        - cbn in Hin. intuition discriminate.
        - destruct Ha as [(_ & ->)|(_ & _ & m & -> & Hm)]; [destruct Hin|].
          cbn in Hin. rewrite in_app_iff in Hin.
          destruct Hin as [Hin|[Hin|Hin]]; [discriminate| |].
          + refine (node_events_not_in m _ Hm _ Hin); reflexivity.
          + cbn in Hin. intuition discriminate.
        - cbn in Hin. intuition discriminate. }
      split.
      { intros old new Hin. exists j.
        split; [reflexivity|]. split; [exact Hst|]. split; [exact Hrc|].
        rewrite !in_app_iff in Hin.
        destruct Hin as [Hin|[Hin|[Hin|Hin]]].
        - exfalso. apply (Hnp (SgFlags old new)); eauto 6.
        - cbn in Hin. destruct Hin as [Hin|[]].
          injection Hin as <- <-. split; [exact Hb2|]. right. left.
          split; [exact Hresume | auto].
        - destruct Ha as [(_ & ->)|(Hcall & Hsf & m & -> & Hm)]; [destruct Hin|].
          cbn in Hin. rewrite in_app_iff in Hin.
          destruct Hin as [Hin|[Hin|Hin]].
          + injection Hin as <- <-. split; [exact Hb4|]. right. right. right.
            split; [exact Hresume | auto].
          + exfalso. refine (node_events_not_in m _ Hm _ Hin); reflexivity.
          + cbn in Hin. exfalso. intuition discriminate.
        - cbn in Hin. exfalso. intuition discriminate. }
      split.
      { intros _ j0 [= <-] _. split.
        - intros Hs'. congruence.
        - intros _. split.
          + rewrite !in_app_iff. right. left. cbn. auto.
          + intros Hcall Hsf.
            destruct Ha as [([Hcall'|Hsf'] & _)|(_ & _ & m & -> & Hm)];
              [congruence | congruence |].
            rewrite !in_app_iff. split.
            * right. right. left. left. cbn. auto.
            * right. right. left. cbn. right. rewrite in_app_iff. right. cbn. auto. }
      intros st0 ss0 Hin. rewrite !in_app_iff in Hin.
      destruct Hin as [Hin|[Hin|[Hin|Hin]]].
      * exfalso. apply (Hnp (SgSetJobState st0 ss0)); eauto 6.
      * cbn in Hin. exfalso. intuition discriminate.
      * exfalso. destruct Ha as [(_ & ->)|(_ & _ & m & -> & Hm)]; [destruct Hin|].
        cbn in Hin. rewrite in_app_iff in Hin.
        destruct Hin as [Hin|[Hin|Hin]]; [discriminate| |].
        -- refine (node_events_not_in m _ Hm _ Hin); reflexivity.
        -- cbn in Hin. intuition discriminate.
      * cbn in Hin. destruct Hin as [Hin|[Hin|[]]]; [|discriminate].
        injection Hin as <- _. reflexivity.
Qed.

(** X22: a request handled by [req_signaljob2] is answered there exactly
    once unless it went to MOM, and then not at all; when it went to
    MOM, every run of [post_signal_req] on MOM's reply that returns
    brings the number of answers to exactly one, and the run does return
    when the job of the reply, if there is one, has an exec_vnode string
    for [set_admin_suspend] to copy, before and after [rel_resc]. *)
Theorem signal_request_answered_once (preq : batch_request) (pjob : job)
    (rc_assign rc_relay wt_aux2 : Z) (strdup_fails : bool) (reply : batch_request)
    (pjob' : option job) :
  let tr := signal2 preq pjob rc_assign rc_relay in
  let went_to_mom := existsb is_relay tr && (rc_relay =? 0) in
  let run := post_signal strdup_fails wt_aux2 reply pjob' in
  (went_to_mom = false -> settles tr = 1%nat) /\
  (went_to_mom = true ->
   settles tr = 0%nat /\
   (forall tr2 j2, run = Ok (tr2, j2) -> settles (tr ++ tr2) = 1%nat) /\
   ((forall j, pjob' = Some j ->
       exec_vnode j <> None /\
       exec_vnode (rel_resc (set_flags j (Z.lor (ji_svrflags j) JOB_SVFLG_Suspend)))
       <> None) ->
    exists tr2 j2, run = Ok (tr2, j2) /\ settles (tr ++ tr2) = 1%nat)).
Proof.
  intros tr went_to_mom run.
  pose proof (req_signaljob2_settles preq pjob rc_assign rc_relay tr eq_refl) as Hs.
  fold went_to_mom in Hs.
  split; intros Hw; rewrite Hw in Hs; [exact Hs|].
  split; [exact Hs|].
  assert (forall tr2 j2, run = Ok (tr2, j2) -> settles (tr ++ tr2) = 1%nat) as Hone.
  { intros tr2 j2 Hrun. rewrite settles_app, Hs.
    exact (post_signal_req_settles _ _ _ _ _ _ Hrun). }
  split; [exact Hone|].
  intros Hv.
  destruct (post_signal_req_cases strdup_fails wt_aux2 reply pjob')
    as [((_ & j & Hj & _ & Hnull) & _)|(_ & tr2 & j2 & Hrun)].
  - destruct (Hv j Hj) as (Hv1 & Hv2).
    destruct Hnull as [(_ & _ & He)|(_ & _ & He)]; contradiction.
  - exists tr2, j2. split; [exact Hrun | exact (Hone tr2 j2 Hrun)].
Qed.

End SignalFacts.

Section SignalDispatchFacts.

Variables SIG_RESUME SIG_SUSPEND SIG_ADMIN_RESUME SIG_ADMIN_SUSPEND : list ascii.
Variables JOB_STATE_RUNNING JOB_SUBSTATE_PROVISION JOB_SUBSTATE_SCHSUSP : Z.
Variables JOB_SVFLG_Suspend JOB_SVFLG_AdmSuspd : Z.
Variables PBSE_BADSTATE PBSE_WRONG_RESUME PBSE_PERM PBSE_UNKJOBID PBSE_IVALREQ : Z.
Variable SCH_SCHEDULE_NEW : Z.
Variables ATR_DFLAG_OPRD ATR_DFLAG_OPWR ATR_DFLAG_MGRD ATR_DFLAG_MGWR : Z.

Local Abbreviation signal2 :=
  (req_signaljob2 SIG_RESUME SIG_SUSPEND SIG_ADMIN_RESUME SIG_ADMIN_SUSPEND
     JOB_STATE_RUNNING JOB_SUBSTATE_PROVISION JOB_SUBSTATE_SCHSUSP
     JOB_SVFLG_Suspend JOB_SVFLG_AdmSuspd PBSE_BADSTATE PBSE_WRONG_RESUME
     SCH_SCHEDULE_NEW).
Local Abbreviation signal :=
  (req_signaljob SIG_RESUME SIG_SUSPEND SIG_ADMIN_RESUME SIG_ADMIN_SUSPEND
     JOB_STATE_RUNNING JOB_SUBSTATE_PROVISION JOB_SUBSTATE_SCHSUSP
     JOB_SVFLG_Suspend JOB_SVFLG_AdmSuspd PBSE_BADSTATE PBSE_WRONG_RESUME
     PBSE_PERM PBSE_UNKJOBID PBSE_IVALREQ SCH_SCHEDULE_NEW
     ATR_DFLAG_OPRD ATR_DFLAG_OPWR ATR_DFLAG_MGRD ATR_DFLAG_MGWR).
Local Abbreviation rights :=
  (Z.lor (Z.lor (Z.lor ATR_DFLAG_OPRD ATR_DFLAG_OPWR) ATR_DFLAG_MGRD) ATR_DFLAG_MGWR).

Ltac branches H :=
  repeat match type of H with
         | context [if ?c then _ else _] => destruct c eqn:?
         | context [match ?c with Some _ => _ | None => _ end] => destruct c eqn:?
         end;
  cbn in H; rewrite H; clear H.

Lemma req_signaljob2_relay_running (preq : batch_request) (pjob : job)
    (rc_assign rc_relay : Z) :
  In SgRelayToMom (signal2 preq pjob rc_assign rc_relay) ->
  ji_state pjob = JOB_STATE_RUNNING /\ ji_substate pjob <> JOB_SUBSTATE_PROVISION.
Proof.
  remember (signal2 preq pjob rc_assign rc_relay) as t eqn:H.
  unfold req_signaljob2 in H.
  destruct (Z.eqb_spec (ji_state pjob) JOB_STATE_RUNNING) as [Hst|Hst];
    destruct (Z.eqb_spec (ji_substate pjob) JOB_SUBSTATE_PROVISION) as [Hsub|Hsub];
    cbn [negb orb andb] in H; branches H; cbn; intros Hin;
    try (exfalso; intuition discriminate); auto.
Qed.

(** X23: of the requests that [req_signaljob] handles without its loops
    over subjobs, one goes to MOM only if [chk_job_request] gave a job,
    if the requester of a suspend or resume has operator or manager
    rights, and if the job signalled is running and not being
    provisioned: the job itself for a regular job, and for a single
    subjob the subjob found, its offset being known and its state the
    running one. *)
Theorem req_signaljob_guards (preq : batch_request) (rq_perm : Z)
    (chk : option (job * job_kind)) (offset subjob_state : Z) (subjob : option job)
    (rc_assign rc_relay : Z) (tr : list sig_event) :
  signal preq rq_perm chk offset subjob_state subjob rc_assign rc_relay = Handled tr ->
  In SgRelayToMom tr ->
  exists parent jt pjob,
    chk = Some (parent, jt) /\
    (streq (rq_signame preq) SIG_RESUME || streq (rq_signame preq) SIG_ADMIN_RESUME
     || streq (rq_signame preq) SIG_SUSPEND || streq (rq_signame preq) SIG_ADMIN_SUSPEND
     = true -> Z.land rq_perm rights <> 0) /\
    ((jt = IS_ARRAY_NO /\ pjob = parent) \/
     (jt = IS_ARRAY_Single /\ offset <> -1 /\ subjob_state = JOB_STATE_RUNNING /\
      subjob = Some pjob)) /\
    tr = signal2 preq pjob rc_assign rc_relay /\
    ji_state pjob = JOB_STATE_RUNNING /\ ji_substate pjob <> JOB_SUBSTATE_PROVISION.
Proof.
  unfold req_signaljob. destruct chk as [[parent jt]|].
  2:{ intros [= <-] []. }
  set (resume := streq (rq_signame preq) SIG_RESUME
                 || streq (rq_signame preq) SIG_ADMIN_RESUME).
  set (sus := streq (rq_signame preq) SIG_SUSPEND
              || streq (rq_signame preq) SIG_ADMIN_SUSPEND).
  assert (negb resume && sus || resume = resume || sus) as ->
    by (destruct resume, sus; reflexivity).
  destruct (Z.eqb_spec (Z.land rq_perm rights) 0) as [Hp|Hp].
  - destruct (resume || sus) eqn:Hps; cbn [andb].
    + intros [= <-] Hin. cbn in Hin. exfalso. intuition discriminate.
    + intros H Hin. exists parent, jt.
      destruct jt; try discriminate.
      * injection H as <-. exists parent.
        split; [reflexivity|]. split; [rewrite <- orb_assoc; fold sus; congruence|].
        split; [left; auto|]. split; [reflexivity|].
        eapply req_signaljob2_relay_running; exact Hin.
      * destruct (Z.eqb_spec offset (-1)) as [Ho|Ho];
          [injection H as <-; cbn in Hin; exfalso; intuition discriminate|].
        destruct (Z.eqb_spec subjob_state (-1)) as [Hs|Hs];
          [injection H as <-; cbn in Hin; exfalso; intuition discriminate|].
        destruct (Z.eqb_spec subjob_state JOB_STATE_RUNNING) as [Hr|Hr];
          [|injection H as <-; cbn in Hin; exfalso; intuition discriminate].
        destruct subjob as [pjob|];
          [|injection H as <-; cbn in Hin; exfalso; intuition discriminate].
        injection H as <-. exists pjob.
        split; [reflexivity|]. split; [rewrite <- orb_assoc; fold sus; congruence|].
        split; [right; auto|]. split; [reflexivity|].
        eapply req_signaljob2_relay_running; exact Hin.
  - rewrite andb_false_r.
    intros H Hin. exists parent, jt.
    destruct jt; try discriminate.
    + injection H as <-. exists parent.
      split; [reflexivity|]. split; [intros _; exact Hp|].
      split; [left; auto|]. split; [reflexivity|].
      eapply req_signaljob2_relay_running; exact Hin.
    + destruct (Z.eqb_spec offset (-1)) as [Ho|Ho];
        [injection H as <-; cbn in Hin; exfalso; intuition discriminate|].
      destruct (Z.eqb_spec subjob_state (-1)) as [Hs|Hs];
        [injection H as <-; cbn in Hin; exfalso; intuition discriminate|].
      destruct (Z.eqb_spec subjob_state JOB_STATE_RUNNING) as [Hr|Hr];
        [|injection H as <-; cbn in Hin; exfalso; intuition discriminate].
      destruct subjob as [pjob|];
        [|injection H as <-; cbn in Hin; exfalso; intuition discriminate].
      injection H as <-. exists pjob.
      split; [reflexivity|]. split; [intros _; exact Hp|].
      split; [right; auto|]. split; [reflexivity|].
      eapply req_signaljob2_relay_running; exact Hin.
Qed.

End SignalDispatchFacts.

Lemma req_signaljob_guards_witness :
  exists parent jt pjob,
    Some (demo_sig_job 4 42 0, IS_ARRAY_NO) = Some (parent, jt) /\
    (streq (cstr "suspend") (cstr "resume") || streq (cstr "suspend") (cstr "admin-resume")
     || streq (cstr "suspend") (cstr "suspend")
     || streq (cstr "suspend") (cstr "admin-suspend") = true ->
     Z.land 8 (Z.lor (Z.lor (Z.lor 4 8) 16) 32) <> 0) /\
    ((jt = IS_ARRAY_NO /\ pjob = parent) \/
     (jt = IS_ARRAY_Single /\ 0 <> -1 /\ 0 = 4 /\ None = Some pjob)) /\
    [SgExtra; SgLogEvent PBSEVENT_ADMIN; SgLogEvent PBSEVENT_JOB; SgRelayToMom]
    = demo_req_signaljob2 (demo_sig_req "suspend" 0 0) pjob 0 0 /\
    ji_state pjob = 4 /\ ji_substate pjob <> 71.
Proof.
  apply (req_signaljob_guards (cstr "resume") (cstr "suspend") (cstr "admin-resume")
           (cstr "admin-suspend") 4 71 45 4 2097152 15018 15177 15007 15001 15004 1
           4 8 16 32 (demo_sig_req "suspend" 0 0) 8
           (Some (demo_sig_job 4 42 0, IS_ARRAY_NO)) 0 0 None 0 0
           [SgExtra; SgLogEvent PBSEVENT_ADMIN; SgLogEvent PBSEVENT_JOB; SgRelayToMom]).
  - reflexivity.
  - cbn. tauto.
Defined.

(** A suspend asked for without operator or manager rights is turned
    down before the job is looked at. *)
Example req_signaljob_without_rights :
  demo_req_signaljob (demo_sig_req "suspend" 0 0) 3
    (Some (demo_sig_job 4 42 0, IS_ARRAY_NO)) 0 0 None 0 0
  = Handled [SgReject 15007].
Proof. reflexivity. Qed.

(** A resume of the scheduler for a suspended job: the hosts are
    assigned, and released again when MOM cannot be reached. *)
Example req_signaljob2_resume_unreachable :
  demo_req_signaljob2 (demo_sig_req "resume" 1 0) (demo_sig_job 4 45 4) 0 15010
  = [SgExtra; SgLogEvent PBSEVENT_ADMIN; SgAssignHosts (cstr "(node1:ncpus=1)");
     SgSetRescAssigned; SgLogEvent PBSEVENT_JOB; SgRelayToMom; SgRelResc;
     SgReject 15010].
Proof. reflexivity. Qed.

(** MOM's reply to a suspend of a running job. *)
Example post_signal_req_suspend :
  demo_post_signal_req false 1 (demo_sig_req "suspend" 0 0)
    (Some (demo_sig_job 4 42 1))
  = Ok ([SgRestoreConn; SgFlags 1 5; SgRelResc; SgSetJobState 4 43; SgReplyAck],
        Some (demo_sig_job 4 43 5)).
Proof. reflexivity. Qed.

(** MOM's reply to an admin-suspend of a running job: the job gets both
    flags, and its node goes into maintenance. *)
Example post_signal_req_admin_suspend :
  demo_post_signal_req false 1 (demo_sig_req "admin-suspend" 0 0)
    (Some (demo_sig_job 4 42 1))
  = Ok ([SgRestoreConn; SgFlags 1 5; SgRelResc; SgFlags 5 2097157;
         SgMaintJobs (cstr "node1") true; SgVnodeState (cstr "node1") true;
         SgNodeModified (cstr "node1"); SgSaveNodes;
         SgSetJobState 4 43; SgReplyAck],
        Some (demo_sig_job 4 43 2097157)).
Proof. reflexivity. Qed.

(** MOM's reply to an admin-resume of a job that has no exec_vnode
    string: [set_admin_suspend] hands the NULL string to [strdup]. *)
Example post_signal_req_admin_resume_no_vnode :
  demo_post_signal_req false 1 (demo_sig_req "admin-resume" 0 0)
    (Some {| ji_jobid := cstr "12.svr"; ji_state := 4; ji_substate := 45;
             ji_svrflags := 2097156; exec_vnode := None |})
  = Undefined.
Proof. reflexivity. Qed.

(** A suspend that went to MOM and MOM's reply to it: one answer. *)
Example signal_request_suspend_answered_once :
  let tr := demo_req_signaljob2 (demo_sig_req "suspend" 0 0) (demo_sig_job 4 42 0) 0 0 in
  settles tr = 0%nat /\
  exists tr2 j2,
    demo_post_signal_req false 1 (demo_sig_req "suspend" 0 0)
      (Some (demo_sig_job 4 42 0)) = Ok (tr2, j2) /\
    settles (tr ++ tr2) = 1%nat.
Proof. cbv zeta. split; [reflexivity|]. eexists _, _. split; reflexivity. Qed.
